(** * mcp-threejs: the Sketchfab client and the tool adapter of
      [src/mcp_server_threejs/server.py]

    A shallow embedding of [SketchfabClient], [get_oauth_credentials] and
    [handle_invoke_tool].  Python values are an inductive type [value];
    methods are computations in a state-and-exception monad over the one
    client instance, the clock, the requests sent and the file system; what
    the outside world answers (the HTTP server, the system clock, the JSON
    decoder, the archive reader, write faults) is an [environment] record.

    Conventions of the model:
    - numbers are integers ([Z]): epoch seconds, time-to-live and sizes; the
      fractional part of [time.time()] is not modelled;
    - a Python [str] is a [string] whose characters are code points below
      256; [bytes] are [list byte];
    - calls to [logger] have no effect on any result and are left out. *)

From Stdlib Require Import ZArith List String Ascii Bool Lia.
From Stdlib Require Import Strings.Byte.
From Stdlib Require Import DecimalString.
Import ListNotations.
Local Open Scope string_scope.
Local Open Scope Z_scope.
Set Warnings "-register-all".

(** ** Python values *)

Inductive value : Type :=
| VNone
| VBool (b : bool)
| VInt (z : Z)
| VStr (s : string)
| VList (l : list value)
| VDict (d : list (string * value)).

(** [bool(v)]: [None], [False], [0], [""], [[]] and [{}] are falsy. *)
Definition truthy (v : value) : bool :=
  match v with
  | VNone => false
  | VBool b => b
  | VInt z => negb (z =? 0)
  | VStr s => negb (s =? "")%string
  | VList l => match l with [] => false | _ => true end
  | VDict d => match d with [] => false | _ => true end
  end.

(** [x or y] *)
Definition py_or (x y : value) : value := if truthy x then x else y.

(** [all([...])] *)
Definition py_all (l : list value) : bool := forallb truthy l.

(** [type(v).__name__] *)
Definition type_name (v : value) : string :=
  match v with
  | VNone => "NoneType"
  | VBool _ => "bool"
  | VInt _ => "int"
  | VStr _ => "str"
  | VList _ => "list"
  | VDict _ => "dict"
  end.

(** Lookup in a [dict] kept as an association list in insertion order. *)
Fixpoint assoc (k : string) (d : list (string * value)) : option value :=
  match d with
  | [] => None
  | (k', v) :: d' => if (k =? k')%string then Some v else assoc k d'
  end.

(** [d.get(k, default)] and [k in d] on a dict. *)
Definition dict_get (d : list (string * value)) (k : string) (default : value) : value :=
  match assoc k d with Some v => v | None => default end.

Definition dict_has (d : list (string * value)) (k : string) : bool :=
  match assoc k d with Some _ => true | None => false end.

(** ** Text *)

Definition string_of_Z (z : Z) : string := NilZero.string_of_int (Z.to_int z).

Definition hex_digit (n : nat) : ascii :=
  match n with
  | 0 => "0" | 1 => "1" | 2 => "2" | 3 => "3" | 4 => "4" | 5 => "5" | 6 => "6"
  | 7 => "7" | 8 => "8" | 9 => "9" | 10 => "a" | 11 => "b" | 12 => "c"
  | 13 => "d" | 14 => "e" | _ => "f"
  end%nat%char.

Definition hex2 (c : ascii) : string :=
  let n := nat_of_ascii c in
  String (hex_digit (n / 16)) (String (hex_digit (n mod 16)) "").

Definition is_printable_ascii (c : ascii) : bool :=
  let n := nat_of_ascii c in ((32 <=? n) && (n <=? 126))%nat.

Definition chr (n : nat) : ascii := ascii_of_nat n.

(** The double quote character, code 34. *)
Definition dquote : ascii := chr 34.

(** One character of a JSON string under [ensure_ascii=True]: the named
    escapes of [json.encoder], [\u00XX] for every other character outside
    the range from space to tilde. *)
Definition json_escape_char (c : ascii) : string :=
  if (c =? dquote)%char then String "\" (String dquote "")
  else if (c =? "\")%char then "\\"
  else if (c =? chr 10)%char then "\n"
  else if (c =? chr 13)%char then "\r"
  else if (c =? chr 9)%char then "\t"
  else if (c =? chr 8)%char then "\b"
  else if (c =? chr 12)%char then "\f"
  else if is_printable_ascii c then String c ""
  else "\u00" ++ hex2 c.

Fixpoint json_escape (s : string) : string :=
  match s with
  | EmptyString => ""
  | String c s' => json_escape_char c ++ json_escape s'
  end.

Definition json_string (s : string) : string :=
  String dquote (json_escape s ++ String dquote "").

Fixpoint spaces (n : nat) : string :=
  match n with O => "" | S n' => String " " (spaces n') end.

Definition newline : string := String (chr 10) "".

(** With [indent=n] every item starts on a line of its own, indented by the
    nesting level; without it items follow each other on one line. *)
Definition newline_indent (indent : option nat) (level : nat) : string :=
  match indent with
  | Some n => newline ++ spaces (n * level)
  | None => ""
  end.

Definition item_separator (indent : option nat) (level : nat) : string :=
  match indent with
  | Some _ => "," ++ newline_indent indent level
  | None => ", "
  end.

(** [json.dumps(v, indent=indent)] for the values above (every one of them is
    serialisable; dict keys are strings). *)
Fixpoint json_encode (indent : option nat) (level : nat) (v : value) : string :=
  match v with
  | VNone => "null"
  | VBool true => "true"
  | VBool false => "false"
  | VInt z => string_of_Z z
  | VStr s => json_string s
  | VList [] => "[]"
  | VList (x :: xs) =>
      "[" ++ newline_indent indent (S level) ++ json_encode indent (S level) x
      ++ (fix items (l : list value) : string :=
            match l with
            | [] => ""
            | y :: ys => item_separator indent (S level)
                         ++ json_encode indent (S level) y ++ items ys
            end) xs
      ++ newline_indent indent level ++ "]"
  | VDict [] => "{}"
  | VDict ((k, x) :: xs) =>
      "{" ++ newline_indent indent (S level)
      ++ json_string k ++ ": " ++ json_encode indent (S level) x
      ++ (fix items (l : list (string * value)) : string :=
            match l with
            | [] => ""
            | (k', y) :: ys => item_separator indent (S level) ++ json_string k' ++ ": "
                               ++ json_encode indent (S level) y ++ items ys
            end) xs
      ++ newline_indent indent level ++ "}"
  end.

Definition json_dumps (indent : option nat) (v : value) : string :=
  json_encode indent 0 v.

(** [repr(s)] of a string: single quotes unless the text has a single quote
    and no double quote. *)
Fixpoint has_char (c : ascii) (s : string) : bool :=
  match s with
  | EmptyString => false
  | String c' s' => (c =? c')%char || has_char c s'
  end.

(** [str.isprintable] on code points below 256. *)
Definition is_printable (c : ascii) : bool :=
  let n := nat_of_ascii c in
  is_printable_ascii c || ((161 <=? n) && negb (n =? 173))%nat.

Definition repr_char (q c : ascii) : string :=
  if (c =? q)%char || (c =? "\")%char then String "\" (String c "")
  else if (c =? chr 10)%char then "\n"
  else if (c =? chr 13)%char then "\r"
  else if (c =? chr 9)%char then "\t"
  else if is_printable c then String c ""
  else "\x" ++ hex2 c.

Fixpoint repr_body (q : ascii) (s : string) : string :=
  match s with
  | EmptyString => ""
  | String c s' => repr_char q c ++ repr_body q s'
  end.

Definition repr_str (s : string) : string :=
  let q := if has_char "'" s && negb (has_char dquote s) then dquote else "'"%char in
  String q (repr_body q s ++ String q "").

(** [repr(v)] and [str(v)], as an f-string formats a value. *)
Fixpoint py_repr (v : value) : string :=
  match v with
  | VNone => "None"
  | VBool true => "True"
  | VBool false => "False"
  | VInt z => string_of_Z z
  | VStr s => repr_str s
  | VList [] => "[]"
  | VList (x :: xs) =>
      "[" ++ py_repr x
      ++ (fix items (l : list value) : string :=
            match l with
            | [] => ""
            | y :: ys => ", " ++ py_repr y ++ items ys
            end) xs ++ "]"
  | VDict [] => "{}"
  | VDict ((k, x) :: xs) =>
      "{" ++ repr_str k ++ ": " ++ py_repr x
      ++ (fix items (l : list (string * value)) : string :=
            match l with
            | [] => ""
            | (k', y) :: ys => ", " ++ repr_str k' ++ ": " ++ py_repr y ++ items ys
            end) xs ++ "}"
  end.

Definition py_str (v : value) : string :=
  match v with
  | VStr s => s
  | _ => py_repr v
  end.

(** ** Paths ([posixpath]) *)

Fixpoint ends_with_slash (s : string) : bool :=
  match s with
  | EmptyString => false
  | String c EmptyString => (c =? "/")%char
  | String _ s' => ends_with_slash s'
  end.

Definition starts_with_slash (s : string) : bool :=
  match s with
  | String c _ => (c =? "/")%char
  | EmptyString => false
  end.

(** [os.path.join(a, b)] *)
Definition path_join (a b : string) : string :=
  if starts_with_slash b then b
  else if (a =? "")%string || ends_with_slash a then a ++ b
  else a ++ "/" ++ b.

(** [p[:i]] for [i] just past the last slash of [p]. *)
Fixpoint upto_last_slash (p : string) : string :=
  match p with
  | EmptyString => ""
  | String c p' =>
      if has_char "/" p' then String c (upto_last_slash p')
      else if (c =? "/")%char then "/" else ""
  end.

(** [s.rstrip('/')] *)
Fixpoint rstrip_slash (s : string) : string :=
  match s with
  | EmptyString => ""
  | String c s' =>
      let r := rstrip_slash s' in
      if (r =? "")%string && (c =? "/")%char then "" else String c r
  end.

(** [os.path.dirname(p)]: the head, without its trailing slashes unless it is
    made of slashes only. *)
Definition dirname (p : string) : string :=
  let head := upto_last_slash p in
  if (rstrip_slash head =? "")%string then head else rstrip_slash head.

(** A directory name and the directories above it, nearest first. *)
Fixpoint ancestors (fuel : nat) (d : string) : list string :=
  match fuel with
  | O => []
  | S fuel' =>
      if (rstrip_slash d =? "")%string then []
      else d :: ancestors fuel' (dirname d)
  end.

Definition self_and_ancestors (d : string) : list string :=
  ancestors (String.length d) d.

(** ** Exceptions *)

Inductive exn : Type :=
| KeyError (key : value)
| TypeError (msg : string)
| AttributeError (msg : string)
| IndexError (msg : string)
| ValueError (msg : string)
| RequestException (msg : string)
| JSONDecodeError (msg : string)
| OSError (msg : string)
| BadZipFile (msg : string).

(** [str(e)]: a [KeyError] shows the repr of its key. *)
Definition str_exn (e : exn) : string :=
  match e with
  | KeyError k => py_repr k
  | TypeError m | AttributeError m | IndexError m | ValueError m
  | RequestException m | JSONDecodeError m | OSError m | BadZipFile m => m
  end.

Definition no_attribute (v : value) (attr : string) : exn :=
  AttributeError ("'" ++ type_name v ++ "' object has no attribute '" ++ attr ++ "'").

(** ** The outside world *)

Inductive http_method : Type := GET | POST.

Record request : Type := {
  req_method : http_method;
  req_url : string;
  req_params : list (string * value);
  req_data : list (string * value);
  req_headers : list (string * string);
  req_timeout : option Z
}.

Record response : Type := {
  status_code : Z;
  reason : string;
  resp_headers : list (string * string);
  content : list byte
}.

Inductive http_outcome : Type :=
| Unreachable (msg : string)
| Answered (r : response).

Inductive decoded : Type :=
| Decoded (v : value)
| Undecodable (msg : string).

Inductive archive : Type :=
| NotAnArchive (msg : string)
| Archive (entries : list (string * list byte)).

Record cli_args : Type := {
  sketchfab_access_token : option string;
  sketchfab_refresh_token : option string;
  sketchfab_client_id : option string;
  sketchfab_client_secret : option string;
  credentials_file_arg : option string
}.

(** What the process cannot decide: the readings of the clock, the answer to
    each request (given the requests sent before), the JSON decoder and the
    archive reader of the standard library, the home directory, the names of
    temporary files, write faults (writing [data] to [path] fails once [n]
    bytes are on disk), the command line and the environment variables. *)
Record environment : Type := {
  clock : nat -> Z;
  network : list request -> request -> http_outcome;
  json_loads : list byte -> decoded;
  zip_read : list byte -> archive;
  home_dir : string;
  temp_stem : nat -> string;
  write_fault : string -> list byte -> option nat;
  argv : cli_args;
  getenv : string -> option string
}.

(** ** The state of the process *)

Record client : Type := {
  access_token : value;
  refresh_token : value;
  client_id : value;
  client_secret : value;
  token_expiry : value
}.

Record filesystem : Type := {
  dirs : list string;
  files : list (string * list byte)
}.

Record state : Type := {
  self : client;
  ticks : nat;
  sent : list request;
  disk : filesystem;
  temps : nat
}.

Definition api_url : string := "https://api.sketchfab.com/v3".
Definition oauth_url : string := "https://sketchfab.com/oauth2/token/".

Definition with_self (c : client) (s : state) : state :=
  {| self := c; ticks := ticks s; sent := sent s; disk := disk s; temps := temps s |}.

Definition with_disk (d : filesystem) (s : state) : state :=
  {| self := self s; ticks := ticks s; sent := sent s; disk := d; temps := temps s |}.

(** ** The monad of methods: state and exceptions *)

Inductive outcome (A : Type) : Type :=
| Return (a : A)
| Raise (e : exn).
Arguments Return {A} a.
Arguments Raise {A} e.

Definition M (A : Type) : Type := state -> outcome A * state.

Definition ret {A} (a : A) : M A := fun s => (Return a, s).

Definition bind {A B} (c : M A) (k : A -> M B) : M B :=
  fun s => match c s with
           | (Return a, s') => k a s'
           | (Raise e, s') => (Raise e, s')
           end.

Definition raise {A} (e : exn) : M A := fun s => (Raise e, s).

(** [try: c  except Exception as e: h e]; the state reached when the
    exception was raised stays. *)
Definition try_except {A} (c : M A) (h : exn -> M A) : M A :=
  fun s => match c s with
           | (Return a, s') => (Return a, s')
           | (Raise e, s') => h e s'
           end.

Declare Scope monad_scope.
Delimit Scope monad_scope with monad.
Notation "x <- c ;; k" := (bind c (fun x => k))
  (at level 61, c at next level, right associativity) : monad_scope.
Notation "c ;; k" := (bind c (fun _ => k))
  (at level 61, right associativity) : monad_scope.
Local Open Scope monad_scope.

Definition get_self : M client := fun s => (Return (self s), s).
Definition set_self (c : client) : M unit := fun s => (Return tt, with_self c s).
Definition get_disk : M filesystem := fun s => (Return (disk s), s).
Definition set_disk (d : filesystem) : M unit := fun s => (Return tt, with_disk d s).

Definition set_access_token (v : value) : M unit :=
  fun s => (Return tt, with_self {| access_token := v;
                                    refresh_token := refresh_token (self s);
                                    client_id := client_id (self s);
                                    client_secret := client_secret (self s);
                                    token_expiry := token_expiry (self s) |} s).

Definition set_refresh_token (v : value) : M unit :=
  fun s => (Return tt, with_self {| access_token := access_token (self s);
                                    refresh_token := v;
                                    client_id := client_id (self s);
                                    client_secret := client_secret (self s);
                                    token_expiry := token_expiry (self s) |} s).

Definition set_token_expiry (v : value) : M unit :=
  fun s => (Return tt, with_self {| access_token := access_token (self s);
                                    refresh_token := refresh_token (self s);
                                    client_id := client_id (self s);
                                    client_secret := client_secret (self s);
                                    token_expiry := v |} s).

(** ** Operations of the Python runtime on values *)

(** [v.get(key, default)] *)
Definition py_get (v : value) (key : string) (default : value) : M value :=
  match v with
  | VDict d => ret (dict_get d key default)
  | _ => raise (no_attribute v "get")
  end.

(** [v[key]] for a string key *)
Definition py_getitem (v : value) (key : string) : M value :=
  match v with
  | VDict d => match assoc key d with
               | Some x => ret x
               | None => raise (KeyError (VStr key))
               end
  | VList _ => raise (TypeError "list indices must be integers or slices, not str")
  | VStr _ => raise (TypeError "string indices must be integers, not 'str'")
  | _ => raise (TypeError ("'" ++ type_name v ++ "' object is not subscriptable"))
  end.

(** [v[0]] *)
Definition py_getitem0 (v : value) : M value :=
  match v with
  | VList (x :: _) => ret x
  | VList [] => raise (IndexError "list index out of range")
  | VStr (String c _) => ret (VStr (String c ""))
  | VStr EmptyString => raise (IndexError "string index out of range")
  | VDict _ => raise (KeyError (VInt 0))
  | _ => raise (TypeError ("'" ++ type_name v ++ "' object is not subscriptable"))
  end.

Definition is_str (key : string) (v : value) : bool :=
  match v with VStr s => (s =? key)%string | _ => false end.

(** [key in v] for a string key: a key of a dict, an element of a list, a
    substring of a string. *)
Definition py_contains (v : value) (key : string) : M bool :=
  match v with
  | VDict d => ret (dict_has d key)
  | VList l => ret (existsb (is_str key) l)
  | VStr s => ret (match index 0 key s with Some _ => true | None => false end)
  | _ => raise (TypeError ("argument of type '" ++ type_name v ++ "' is not iterable"))
  end.

Fixpoint chars (s : string) : list value :=
  match s with
  | EmptyString => []
  | String c s' => VStr (String c "") :: chars s'
  end.

(** The items a [for] loop over [v] visits. *)
Definition py_iter (v : value) : M (list value) :=
  match v with
  | VList l => ret l
  | VDict d => ret (map (fun kv => VStr (fst kv)) d)
  | VStr s => ret (chars s)
  | _ => raise (TypeError ("'" ++ type_name v ++ "' object is not iterable"))
  end.

(** [v.items()] and [list(v.keys())] *)
Definition py_items (v : value) : M (list (string * value)) :=
  match v with
  | VDict d => ret d
  | _ => raise (no_attribute v "items")
  end.

Definition py_keys (v : value) : M (list value) :=
  match v with
  | VDict d => ret (map (fun kv => VStr (fst kv)) d)
  | _ => raise (no_attribute v "keys")
  end.

(** A value as an operand of [+], [-] and [>] with a number. *)
Definition as_number (v : value) : option Z :=
  match v with
  | VInt z => Some z
  | VBool b => Some (if b then 1 else 0)
  | _ => None
  end.

(** [min(limit, 24)]: 24 when [24 < limit], else [limit] itself. *)
Definition py_min_24 (limit : value) : M value :=
  match limit with
  | VInt z => ret (if 24 <? z then VInt 24 else VInt z)
  | VBool b => ret (VBool b)
  | _ => raise (TypeError ("'<' not supported between instances of 'int' and '"
                           ++ type_name limit ++ "'"))
  end.

(** An [Optional[str]] argument as a value. *)
Definition of_option (o : option string) : value :=
  match o with Some s => VStr s | None => VNone end.

Fixpoint bytes_eqb (a b : list byte) : bool :=
  match a, b with
  | [], [] => true
  | x :: a', y :: b' => Byte.eqb x y && bytes_eqb a' b'
  | _, _ => false
  end.

(** ** The file system *)

Fixpoint lookup_file (p : string) (fl : list (string * list byte)) : option (list byte) :=
  match fl with
  | [] => None
  | (q, data) :: fl' => if (p =? q)%string then Some data else lookup_file p fl'
  end.

(** A path made of slashes only names the root. *)
Definition is_root (p : string) : bool :=
  negb (p =? "")%string && (rstrip_slash p =? "")%string.

Definition isdir (fs : filesystem) (p : string) : bool :=
  is_root p || existsb (String.eqb p) (dirs fs).

Definition isfile (fs : filesystem) (p : string) : bool :=
  match lookup_file p (files fs) with Some _ => true | None => false end.

(** [os.path.exists] *)
Definition path_exists (fs : filesystem) (p : string) : bool :=
  isdir fs p || isfile fs p.

Definition put_file (p : string) (data : list byte) (fs : filesystem) : filesystem :=
  {| dirs := dirs fs; files := (p, data) :: files fs |}.

Definition add_dirs (ds : list string) (fs : filesystem) : filesystem :=
  {| dirs := ds ++ dirs fs; files := files fs |}.

Definition no_such_file (p : string) : exn :=
  OSError ("[Errno 2] No such file or directory: " ++ repr_str p).
Definition is_a_directory (p : string) : exn :=
  OSError ("[Errno 21] Is a directory: " ++ repr_str p).
Definition not_a_directory (p : string) : exn :=
  OSError ("[Errno 20] Not a directory: " ++ repr_str p).
Definition no_space : exn := OSError "[Errno 28] No space left on device".

(** [os.makedirs(name, exist_ok=True)]: fails on the empty name and when the
    name or a directory above it is a file; afterwards the name and the
    directories above it exist.  Paths are compared as they are written. *)
Definition makedirs (name : string) : M unit :=
  fun s =>
    if (name =? "")%string then (Raise (no_such_file name), s)
    else match find (isfile (disk s)) (self_and_ancestors name) with
         | Some f => (Raise (not_a_directory f), s)
         | None => (Return tt, with_disk (add_dirs (self_and_ancestors name) (disk s)) s)
         end.

(** [open(path, 'w')]: the file is created, or emptied when it exists. *)
Definition open_w (path : string) : M unit :=
  fun s =>
    if (path =? "")%string then (Raise (no_such_file path), s)
    else if isdir (disk s) path || ends_with_slash path then (Raise (is_a_directory path), s)
    else if (dirname path =? "")%string || isdir (disk s) (dirname path)
         then (Return tt, with_disk (put_file path [] (disk s)) s)
         else (Raise (no_such_file path), s).

(** [open(path, 'r')] and reading it whole. *)
Definition read_all (path : string) : M (list byte) :=
  fun s =>
    match lookup_file path (files (disk s)) with
    | Some data => (Return data, s)
    | None => if isdir (disk s) path then (Raise (is_a_directory path), s)
              else (Raise (no_such_file path), s)
    end.

Section Methods.

Variable env : environment.

(** Writing [data] to the open file [path] and closing it: all of it, or, on
    a fault, the bytes that reached the disk before the error. *)
Definition write_all (path : string) (data : list byte) : M unit :=
  fun s =>
    match write_fault env path data with
    | None => (Return tt, with_disk (put_file path data (disk s)) s)
    | Some n => (Raise no_space, with_disk (put_file path (firstn n data) (disk s)) s)
    end.

(** [json.load(open(path, 'r'))] *)
Definition json_load (path : string) : M value :=
  data <- read_all path ;;
  match json_loads env data with
  | Decoded v => ret v
  | Undecodable msg => raise (JSONDecodeError msg)
  end.

(** [time.time()]: the next reading of the clock. *)
Definition time_time : M Z :=
  fun s => (Return (clock env (ticks s)),
            {| self := self s; ticks := S (ticks s); sent := sent s;
               disk := disk s; temps := temps s |}).

(** [requests.get] and [requests.post]: the request is recorded; the network
    answers or the call raises. *)
Definition send (r : request) : M response :=
  fun s =>
    let s' := {| self := self s; ticks := ticks s; sent := sent s ++ [r];
                 disk := disk s; temps := temps s |} in
    match network env (sent s) r with
    | Unreachable msg => (Raise (RequestException msg), s')
    | Answered resp => (Return resp, s')
    end.

(** [response.raise_for_status()]: an [HTTPError] for 4xx and 5xx. *)
Definition raise_for_status (url : string) (resp : response) : M unit :=
  if (400 <=? status_code resp) && (status_code resp <? 500)
  then raise (RequestException (string_of_Z (status_code resp) ++ " Client Error: "
                                ++ reason resp ++ " for url: " ++ url))
  else if (500 <=? status_code resp) && (status_code resp <? 600)
  then raise (RequestException (string_of_Z (status_code resp) ++ " Server Error: "
                                ++ reason resp ++ " for url: " ++ url))
  else ret tt.

(** [response.json()] *)
Definition response_json (resp : response) : M value :=
  match json_loads env (content resp) with
  | Decoded v => ret v
  | Undecodable msg => raise (JSONDecodeError msg)
  end.

(** [tempfile.NamedTemporaryFile(suffix=..., delete=False)], closed: an empty
    file under a fresh name. *)
Definition named_temporary_file (suffix : string) : M string :=
  fun s =>
    let name := temp_stem env (temps s) ++ suffix in
    (Return name,
     {| self := self s; ticks := ticks s; sent := sent s;
        disk := put_file name [] (disk s); temps := S (temps s) |}).

(** ** [SketchfabClient] *)

Definition set_expiry (c : client) (e : value) : client :=
  {| access_token := access_token c; refresh_token := refresh_token c;
     client_id := client_id c; client_secret := client_secret c;
     token_expiry := e |}.

(** [__init__]: [token_expiry] starts as [None]; with an access token it
    becomes thirty days from now. *)
Definition init (access refresh cid secret : value) : M client :=
  let c := {| access_token := access; refresh_token := refresh;
              client_id := cid; client_secret := secret;
              token_expiry := VNone |} in
  if truthy (access_token c) && negb (truthy (token_expiry c))
  then now <- time_time ;; ret (set_expiry c (VInt (now + 30 * 24 * 60 * 60)))
  else ret c.

(** The path used when [credentials_file] is [None] or empty. *)
Definition default_credentials_file : string :=
  path_join (home_dir env) ".sketchfab_credentials.json".

Definition credentials_path (credentials_file : option string) : string :=
  match credentials_file with
  | Some p => if (p =? "")%string then default_credentials_file else p
  | None => default_credentials_file
  end.

(** [load_from_file]: a new client, or [None] when there is no file or
    anything raises. *)
Definition load_from_file (credentials_file : option string) : M (option client) :=
  let path := credentials_path credentials_file in
  try_except
    (fs <- get_disk ;;
     if negb (path_exists fs path) then ret None
     else
       credentials <- json_load path ;;
       access <- py_get credentials "access_token" (VStr "") ;;
       refresh <- py_get credentials "refresh_token" (VStr "") ;;
       cid <- py_get credentials "client_id" (VStr "") ;;
       secret <- py_get credentials "client_secret" (VStr "") ;;
       c <- init access refresh cid secret ;;
       has <- py_contains credentials "token_expiry" ;;
       if has then
         expiry <- py_getitem credentials "token_expiry" ;;
         if truthy expiry then ret (Some (set_expiry c expiry)) else ret (Some c)
       else ret (Some c))
    (fun _ => ret None).

(** The dict [store_updated_credentials] serialises. *)
Definition credentials_dict (c : client) : value :=
  VDict [("access_token", if truthy (access_token c) then access_token c else VStr "");
         ("refresh_token", if truthy (refresh_token c) then refresh_token c else VStr "");
         ("client_id", if truthy (client_id c) then client_id c else VStr "");
         ("client_secret", if truthy (client_secret c) then client_secret c else VStr "");
         ("token_expiry", if truthy (token_expiry c) then token_expiry c else VInt 0)].

(** [store_updated_credentials]: make the directory, open the file for
    writing (which empties it), write the JSON text. *)
Definition store_updated_credentials (credentials_file : option string) : M bool :=
  let path := credentials_path credentials_file in
  try_except
    (c <- get_self ;;
     let credentials := credentials_dict c in
     makedirs (dirname path) ;;
     open_w path ;;
     write_all path (list_byte_of_string (json_dumps None credentials)) ;;
     ret true)
    (fun _ => ret false).

(** The form of the refresh grant. *)
Definition refresh_request (c : client) : request :=
  {| req_method := POST; req_url := oauth_url; req_params := [];
     req_data := [("grant_type", VStr "refresh_token");
                  ("client_id", client_id c);
                  ("client_secret", client_secret c);
                  ("refresh_token", refresh_token c)];
     req_headers := []; req_timeout := None |}.

(** [refresh_access_token] *)
Definition refresh_access_token : M bool :=
  c <- get_self ;;
  if negb (py_all [refresh_token c; client_id c; client_secret c]) then ret false
  else
    try_except
      (response <- send (refresh_request c) ;;
       raise_for_status oauth_url response ;;
       token_data <- response_json response ;;
       access <- py_get token_data "access_token" VNone ;;
       set_access_token access ;;
       has_refresh <- py_contains token_data "refresh_token" ;;
       (if has_refresh
        then refresh <- py_get token_data "refresh_token" VNone ;; set_refresh_token refresh
        else ret tt) ;;
       has_ttl <- py_contains token_data "expires_in" ;;
       (if has_ttl
        then now <- time_time ;;
             ttl <- py_get token_data "expires_in" VNone ;;
             match as_number ttl with
             | Some n => set_token_expiry (VInt (now + n))
             | None => raise (TypeError ("unsupported operand type(s) for +: 'float' and '"
                                         ++ type_name ttl ++ "'"))
             end
        else now <- time_time ;; set_token_expiry (VInt (now + 30 * 24 * 60 * 60))) ;;
       store_updated_credentials None ;;
       ret true)
      (fun _ => ret false).

(** [ensure_valid_token] *)
Definition ensure_valid_token : M bool :=
  c <- get_self ;;
  if negb (truthy (access_token c)) then ret false
  else if truthy (token_expiry c) then
    now <- time_time ;;
    match as_number (token_expiry c) with
    | Some expiry => if now >? expiry - 300 then refresh_access_token else ret true
    | None => raise (TypeError ("unsupported operand type(s) for -: '"
                                ++ type_name (token_expiry c) ++ "' and 'int'"))
    end
  else ret true.

(** [get_auth_headers] *)
Definition get_auth_headers : M (list (string * string)) :=
  ensure_valid_token ;;
  c <- get_self ;;
  if truthy (access_token c)
  then ret [("Authorization", "Bearer " ++ py_str (access_token c))]
  else ret [].

(** *** Catalog calls *)

(** The query parameters of a search: [count] only for a truthy [limit]. *)
Definition search_params (query limit : value) : M (list (string * value)) :=
  if truthy limit
  then count <- py_min_24 limit ;; ret [("q", query); ("count", count)]
  else ret [("q", query)].

Definition search_request (params : list (string * value)) : request :=
  {| req_method := GET; req_url := api_url ++ "/search"; req_params := params;
     req_data := []; req_headers := []; req_timeout := None |}.

(** The dict comprehension over [archives.items()]. *)
Fixpoint formats_of (items : list (string * value)) : M (list (string * value)) :=
  match items with
  | [] => ret []
  | (format_name, format_data) :: rest =>
      if truthy format_data
      then size <- py_get format_data "size" (VInt 0) ;;
           more <- formats_of rest ;;
           ret ((format_name, size) :: more)
      else formats_of rest
  end.

(** The projection of one downloadable model. *)
Definition model_data (model isDownloadable : value) : M value :=
  uid <- py_get model "uid" (VStr "") ;;
  name <- py_get model "name" (VStr "") ;;
  description <- py_get model "description" (VStr "") ;;
  viewerUrl <- py_get model "viewerUrl" (VStr "") ;;
  embedUrl <- py_get model "embedUrl" (VStr "") ;;
  thumbnails <- py_get model "thumbnails" VNone ;;
  thumbnailUrl <- (if truthy thumbnails
                   then t <- py_get model "thumbnails" (VDict []) ;;
                        images <- py_get t "images" (VList [VDict []]) ;;
                        first <- py_getitem0 images ;;
                        py_get first "url" (VStr "")
                   else ret (VStr "")) ;;
  user <- py_get model "user" VNone ;;
  username <- (if truthy user
               then u <- py_get model "user" (VDict []) ;; py_get u "username" (VStr "")
               else ret (VStr "")) ;;
  archives <- py_get model "archives" (VDict []) ;;
  items <- py_items archives ;;
  formats <- formats_of items ;;
  ret (VDict [("uid", uid); ("name", name); ("description", description);
              ("viewerUrl", viewerUrl); ("embedUrl", embedUrl);
              ("thumbnailUrl", thumbnailUrl); ("user", username);
              ("isDownloadable", isDownloadable); ("formats", VDict formats)]).

(** The loop over the models of a search response. *)
Fixpoint downloadable_models (models acc : list value) : M (list value) :=
  match models with
  | [] => ret acc
  | model :: rest =>
      isDownloadable <- py_get model "isDownloadable" (VBool false) ;;
      if negb (truthy isDownloadable) then downloadable_models rest acc
      else md <- model_data model isDownloadable ;;
           downloadable_models rest (acc ++ [md])
  end.

(** What [search] does with the response, from [raise_for_status] on. *)
Definition search_results (response : response) : M (list value) :=
  raise_for_status (api_url ++ "/search") response ;;
  data <- response_json response ;;
  has_results <- py_contains data "results" ;;
  if has_results then
    results <- py_getitem data "results" ;;
    has_models <- py_contains results "models" ;;
    if has_models then
      results' <- py_getitem data "results" ;;
      models <- py_getitem results' "models" ;;
      items <- py_iter models ;;
      downloadable_models items []
    else ret []
  else ret [].

(** [search] *)
Definition search (query limit : value) : M (list value) :=
  try_except
    (params <- search_params query limit ;;
     response <- send (search_request params) ;;
     search_results response)
    (fun _ => ret []).

Definition model_url (model_id : value) : string :=
  api_url ++ "/models/" ++ py_str model_id.

Definition download_link_url (model_id : value) : string :=
  api_url ++ "/models/" ++ py_str model_id ++ "/download".

Definition get_request (url : string) (headers : list (string * string)) : request :=
  {| req_method := GET; req_url := url; req_params := []; req_data := [];
     req_headers := headers; req_timeout := None |}.

(** [get_model] *)
Definition get_model (model_id : value) : M value :=
  try_except
    (headers <- get_auth_headers ;;
     response <- send (get_request (model_url model_id) headers) ;;
     raise_for_status (model_url model_id) response ;;
     response_json response)
    (fun e => raise (ValueError ("Failed to get model details: " ++ str_exn e))).

(** [get_download_link] *)
Definition get_download_link (model_id : value) : M value :=
  try_except
    (c <- get_self ;;
     if negb (truthy (access_token c))
     then raise (ValueError "OAuth2 access token is required for downloading models")
     else
       headers <- get_auth_headers ;;
       response <- send (get_request (download_link_url model_id) headers) ;;
       raise_for_status (download_link_url model_id) response ;;
       response_json response)
    (fun e => raise (ValueError ("Failed to get download link: " ++ str_exn e))).

(** *** Downloads *)

Record download_result : Type := {
  output_path : string;
  is_zip : bool;
  extract_dir : option string;
  extracted_files : list string
}.

(** [b'PK\x03\x04'] *)
Definition zip_signature : list byte := [x50; x4b; x03; x04].

(** [len(content) >= 4 and content[0:4] == b'PK\x03\x04'] *)
Definition detect_zip (content : list byte) : bool :=
  (4 <=? List.length content)%nat && bytes_eqb (firstn 4 content) zip_signature.

(** [zipfile.ZipFile(path, 'r')]: the archive reader on the bytes of the file. *)
Definition zip_open (path : string) : M (list (string * list byte)) :=
  data <- read_all path ;;
  match zip_read env data with
  | Archive entries => ret entries
  | NotAnArchive msg => raise (BadZipFile msg)
  end.

(** [extractall(dir)]: each member is written under [dir]; a member whose
    name ends in a slash is a directory.  Member names are taken as relative
    paths. *)
Fixpoint extractall (dir : string) (entries : list (string * list byte)) : M unit :=
  match entries with
  | [] => ret tt
  | (name, data) :: rest =>
      let target := dir ++ "/" ++ name in
      (if ends_with_slash name then makedirs (rstrip_slash target)
       else makedirs (dirname target) ;; open_w target ;; write_all target data) ;;
      extractall dir rest
  end.

Definition download_request (url : string) : request :=
  {| req_method := GET; req_url := url; req_params := []; req_data := [];
     req_headers := []; req_timeout := Some 300 |}.

(** [download_model] *)
Definition download_model (download_url : string) (output : option string)
  : M download_result :=
  try_except
    (response <- send (download_request download_url) ;;
     raise_for_status download_url response ;;
     let content := content response in
     let is_zip := detect_zip content in
     path <- (match output with
              | Some p => if negb (p =? "")%string then ret p
                          else named_temporary_file (if is_zip then ".zip" else "")
              | None => named_temporary_file (if is_zip then ".zip" else "")
              end) ;;
     open_w path ;;
     write_all path content ;;
     if is_zip then
       let dir := path ++ "_extracted" in
       makedirs dir ;;
       entries <- zip_open path ;;
       extractall dir entries ;;
       ret {| output_path := path; is_zip := is_zip; extract_dir := Some dir;
              extracted_files := map fst entries |}
     else
       ret {| output_path := path; is_zip := is_zip; extract_dir := None;
              extracted_files := [] |})
    (fun e => raise (ValueError ("Failed to download model: " ++ str_exn e))).

(** ** Startup: [get_oauth_credentials] *)

(** The five values before any source is read. *)
Definition empty_credential : client :=
  {| access_token := VStr ""; refresh_token := VStr ""; client_id := VStr "";
     client_secret := VStr ""; token_expiry := VInt 0 |}.

(** The file stage of [get_oauth_credentials]: the five locals after the
    [try] block.  The five [.get] calls are on one object, so either the
    first of them raises and no local is assigned, or all five are. *)
Definition load_credentials_file (path : string) : M client :=
  try_except
    (fs <- get_disk ;;
     if path_exists fs path then
       file_credentials <- json_load path ;;
       access <- py_get file_credentials "access_token" (VStr "") ;;
       refresh <- py_get file_credentials "refresh_token" (VStr "") ;;
       cid <- py_get file_credentials "client_id" (VStr "") ;;
       secret <- py_get file_credentials "client_secret" (VStr "") ;;
       expiry <- py_get file_credentials "token_expiry" (VInt 0) ;;
       ret {| access_token := access; refresh_token := refresh; client_id := cid;
              client_secret := secret; token_expiry := expiry |}
     else ret empty_credential)
    (fun _ => ret empty_credential).

(** [os.getenv(name, '')] *)
Definition getenv_or_empty (name : string) : value :=
  match getenv env name with Some s => VStr s | None => VStr "" end.

(** [get_oauth_credentials]: for each token, the command line, then the
    environment, then the file; the expiry comes from the file only. *)
Definition get_oauth_credentials : M value :=
  let path := credentials_path (credentials_file_arg (argv env)) in
  loaded <- load_credentials_file path ;;
  let access := py_or (py_or (of_option (sketchfab_access_token (argv env)))
                             (getenv_or_empty "SKETCHFAB_ACCESS_TOKEN"))
                      (access_token loaded) in
  let refresh := py_or (py_or (of_option (sketchfab_refresh_token (argv env)))
                              (getenv_or_empty "SKETCHFAB_REFRESH_TOKEN"))
                       (refresh_token loaded) in
  let cid := py_or (py_or (of_option (sketchfab_client_id (argv env)))
                          (getenv_or_empty "SKETCHFAB_CLIENT_ID"))
                   (client_id loaded) in
  let secret := py_or (py_or (of_option (sketchfab_client_secret (argv env)))
                             (getenv_or_empty "SKETCHFAB_CLIENT_SECRET"))
                      (client_secret loaded) in
  ret (VDict [("access_token", access); ("refresh_token", refresh);
              ("client_id", cid); ("client_secret", secret);
              ("token_expiry", token_expiry loaded)]).

(** ** The tool adapter: [handle_invoke_tool] *)

Record text_content : Type := {
  content_type : string;
  text : string
}.

(** [types.TextContent(type="text", text=json.dumps(v, indent=2))] *)
Definition text_of (v : value) : text_content :=
  {| content_type := "text"; text := json_dumps (Some 2%nat) v |}.

Definition search_tool_name : string := "threejs_search_models".
Definition get_gltf_url_tool_name : string := "threejs_get_gltf_model_url".

(** [handle_invoke_tool(name, inputs)]; [startup_token] is the variable
    [access_token] of [main] that the handler closes over. *)
Definition handle_invoke_tool (startup_token : value) (name : string) (inputs : value)
  : M (list text_content) :=
  try_except
    (if (name =? search_tool_name)%string then
       query <- py_getitem inputs "query" ;;
       limit <- py_get inputs "limit" (VInt 10) ;;
       results <- search query limit ;;
       ret [text_of (VDict [("models", VList results)])]
     else if (name =? get_gltf_url_tool_name)%string && truthy startup_token then
       model_id <- py_getitem inputs "model_id" ;;
       model <- get_model model_id ;;
       downloadable <- py_get model "isDownloadable" (VBool false) ;;
       if negb (truthy downloadable) then
         name' <- py_get model "name" model_id ;;
         ret [text_of (VDict [("error", VStr ("Model '" ++ py_str name'
                                              ++ "' is not downloadable."))])]
       else
         download_links <- get_download_link model_id ;;
         has_gltf <- py_contains download_links "gltf" ;;
         if negb has_gltf then
           name' <- py_get model "name" model_id ;;
           formats <- py_keys download_links ;;
           ret [text_of (VDict [("error", VStr ("GLTF format is not available for model '"
                                                ++ py_str name' ++ "'."));
                                ("available_formats", VList formats)])]
         else
           gltf <- py_getitem download_links "gltf" ;;
           gltf_url <- py_getitem gltf "url" ;;
           name' <- py_get model "name" model_id ;;
           ret [text_of (VDict [("model_name", name'); ("model_id", model_id);
                                ("gltf_url", gltf_url)])]
     else raise (ValueError ("Unknown tool: " ++ name)))
    (fun e => ret [text_of (VDict [("error", VStr (str_exn e))])]).

End Methods.

(** ** Startup and the tool list *)

Section Startup.

Variable env : environment.

(** The status log of [get_oauth_credentials] evaluates one test that is
    more than logging: with an access token and a truthy expiry it reads the
    clock and compares it with the expiry, which raises for an expiry that is
    no number. *)
Definition log_token_status (access expiry : value) : M unit :=
  if truthy access then
    if truthy expiry then
      now <- time_time env ;;
      match as_number expiry with
      | Some _ => ret tt
      | None => raise (TypeError ("'>' not supported between instances of 'float' and '"
                                  ++ type_name expiry ++ "'"))
      end
    else ret tt
  else ret tt.

(** [get_oauth_credentials] as a whole: the resolution of the five values,
    then the status log, then the dict. *)
Definition get_oauth_credentials_with_status : M value :=
  credentials <- get_oauth_credentials env ;;
  access <- py_getitem credentials "access_token" ;;
  expiry <- py_getitem credentials "token_expiry" ;;
  log_token_status access expiry ;;
  ret credentials.

(** The test [time.time() > token_expiry - 300] in the log of [main]. *)
Definition log_expiry_margin (access expiry : value) : M unit :=
  if truthy access then
    if truthy expiry then
      now <- time_time env ;;
      match as_number expiry with
      | Some _ => ret tt
      | None => raise (TypeError ("unsupported operand type(s) for -: '"
                                  ++ type_name expiry ++ "' and 'int'"))
      end
    else ret tt
  else ret tt.

(** [main], up to the client it builds: the startup access token the
    handlers close over, and the client, whose expiry is the stored one when
    that is truthy. *)
Definition main_client : M (value * client) :=
  oauth_credentials <- get_oauth_credentials_with_status ;;
  access <- py_getitem oauth_credentials "access_token" ;;
  refresh <- py_getitem oauth_credentials "refresh_token" ;;
  cid <- py_getitem oauth_credentials "client_id" ;;
  secret <- py_getitem oauth_credentials "client_secret" ;;
  expiry <- py_get oauth_credentials "token_expiry" (VInt 0) ;;
  log_expiry_margin access expiry ;;
  sketchfab_client <- init env access refresh cid secret ;;
  ret (access, if truthy expiry then set_expiry sketchfab_client expiry
               else sketchfab_client).

End Startup.

Record tool : Type := {
  tool_name : string;
  tool_description : string;
  inputSchema : value
}.

Definition search_tool : tool :=
  {| tool_name := "threejs_search_models";
     tool_description := "Search for 3D models on Sketchfab that match your query.";
     inputSchema :=
       VDict [("type", VStr "object");
              ("properties",
               VDict [("query",
                       VDict [("type", VStr "string");
                              ("description",
                               VStr "Search term for 3D models (e.g., 'car', 'house', 'character')")]);
                      ("limit",
                       VDict [("type", VStr "integer");
                              ("description",
                               VStr "Maximum number of results to return (1-24, default: 10)")])]);
              ("required", VList [VStr "query"])] |}.

Definition get_gltf_url_tool : tool :=
  {| tool_name := "threejs_get_gltf_model_url";
     tool_description :=
       "Get direct url of a GLTF file for a Sketchfab model without downloading it";
     inputSchema :=
       VDict [("type", VStr "object");
              ("properties",
               VDict [("model_id",
                       VDict [("type", VStr "string");
                              ("description",
                               VStr "The uid of the model returned in the Sketchfab search response.")])]);
              ("required", VList [VStr "model_id"])] |}.

(** [handle_list_tools]: the search tool, and the download tool when an
    access token was given at startup. *)
Definition handle_list_tools (startup_token : value) : list tool :=
  (search_tool :: (if truthy startup_token then [get_gltf_url_tool] else []))%list.

(** ** Sample worlds *)

Module Sample.

Definition bytes (s : string) : list byte := list_byte_of_string s.

Definition no_args : cli_args :=
  {| sketchfab_access_token := None; sketchfab_refresh_token := None;
     sketchfab_client_id := None; sketchfab_client_secret := None;
     credentials_file_arg := None |}.

(** A decoder that knows four documents. *)
Definition decoder (data : list byte) : decoded :=
  if bytes_eqb data (bytes "{}") then Decoded (VDict [])
  else if bytes_eqb data (bytes "model")
  then Decoded (VDict [("uid", VStr "m1"); ("name", VStr "Chair");
                       ("isDownloadable", VBool false)])
  else if bytes_eqb data (bytes "[]") then Decoded (VList [])
  else if bytes_eqb data (bytes "ttl")
  then Decoded (VDict [("access_token", VStr "new"); ("expires_in", VStr "soon")])
  else Undecodable "Expecting value: line 1 column 1 (char 0)".

Definition answer (status : Z) (body : list byte) : http_outcome :=
  Answered {| status_code := status; reason := "";
              resp_headers := [("Content-Type", "text/plain")]; content := body |}.

(** A world whose clock always reads [now], whose server answers every
    request with [reply] and whose writes fail as [fault] says. *)
Definition world (now : Z) (reply : http_outcome) (fault : option nat) : environment :=
  {| clock := fun _ => now;
     network := fun _ _ => reply;
     json_loads := decoder;
     zip_read := fun _ => Archive [];
     home_dir := "/home/u";
     temp_stem := fun _ => "/tmp/tmpabc";
     write_fault := fun _ _ => fault;
     argv := no_args;
     getenv := fun _ => None |}.

Definition credential (access refresh : string) (expiry : value) : client :=
  {| access_token := VStr access; refresh_token := VStr refresh;
     client_id := VStr "id"; client_secret := VStr "secret";
     token_expiry := expiry |}.

Definition start (c : client) (fs : filesystem) : state :=
  {| self := c; ticks := 0; sent := []; disk := fs; temps := 0 |}.

Definition tmp_only : filesystem := {| dirs := ["/tmp"]; files := [] |}.

End Sample.

(** ** A sample catalog *)

Module Catalog.

Definition chair : value :=
  VDict [("uid", VStr "m1"); ("name", VStr "Chair"); ("isDownloadable", VBool true);
         ("archives", VDict [("gltf", VDict [("size", VInt 1024)]); ("usdz", VNone)])].

Definition statue : value :=
  VDict [("uid", VStr "m2"); ("name", VStr "Statue"); ("isDownloadable", VBool false)].

(** The documents the sample server sends, keyed by their bytes. *)
Definition decoder (data : list byte) : decoded :=
  if bytes_eqb data (Sample.bytes "search")
  then Decoded (VDict [("results", VDict [("models", VList [statue; chair])])])
  else if bytes_eqb data (Sample.bytes "broken")
  then Decoded (VDict [("results", VDict [("models", VList [chair; VNone])])])
  else if bytes_eqb data (Sample.bytes "detail") then Decoded chair
  else if bytes_eqb data (Sample.bytes "links")
  then Decoded (VDict [("gltf", VDict [("url", VStr "https://cdn/m1.zip");
                                       ("size", VInt 1024)]);
                       ("usdz", VDict [("url", VStr "https://cdn/m1.usdz")])])
  else if bytes_eqb data (Sample.bytes "nogltf")
  then Decoded (VDict [("usdz", VDict [("url", VStr "https://cdn/m1.usdz")]);
                       ("glb", VDict [("url", VStr "https://cdn/m1.glb")])])
  else if bytes_eqb data (Sample.bytes "token")
  then Decoded (VDict [("access_token", VStr "new"); ("refresh_token", VStr "r2");
                       ("expires_in", VInt 3600)])
  else Undecodable "Expecting value: line 1 column 1 (char 0)".

(** The server: the body [search_body] for a search, "detail" for a model,
    [links_body] for its download links, "token" for the refresh grant. *)
Definition server (search_body links_body : string) (r : request) : http_outcome :=
  if (req_url r =? oauth_url)%string then Sample.answer 200 (Sample.bytes "token")
  else if (req_url r =? api_url ++ "/search")%string
  then Sample.answer 200 (Sample.bytes search_body)
  else if (req_url r =? model_url (VStr "m1"))%string
  then Sample.answer 200 (Sample.bytes "detail")
  else if (req_url r =? download_link_url (VStr "m1"))%string
  then Sample.answer 200 (Sample.bytes links_body)
  else Sample.answer 404 [].

Definition world (now : Z) (search_body links_body : string) : environment :=
  {| clock := fun _ => now;
     network := fun _ r => server search_body links_body r;
     json_loads := decoder;
     zip_read := fun _ => Archive [];
     home_dir := "/home/u";
     temp_stem := fun _ => "/tmp/tmpabc";
     write_fault := fun _ _ => None;
     argv := Sample.no_args;
     getenv := fun _ => None |}.

End Catalog.

(** ** Vocabulary of the properties *)

(** The state after one reading of the clock. *)
Definition ticked (s : state) : state :=
  {| self := self s; ticks := S (ticks s); sent := sent s; disk := disk s;
     temps := temps s |}.

(** The state after one request. *)
Definition requested (r : request) (s : state) : state :=
  {| self := self s; ticks := ticks s; sent := sent s ++ [r]; disk := disk s;
     temps := temps s |}.

(** The ways the exchange fails before the body is taken apart: the request
    raises, the status is 4xx or 5xx, the body is no JSON, or it is JSON but
    no object. *)
Inductive exchange_fails (env : environment) (s : state) : Prop :=
| fails_unreachable (msg : string) :
    network env (sent s) (refresh_request (self s)) = Unreachable msg ->
    exchange_fails env s
| fails_status (resp : response) :
    network env (sent s) (refresh_request (self s)) = Answered resp ->
    400 <= status_code resp < 600 ->
    exchange_fails env s
| fails_undecodable (resp : response) (msg : string) :
    network env (sent s) (refresh_request (self s)) = Answered resp ->
    json_loads env (content resp) = Undecodable msg ->
    exchange_fails env s
| fails_not_object (resp : response) (v : value) :
    network env (sent s) (refresh_request (self s)) = Answered resp ->
    json_loads env (content resp) = Decoded v ->
    (forall d, v <> VDict d) ->
    exchange_fails env s.

(** A credentials file that cannot be used: there is nothing at the path, or
    the file is no JSON, or it is JSON but no object. *)
Inductive unusable (env : environment) (fs : filesystem) (path : string) : Prop :=
| file_missing :
    path_exists fs path = false -> unusable env fs path
| file_undecodable (data : list byte) (msg : string) :
    lookup_file path (files fs) = Some data ->
    json_loads env data = Undecodable msg ->
    unusable env fs path
| file_not_object (data : list byte) (v : value) :
    lookup_file path (files fs) = Some data ->
    json_loads env data = Decoded v ->
    (forall d, v <> VDict d) ->
    unusable env fs path.

(** Neither the command line nor the environment overrides a token. *)
Definition no_overrides (env : environment) : Prop :=
  sketchfab_access_token (argv env) = None
  /\ sketchfab_refresh_token (argv env) = None
  /\ sketchfab_client_id (argv env) = None
  /\ sketchfab_client_secret (argv env) = None
  /\ forall name, getenv env name = None.

(** Every request [c] adds to the trace satisfies [P]. *)
Definition sends_only {A} (P : request -> Prop) (c : M A) : Prop :=
  forall s, exists l, sent (snd (c s)) = (sent s ++ l)%list /\ Forall P l.

(** Directories stay: [c] removes none. *)
Definition keeps_dirs {A} (c : M A) : Prop :=
  forall s d, isdir (disk s) d = true -> isdir (disk (snd (c s))) d = true.

(** [c] never raises. *)
Definition never_raises {A} (c : M A) : Prop :=
  forall s, exists a s', c s = (Return a, s').

(** Every value [c] returns satisfies [Q]. *)
Definition returns {A} (Q : A -> Prop) (c : M A) : Prop :=
  forall s a s', c s = (Return a, s') -> Q a.

(** [c] leaves the part [f] of the state as it was. *)
Definition preserves {X A} (f : state -> X) (c : M A) : Prop :=
  forall s, f (snd (c s)) = f s.

(** A model a search keeps: a dict whose [isDownloadable] is truthy. *)
Definition downloadable (model : value) : bool :=
  match model with
  | VDict d => truthy (dict_get d "isDownloadable" (VBool false))
  | _ => false
  end.

(** [summary] is the projection [search] makes of [model]: the five texts
    and the flag copied, absent texts empty. *)
Definition summarises (model summary : value) : Prop :=
  exists d thumbnail user formats,
    model = VDict d
    /\ summary = VDict [("uid", dict_get d "uid" (VStr ""));
                        ("name", dict_get d "name" (VStr ""));
                        ("description", dict_get d "description" (VStr ""));
                        ("viewerUrl", dict_get d "viewerUrl" (VStr ""));
                        ("embedUrl", dict_get d "embedUrl" (VStr ""));
                        ("thumbnailUrl", thumbnail);
                        ("user", user);
                        ("isDownloadable", dict_get d "isDownloadable" (VBool false));
                        ("formats", VDict formats)].

(** The identity of the OAuth client: id and secret. *)
Definition identity (s : state) : value * value :=
  (client_id (self s), client_secret (self s)).

(** One text block. *)
Definition one_text (l : list text_content) : Prop :=
  exists t, l = [t] /\ content_type t = "text".

(** A call to the catalog that raised [e], with the text its handler puts
    before the cause. *)
Inductive catalog_call_fails (env : environment) (s : state) (e : exn) (s' : state)
  : string -> Prop :=
| get_model_fails (model_id : value) :
    get_model env model_id s = (Raise e, s') ->
    catalog_call_fails env s e s' "Failed to get model details: "
| get_download_link_fails (model_id : value) :
    get_download_link env model_id s = (Raise e, s') ->
    catalog_call_fails env s e s' "Failed to get download link: "
| download_model_fails (url : string) (output : option string) :
    download_model env url output s = (Raise e, s') ->
    catalog_call_fails env s e s' "Failed to download model: ".

(** The answer to a request gives [search] no list of models: the request
    raises, the status is 4xx or 5xx, the body is no JSON or no object, or the
    object has no member [results]. *)
Inductive no_result_list (env : environment) (history : list request) (r : request)
  : Prop :=
| no_answer (msg : string) :
    network env history r = Unreachable msg -> no_result_list env history r
| error_status (resp : response) :
    network env history r = Answered resp ->
    400 <= status_code resp < 600 ->
    no_result_list env history r
| no_json (resp : response) (msg : string) :
    network env history r = Answered resp ->
    json_loads env (content resp) = Undecodable msg ->
    no_result_list env history r
| no_object (resp : response) (v : value) :
    network env history r = Answered resp ->
    json_loads env (content resp) = Decoded v ->
    (forall d, v <> VDict d) ->
    no_result_list env history r
| no_results (resp : response) (d : list (string * value)) :
    network env history r = Answered resp ->
    json_loads env (content resp) = Decoded (VDict d) ->
    dict_has d "results" = false ->
    no_result_list env history r.

(** The credential after a refresh answered by the object [d] at time [now]
    with a time-to-live of [n] seconds. *)
Definition refreshed (c : client) (d : list (string * value)) (now n : Z) : client :=
  {| access_token := dict_get d "access_token" VNone;
     refresh_token := if dict_has d "refresh_token"
                      then dict_get d "refresh_token" VNone
                      else refresh_token c;
     client_id := client_id c;
     client_secret := client_secret c;
     token_expiry := VInt (now + n) |}.

(** The time-to-live a refresh applies: the member [expires_in] when there is
    one (it has to be a number), else thirty days. *)
Definition time_to_live (d : list (string * value)) : option Z :=
  if dict_has d "expires_in" then as_number (dict_get d "expires_in" VNone)
  else Some (30 * 24 * 60 * 60).

(** The credential as [store_updated_credentials] writes it: empty texts for
    empty tokens, id and secret. *)
Definition as_stored (c : client) : client :=
  {| access_token := py_or (access_token c) (VStr "");
     refresh_token := py_or (refresh_token c) (VStr "");
     client_id := py_or (client_id c) (VStr "");
     client_secret := py_or (client_secret c) (VStr "");
     token_expiry := token_expiry c |}.

(** The credentials file can be written at [path]: the path has a directory
    part, is no directory itself, no file stands where a directory is needed,
    and the write meets no fault. *)
Definition writable (env : environment) (s : state) (path : string) : Prop :=
  dirname path <> ""
  /\ ends_with_slash path = false
  /\ isdir (disk s) path = false
  /\ find (isfile (disk s)) (self_and_ancestors (dirname path)) = None
  /\ write_fault env path
       (list_byte_of_string (json_dumps None (credentials_dict (self s)))) = None.

(** How one of the four texts is resolved from the command line argument
    [arg], the environment variable [var] and the value of the file. *)
Inductive resolved (arg var : option string) (stored : value) : value -> Prop :=
| from_command_line (a : string) :
    arg = Some a -> a <> "" -> resolved arg var stored (VStr a)
| from_environment (e : string) :
    arg = None \/ arg = Some "" -> var = Some e -> e <> "" ->
    resolved arg var stored (VStr e)
| from_file :
    arg = None \/ arg = Some "" -> var = None \/ var = Some "" ->
    resolved arg var stored stored.

(** A world for saving and loading: its decoder reads back the document of
    the credential [c], its command line and environment give [access] for
    the access token, and its credentials file is the default one. *)
Definition saving_world (c : client) (access_arg access_var : option string) : environment :=
  {| clock := fun _ => 2000;
     network := fun _ _ => Sample.answer 404 [];
     json_loads := fun data =>
       if bytes_eqb data (list_byte_of_string (json_dumps None (credentials_dict c)))
       then Decoded (credentials_dict c)
       else Undecodable "Expecting value: line 1 column 1 (char 0)";
     zip_read := fun _ => Archive [];
     home_dir := "/home/u";
     temp_stem := fun _ => "/tmp/tmpabc";
     write_fault := fun _ _ => None;
     argv := {| sketchfab_access_token := access_arg; sketchfab_refresh_token := None;
                sketchfab_client_id := None; sketchfab_client_secret := None;
                credentials_file_arg := None |};
     getenv := fun name => if (name =? "SKETCHFAB_ACCESS_TOKEN")%string
                           then access_var else None |}.

(** A disk that holds the document of the credential [c] in the default
    credentials file. *)
Definition saved_disk (c : client) : filesystem :=
  {| dirs := ["/home/u"; "/home"];
     files := [("/home/u/.sketchfab_credentials.json",
                list_byte_of_string (json_dumps None (credentials_dict c)))] |}.

(** The client [load_from_file] builds from the object [d] of the file when
    the clock reads [now]: the four texts as they are in the file (empty when
    absent), the expiry of the file when it is truthy, else thirty days from
    now with an access token, else unset. *)
Definition loaded_client (d : list (string * value)) (now : Z) : client :=
  {| access_token := dict_get d "access_token" (VStr "");
     refresh_token := dict_get d "refresh_token" (VStr "");
     client_id := dict_get d "client_id" (VStr "");
     client_secret := dict_get d "client_secret" (VStr "");
     token_expiry :=
       if truthy (dict_get d "token_expiry" VNone) then dict_get d "token_expiry" VNone
       else if truthy (dict_get d "access_token" (VStr ""))
            then VInt (now + 2592000)
            else VNone |}.

(** ** Properties *)

(** *** Text and paths *)

Example json_dumps_error :
  json_dumps (Some 2%nat) (VDict [("error", VStr "Unknown tool: x")])
  = "{" ++ newline ++ "  " ++ json_string "error" ++ ": "
    ++ json_string "Unknown tool: x" ++ newline ++ "}".
Proof. reflexivity. Qed.

Example dirname_home : dirname "/home/u/.sketchfab_credentials.json" = "/home/u".
Proof. reflexivity. Qed.

Example dirname_bare : dirname "creds.json" = "".
Proof. reflexivity. Qed.

Lemma state_eta (s : state) :
  {| self := self s; ticks := ticks s; sent := sent s; disk := disk s;
     temps := temps s |} = s.
Proof. destruct s; reflexivity. Qed.

(** *** Token lifecycle *)

(** A falsy expiry: the token is used as it is, nothing is read or sent. *)
Lemma ensure_valid_token_falsy_expiry (env : environment) (s : state) :
  truthy (token_expiry (self s)) = false ->
  ensure_valid_token env s = (Return (truthy (access_token (self s))), s).
Proof.
  intros He. unfold ensure_valid_token, bind, get_self, ret.
  destruct (truthy (access_token (self s))); simpl; [| reflexivity].
  rewrite He. reflexivity.
Qed.

(** C5. With [token_expiry] unset ([None]) or 0, [ensure_valid_token]
    returns whether the access token is non-empty and leaves the state as it
    was: no clock reading, no request, no change of the credential, hence no
    refresh attempt. *)
Theorem ensure_valid_token_without_expiry (env : environment) (s : state) :
  token_expiry (self s) = VNone \/ token_expiry (self s) = VInt 0 ->
  ensure_valid_token env s = (Return (truthy (access_token (self s))), s)
  /\ sent (snd (ensure_valid_token env s)) = sent s
  /\ self (snd (ensure_valid_token env s)) = self s.
Proof.
  intros H.
  assert (E : ensure_valid_token env s = (Return (truthy (access_token (self s))), s)).
  { apply ensure_valid_token_falsy_expiry. destruct H as [-> | ->]; reflexivity. }
  rewrite E. repeat split.
Qed.

Lemma ensure_valid_token_without_expiry_witness :
  ensure_valid_token (Sample.world 2000 (Sample.answer 200 []) None)
    (Sample.start (Sample.credential "tok" "" VNone) Sample.tmp_only)
  = (Return true, Sample.start (Sample.credential "tok" "" VNone) Sample.tmp_only).
Proof.
  apply (ensure_valid_token_without_expiry
           (Sample.world 2000 (Sample.answer 200 []) None)
           (Sample.start (Sample.credential "tok" "" VNone) Sample.tmp_only)).
  left. reflexivity.
Defined.

(** Without all three of refresh token, client id and client secret,
    [refresh_access_token] gives up at once. *)
Lemma refresh_access_token_missing_fields (env : environment) (s : state) :
  py_all [refresh_token (self s); client_id (self s); client_secret (self s)] = false ->
  refresh_access_token env s = (Return false, s).
Proof.
  intros H. unfold refresh_access_token, bind, get_self, ret.
  rewrite H. reflexivity.
Qed.

(** When the token is due for refresh, [ensure_valid_token] reads the clock
    and hands over to [refresh_access_token]. *)
Lemma ensure_valid_token_due (env : environment) (s : state) (e : Z) :
  truthy (access_token (self s)) = true ->
  token_expiry (self s) = VInt e -> e <> 0 ->
  clock env (ticks s) > e - 300 ->
  ensure_valid_token env s = refresh_access_token env (ticked s).
Proof.
  intros Ha He Hz Hnow. unfold ensure_valid_token, bind, get_self, time_time.
  rewrite Ha, He. simpl.
  destruct (e =? 0) eqn:E0; [apply Z.eqb_eq in E0; contradiction |].
  simpl. fold (ticked s).
  destruct (clock env (ticks s) >? e - 300) eqn:G; [reflexivity |].
  rewrite Z.gtb_ltb in G. apply Z.ltb_ge in G. lia.
Qed.

(** Before the margin of five minutes, the token is used as it is. *)
Lemma ensure_valid_token_fresh (env : environment) (s : state) (e : Z) :
  truthy (access_token (self s)) = true ->
  token_expiry (self s) = VInt e -> e <> 0 ->
  clock env (ticks s) <= e - 300 ->
  ensure_valid_token env s = (Return true, ticked s).
Proof.
  intros Ha He Hz Hnow. unfold ensure_valid_token, bind, get_self, time_time.
  rewrite Ha, He. simpl.
  destruct (e =? 0) eqn:E0; [apply Z.eqb_eq in E0; contradiction |].
  simpl. fold (ticked s).
  destruct (clock env (ticks s) >? e - 300) eqn:G; [| reflexivity].
  rewrite Z.gtb_ltb in G. apply Z.ltb_lt in G. lia.
Qed.

(** C1, as the code has it.  An access token that is due for refresh while
    one of refresh token, client id and client secret is missing:
    [ensure_valid_token] returns [False], sends nothing and leaves the
    credential and the disk as they were; [get_auth_headers] drops that
    result and still attaches the token it holds. *)
Theorem ensure_valid_token_cannot_refresh (env : environment) (s : state) (e : Z) :
  truthy (access_token (self s)) = true ->
  token_expiry (self s) = VInt e -> e <> 0 ->
  clock env (ticks s) > e - 300 ->
  py_all [refresh_token (self s); client_id (self s); client_secret (self s)] = false ->
  ensure_valid_token env s = (Return false, ticked s)
  /\ sent (ticked s) = sent s
  /\ self (ticked s) = self s
  /\ get_auth_headers env s
     = (Return [("Authorization", "Bearer " ++ py_str (access_token (self s)))], ticked s).
Proof.
  intros Ha He Hz Hnow Hall.
  assert (E : ensure_valid_token env s = (Return false, ticked s)).
  { rewrite (ensure_valid_token_due env s e Ha He Hz Hnow).
    apply refresh_access_token_missing_fields. exact Hall. }
  repeat split; try exact E.
  unfold get_auth_headers, bind. rewrite E. unfold get_self. simpl.
  rewrite Ha. reflexivity.
Qed.

Lemma ensure_valid_token_cannot_refresh_witness :
  ensure_valid_token (Sample.world 2000 (Sample.answer 200 []) None)
    (Sample.start (Sample.credential "tok" "" (VInt 1000)) Sample.tmp_only)
  = (Return false,
     ticked (Sample.start (Sample.credential "tok" "" (VInt 1000)) Sample.tmp_only)).
Proof.
  apply (ensure_valid_token_cannot_refresh
           (Sample.world 2000 (Sample.answer 200 []) None)
           (Sample.start (Sample.credential "tok" "" (VInt 1000)) Sample.tmp_only)
           1000); try reflexivity.
  discriminate.
Defined.

(** C1, as the specification words it, fails: with the token "tok", expiry
    1000, the clock at 2000 and no refresh token, [ensure_valid_token] does
    not return [True]. *)
Lemma ensure_valid_token_stale_returns_false :
  let env := Sample.world 2000 (Sample.answer 200 []) None in
  let s := Sample.start (Sample.credential "tok" "" (VInt 1000)) Sample.tmp_only in
  truthy (access_token (self s)) = true
  /\ token_expiry (self s) = VInt 1000
  /\ clock env (ticks s) > 1000 - 300
  /\ truthy (refresh_token (self s)) = false
  /\ fst (ensure_valid_token env s) = Return false
  /\ fst (ensure_valid_token env s) <> Return true.
Proof.
  cbv zeta. repeat split; try reflexivity. discriminate.
Qed.

(** *** Refresh *)

Lemma raise_for_status_cases (env : environment) (url : string) (resp : response)
      (s : state) :
  (400 <= status_code resp < 600 /\ exists e, raise_for_status url resp s = (Raise e, s))
  \/ (~ 400 <= status_code resp < 600 /\ raise_for_status url resp s = (Return tt, s)).
Proof.
  unfold raise_for_status.
  destruct (400 <=? status_code resp) eqn:A; destruct (status_code resp <? 500) eqn:B;
    destruct (500 <=? status_code resp) eqn:C; destruct (status_code resp <? 600) eqn:D;
    simpl;
    try apply Z.leb_le in A; try apply Z.leb_gt in A;
    try apply Z.ltb_lt in B; try apply Z.ltb_ge in B;
    try apply Z.leb_le in C; try apply Z.leb_gt in C;
    try apply Z.ltb_lt in D; try apply Z.ltb_ge in D;
    try (left; split; [lia | eexists; reflexivity]);
    try (right; split; [lia | reflexivity]).
Qed.

(** C2, as the code has it.  When refresh cannot start (a refresh field is
    missing) or the exchange fails before the body is taken apart (the request
    raises, status 4xx or 5xx, a body that is no JSON object),
    [refresh_access_token] returns [False]; the five fields and the disk are
    as before, and the only trace is the request itself. *)
Theorem refresh_failure_leaves_credential (env : environment) (s : state) :
  py_all [refresh_token (self s); client_id (self s); client_secret (self s)] = false
  \/ exchange_fails env s ->
  exists s', refresh_access_token env s = (Return false, s')
             /\ self s' = self s
             /\ disk s' = disk s
             /\ (s' = s \/ s' = requested (refresh_request (self s)) s).
Proof.
  intros [Hmiss | Hfail].
  - exists s. rewrite (refresh_access_token_missing_fields env s Hmiss). auto.
  - destruct (py_all [refresh_token (self s); client_id (self s); client_secret (self s)])
      eqn:Hall.
    2:{ exists s. rewrite (refresh_access_token_missing_fields env s Hall). auto. }
    exists (requested (refresh_request (self s)) s).
    split; [| repeat split; auto].
    unfold refresh_access_token, bind, get_self. rewrite Hall. simpl.
    unfold try_except, send.
    destruct Hfail as [msg Hn | resp Hn Hst | resp msg Hn Hj | resp v Hn Hj Hv];
      rewrite Hn; fold (requested (refresh_request (self s)) s).
    + reflexivity.
    + destruct (raise_for_status_cases env oauth_url resp
                  (requested (refresh_request (self s)) s)) as [[_ [e He]] | [Hno _]].
      * rewrite He. reflexivity.
      * contradiction.
    + destruct (raise_for_status_cases env oauth_url resp
                  (requested (refresh_request (self s)) s)) as [[_ [e He]] | [_ He]];
        rewrite He; [reflexivity |].
      unfold response_json. rewrite Hj. reflexivity.
    + destruct (raise_for_status_cases env oauth_url resp
                  (requested (refresh_request (self s)) s)) as [[_ [e He]] | [_ He]];
        rewrite He; [reflexivity |].
      unfold response_json. rewrite Hj.
      destruct v; try reflexivity.
      exfalso. apply (Hv d). reflexivity.
Qed.

Lemma refresh_failure_leaves_credential_witness :
  exists s',
    refresh_access_token (Sample.world 2000 (Sample.answer 503 []) None)
      (Sample.start (Sample.credential "tok" "r" (VInt 1000)) Sample.tmp_only)
    = (Return false, s')
    /\ self s' = Sample.credential "tok" "r" (VInt 1000)
    /\ disk s' = Sample.tmp_only
    /\ (s' = Sample.start (Sample.credential "tok" "r" (VInt 1000)) Sample.tmp_only
        \/ s' = requested (refresh_request (Sample.credential "tok" "r" (VInt 1000)))
                  (Sample.start (Sample.credential "tok" "r" (VInt 1000)) Sample.tmp_only)).
Proof.
  apply (refresh_failure_leaves_credential
           (Sample.world 2000 (Sample.answer 503 []) None)
           (Sample.start (Sample.credential "tok" "r" (VInt 1000)) Sample.tmp_only)).
  right. eapply fails_status; [reflexivity |]. simpl. lia.
Defined.

(** C2, as the specification words it, fails on bodies that are JSON objects
    but incomplete or ill-typed.  The body [{}] (no access token) is taken
    for a success: [True] is returned and the access token is now [None].
    A body whose [expires_in] is a string makes refresh return [False] after
    the access token has been overwritten. *)
Lemma refresh_incomplete_body_changes_credential :
  let s := Sample.start (Sample.credential "tok" "r" (VInt 1000)) Sample.tmp_only in
  let empty_object := Sample.world 2000 (Sample.answer 200 (Sample.bytes "{}")) None in
  let bad_ttl := Sample.world 2000 (Sample.answer 200 (Sample.bytes "ttl")) None in
  access_token (self s) = VStr "tok"
  /\ fst (refresh_access_token empty_object s) = Return true
  /\ access_token (self (snd (refresh_access_token empty_object s))) = VNone
  /\ token_expiry (self (snd (refresh_access_token empty_object s))) = VInt 2594000
  /\ fst (refresh_access_token bad_ttl s) = Return false
  /\ access_token (self (snd (refresh_access_token bad_ttl s))) = VStr "new".
Proof.
  cbv zeta. repeat split; vm_compute; reflexivity.
Qed.

(** *** The requests a computation sends *)

Lemma sends_nothing {A} (P : request -> Prop) (c : M A) :
  (forall s, sent (snd (c s)) = sent s) -> sends_only P c.
Proof.
  intros H s. exists []. rewrite app_nil_r. auto.
Qed.

Lemma sends_only_ret {A} (P : request -> Prop) (a : A) : sends_only P (ret a).
Proof. apply sends_nothing. reflexivity. Qed.

Lemma sends_only_raise {A} (P : request -> Prop) (e : exn) : sends_only P (@raise A e).
Proof. apply sends_nothing. reflexivity. Qed.

Lemma sends_only_bind {A B} (P : request -> Prop) (c : M A) (k : A -> M B) :
  sends_only P c -> (forall a, sends_only P (k a)) -> sends_only P (bind c k).
Proof.
  intros Hc Hk s. unfold bind.
  destruct (Hc s) as [l [El Fl]]. destruct (c s) as [[a | e] s1]; simpl in *.
  - destruct (Hk a s1) as [l' [El' Fl']]. exists (l ++ l')%list.
    rewrite El', El, app_assoc. split; [reflexivity | apply Forall_app; auto].
  - exists l. auto.
Qed.

Lemma sends_only_try {A} (P : request -> Prop) (c : M A) (h : exn -> M A) :
  sends_only P c -> (forall e, sends_only P (h e)) -> sends_only P (try_except c h).
Proof.
  intros Hc Hh s. unfold try_except.
  destruct (Hc s) as [l [El Fl]]. destruct (c s) as [[a | e] s1]; simpl in *.
  - exists l. auto.
  - destruct (Hh e s1) as [l' [El' Fl']]. exists (l ++ l')%list.
    rewrite El', El, app_assoc. split; [reflexivity | apply Forall_app; auto].
Qed.

Lemma sends_only_send (env : environment) (P : request -> Prop) (r : request) :
  P r -> sends_only P (send env r).
Proof.
  intros HP s. exists [r]. unfold send.
  destruct (network env (sent s) r); simpl; auto.
Qed.

Create HintDb trace.
#[local] Hint Resolve sends_only_ret sends_only_raise sends_only_send : trace.

Ltac quiet := apply sends_nothing; intros; reflexivity.

Ltac trace_step :=
  match goal with
  | |- sends_only _ (bind _ _) => apply sends_only_bind; [| intros]
  | |- sends_only _ (try_except _ _) => apply sends_only_try; [| intros]
  | |- sends_only _ (if ?b then _ else _) => destruct b
  | |- sends_only _ (match ?x with _ => _ end) => destruct x
  | |- sends_only _ _ => solve [eauto with trace]
  end.

Ltac trace := repeat trace_step.

Section Traces.

Variable env : environment.
Variable P : request -> Prop.

Lemma sends_only_py_get v k d : sends_only P (py_get v k d).
Proof. unfold py_get. trace. Qed.

Lemma sends_only_py_getitem v k : sends_only P (py_getitem v k).
Proof. unfold py_getitem. trace. Qed.

Lemma sends_only_py_getitem0 v : sends_only P (py_getitem0 v).
Proof. unfold py_getitem0. trace. Qed.

Lemma sends_only_py_contains v k : sends_only P (py_contains v k).
Proof. unfold py_contains. trace. Qed.

Lemma sends_only_py_iter v : sends_only P (py_iter v).
Proof. unfold py_iter. trace. Qed.

Lemma sends_only_py_items v : sends_only P (py_items v).
Proof. unfold py_items. trace. Qed.

Lemma sends_only_py_keys v : sends_only P (py_keys v).
Proof. unfold py_keys. trace. Qed.

Lemma sends_only_py_min_24 v : sends_only P (py_min_24 v).
Proof. unfold py_min_24. trace. Qed.

Lemma sends_only_raise_for_status url resp : sends_only P (raise_for_status url resp).
Proof. unfold raise_for_status. trace. Qed.

Lemma sends_only_response_json resp : sends_only P (response_json env resp).
Proof. unfold response_json. trace. Qed.

Lemma sends_only_time_time : sends_only P (time_time env).
Proof. quiet. Qed.

Lemma sends_only_get_self : sends_only P get_self.
Proof. quiet. Qed.

Lemma sends_only_get_disk : sends_only P get_disk.
Proof. quiet. Qed.

Lemma sends_only_set_access_token v : sends_only P (set_access_token v).
Proof. quiet. Qed.

Lemma sends_only_set_refresh_token v : sends_only P (set_refresh_token v).
Proof. quiet. Qed.

Lemma sends_only_set_token_expiry v : sends_only P (set_token_expiry v).
Proof. quiet. Qed.

Lemma sends_only_makedirs name : sends_only P (makedirs name).
Proof.
  apply sends_nothing. intros s. unfold makedirs.
  destruct (name =? "")%string; [reflexivity |].
  destruct (find _ _); reflexivity.
Qed.

Lemma sends_only_open_w path : sends_only P (open_w path).
Proof.
  apply sends_nothing. intros s. unfold open_w.
  repeat match goal with |- context [if ?b then _ else _] => destruct b end; reflexivity.
Qed.

Lemma sends_only_write_all path data : sends_only P (write_all env path data).
Proof.
  apply sends_nothing. intros s. unfold write_all.
  destruct (write_fault env path data); reflexivity.
Qed.

Hint Resolve sends_only_py_get sends_only_py_getitem sends_only_py_getitem0
  sends_only_py_contains sends_only_py_iter sends_only_py_items sends_only_py_keys
  sends_only_py_min_24 sends_only_raise_for_status sends_only_response_json
  sends_only_time_time sends_only_get_self sends_only_get_disk
  sends_only_set_access_token sends_only_set_refresh_token sends_only_set_token_expiry
  sends_only_makedirs sends_only_open_w sends_only_write_all : trace.

Lemma sends_only_formats_of items : sends_only P (formats_of items).
Proof.
  induction items as [| [k d] rest IH]; simpl; trace.
Qed.
Hint Resolve sends_only_formats_of : trace.

Lemma sends_only_model_data model d : sends_only P (model_data model d).
Proof. unfold model_data. trace. Qed.
Hint Resolve sends_only_model_data : trace.

Lemma sends_only_downloadable_models models :
  forall acc, sends_only P (downloadable_models models acc).
Proof.
  induction models as [| m rest IH]; intros acc; simpl; trace.
Qed.
Hint Resolve sends_only_downloadable_models : trace.

Lemma sends_only_search_results resp : sends_only P (search_results env resp).
Proof. unfold search_results. trace. Qed.

Lemma sends_only_store_updated_credentials file :
  sends_only P (store_updated_credentials env file).
Proof. unfold store_updated_credentials. trace. Qed.
Hint Resolve sends_only_store_updated_credentials : trace.

(** Refresh sends the refresh grant and nothing else. *)
Lemma sends_only_refresh_access_token :
  (forall c, P (refresh_request c)) -> sends_only P (refresh_access_token env).
Proof.
  intros HP. unfold refresh_access_token. trace.
Qed.

Lemma sends_only_ensure_valid_token :
  (forall c, P (refresh_request c)) -> sends_only P (ensure_valid_token env).
Proof.
  intros HP. unfold ensure_valid_token. trace.
  apply sends_only_refresh_access_token. exact HP.
Qed.

Lemma sends_only_get_auth_headers :
  (forall c, P (refresh_request c)) -> sends_only P (get_auth_headers env).
Proof.
  intros HP. unfold get_auth_headers. trace.
  apply sends_only_ensure_valid_token. exact HP.
Qed.

(** [get_model] sends at most the refresh grant and the request for the
    model's details. *)
Lemma sends_only_get_model model_id :
  (forall c, P (refresh_request c)) ->
  (forall headers, P (get_request (model_url model_id) headers)) ->
  sends_only P (get_model env model_id).
Proof.
  intros HP HQ. unfold get_model. trace.
  apply sends_only_get_auth_headers. exact HP.
Qed.

End Traces.

(** *** Search *)

(** Once the parameters are built, [search] sends exactly one request. *)
Lemma search_sends (env : environment) (query limit : value)
      (params : list (string * value)) (s : state) :
  search_params query limit s = (Return params, s) ->
  sent (snd (search env query limit s)) = (sent s ++ [search_request params])%list.
Proof.
  intros H. unfold search, try_except, bind. rewrite H. unfold send.
  destruct (network env (sent s) (search_request params)) as [msg | resp];
    [reflexivity |].
  fold (requested (search_request params) s).
  destruct (sends_only_search_results env (fun _ => False) resp
              (requested (search_request params) s)) as [l [El Fl]].
  destruct l as [| r l]; [| inversion Fl; contradiction].
  rewrite app_nil_r in El.
  destruct (search_results env resp (requested (search_request params) s))
    as [[a | e] s2]; simpl in *; exact El.
Qed.

(** The search tool sends the request [search] builds from [inputs]. *)
Lemma search_tool_sends (env : environment) (tok : value)
      (inputs params : list (string * value)) (query : value) (s : state) :
  assoc "query" inputs = Some query ->
  search_params query (dict_get inputs "limit" (VInt 10)) s = (Return params, s) ->
  sent (snd (handle_invoke_tool env tok search_tool_name (VDict inputs) s))
  = (sent s ++ [search_request params])%list.
Proof.
  intros Hq Hp.
  pose proof (search_sends env query _ params s Hp) as Hs.
  unfold handle_invoke_tool, try_except, bind.
  rewrite String.eqb_refl. unfold py_getitem. rewrite Hq. unfold ret at 1.
  unfold py_get, ret at 1.
  destruct (search env query (dict_get inputs "limit" (VInt 10)) s) as [[r | e] s1];
    simpl in *; exact Hs.
Qed.

(** C4, as the code has it.  For a call of the search tool with a query:
    one search request is sent; without a [limit] its [count] is 10; with an
    integer limit of at least 1 its [count] is the smaller of the limit and
    24, which lies between 1 and 24; with the limit 0 it carries no [count]
    at all. *)
Theorem search_tool_effective_limit (env : environment) (tok : value)
        (inputs : list (string * value)) (query : value) (s : state) :
  assoc "query" inputs = Some query ->
  (assoc "limit" inputs = None
   \/ exists n, assoc "limit" inputs = Some (VInt n) /\ 0 <= n) ->
  exists params,
    sent (snd (handle_invoke_tool env tok search_tool_name (VDict inputs) s))
    = (sent s ++ [search_request params])%list
    /\ assoc "q" params = Some query
    /\ (assoc "limit" inputs = None -> assoc "count" params = Some (VInt 10))
    /\ (forall n, assoc "limit" inputs = Some (VInt n) -> 1 <= n ->
                  assoc "count" params = Some (VInt (Z.min n 24))
                  /\ 1 <= Z.min n 24 <= 24)
    /\ (assoc "limit" inputs = Some (VInt 0) -> assoc "count" params = None).
Proof.
  intros Hq [Hnone | [n [Hn Hpos]]].
  - exists [("q", query); ("count", VInt 10)].
    split; [| repeat split; try reflexivity; intros; congruence].
    apply (search_tool_sends env tok inputs _ query s Hq).
    unfold dict_get. rewrite Hnone. reflexivity.
  - destruct (Z.eq_dec n 0) as [-> | Hnz].
    + exists [("q", query)].
      split; [| repeat split; try reflexivity; intros; try congruence].
      * apply (search_tool_sends env tok inputs _ query s Hq).
        unfold dict_get. rewrite Hn. reflexivity.
      * rewrite Hn in H. injection H as <-. lia.
      * rewrite Hn in H. injection H as <-. lia.
      * rewrite Hn in H. injection H as <-. lia.
    + exists [("q", query); ("count", VInt (Z.min n 24))].
      split; [| repeat split; try reflexivity; intros; try congruence].
      * apply (search_tool_sends env tok inputs _ query s Hq).
        unfold dict_get. rewrite Hn. unfold search_params. simpl.
        destruct (n =? 0) eqn:E0; [apply Z.eqb_eq in E0; contradiction |].
        simpl. unfold bind, ret.
        destruct (24 <? n) eqn:E24.
        -- apply Z.ltb_lt in E24. rewrite Z.min_r by lia. reflexivity.
        -- apply Z.ltb_ge in E24. rewrite Z.min_l by lia. reflexivity.
      * rewrite Hn in H. injection H as <-. reflexivity.
      * rewrite Hn in H. injection H as <-. lia.
      * rewrite Hn in H. injection H as <-. lia.
Qed.

Lemma search_tool_effective_limit_witness :
  exists params,
    sent (snd (handle_invoke_tool (Sample.world 2000 (Sample.answer 200 []) None)
                 (VStr "") search_tool_name
                 (VDict [("query", VStr "car"); ("limit", VInt 30)])
                 (Sample.start (Sample.credential "" "" VNone) Sample.tmp_only)))
    = [search_request params]
    /\ assoc "count" params = Some (VInt 24).
Proof.
  destruct (search_tool_effective_limit
              (Sample.world 2000 (Sample.answer 200 []) None) (VStr "")
              [("query", VStr "car"); ("limit", VInt 30)] (VStr "car")
              (Sample.start (Sample.credential "" "" VNone) Sample.tmp_only))
    as [params [Hs [_ [_ [Hn _]]]]].
  - reflexivity.
  - right. exists 30. split; [reflexivity | lia].
  - exists params. split; [exact Hs |].
    destruct (Hn 30) as [Hc _]; [reflexivity | lia | exact Hc].
Defined.

(** C4, as the specification words it, fails for the limit 0: the request
    goes out with no [count], so the effective limit is whatever the provider
    defaults to, not 10.  A negative limit is sent as it is. *)
Lemma search_tool_limit_zero_sends_no_count :
  let env := Sample.world 2000 (Sample.answer 200 []) None in
  let s := Sample.start (Sample.credential "" "" VNone) Sample.tmp_only in
  sent (snd (handle_invoke_tool env (VStr "") search_tool_name
               (VDict [("query", VStr "car"); ("limit", VInt 0)]) s))
  = [search_request [("q", VStr "car")]]
  /\ assoc "count" [("q", VStr "car")] <> Some (VInt 10)
  /\ sent (snd (handle_invoke_tool env (VStr "") search_tool_name
                  (VDict [("query", VStr "car"); ("limit", VInt (-5))]) s))
     = [search_request [("q", VStr "car"); ("count", VInt (-5))]].
Proof.
  cbv zeta. repeat split; try (vm_compute; reflexivity). discriminate.
Qed.

(** *** The tool adapter *)

(** C10. Without an access token at startup, the name
    [threejs_get_gltf_model_url] is answered with one text block holding
    the JSON object whose only member is [error], with the message "Unknown
    tool: threejs_get_gltf_model_url"; nothing is raised and the state is
    unchanged.  Any other name that is not the search tool gets the answer of
    the same shape. *)
Theorem gltf_tool_without_token_is_unknown (env : environment) (tok inputs : value)
        (s : state) :
  truthy tok = false ->
  handle_invoke_tool env tok get_gltf_url_tool_name inputs s
  = (Return [text_of (VDict [("error",
                              VStr "Unknown tool: threejs_get_gltf_model_url")])], s)
  /\ text (text_of (VDict [("error", VStr "Unknown tool: threejs_get_gltf_model_url")]))
     = "{" ++ newline ++ "  " ++ json_string "error" ++ ": "
       ++ json_string "Unknown tool: threejs_get_gltf_model_url" ++ newline ++ "}"
  /\ forall name, name <> search_tool_name -> name <> get_gltf_url_tool_name ->
       handle_invoke_tool env tok name inputs s
       = (Return [text_of (VDict [("error", VStr ("Unknown tool: " ++ name))])], s).
Proof.
  intros Htok. split; [| split].
  - unfold handle_invoke_tool, try_except.
    replace (get_gltf_url_tool_name =? search_tool_name)%string with false
      by reflexivity.
    rewrite String.eqb_refl, Htok. reflexivity.
  - reflexivity.
  - intros name H1 H2. unfold handle_invoke_tool, try_except.
    apply String.eqb_neq in H1. apply String.eqb_neq in H2.
    rewrite H1, H2. reflexivity.
Qed.

Lemma gltf_tool_without_token_is_unknown_witness :
  handle_invoke_tool (Sample.world 2000 (Sample.answer 200 []) None) (VStr "")
    get_gltf_url_tool_name (VDict [("model_id", VStr "m1")])
    (Sample.start (Sample.credential "" "" VNone) Sample.tmp_only)
  = (Return [text_of (VDict [("error",
                              VStr "Unknown tool: threejs_get_gltf_model_url")])],
     Sample.start (Sample.credential "" "" VNone) Sample.tmp_only).
Proof.
  destruct (gltf_tool_without_token_is_unknown
              (Sample.world 2000 (Sample.answer 200 []) None) (VStr "")
              (VDict [("model_id", VStr "m1")])
              (Sample.start (Sample.credential "" "" VNone) Sample.tmp_only))
    as [H _].
  - reflexivity.
  - exact H.
Defined.

(** *** The constructor *)

(** C9. Constructing the client with a non-empty access token reads the
    clock once and sets [token_expiry] to that reading plus 2592000 seconds
    (the constructor takes no expiry).  With the clock at or after the epoch
    that expiry is truthy, so the client is not in the no-expiry state:
    [ensure_valid_token] on it reads the clock, returns [True] up to five
    minutes before the thirty days are over and hands over to
    [refresh_access_token] from then on, in particular once thirty days have
    passed. *)
Theorem init_sets_thirty_day_expiry (env : environment)
        (access refresh cid secret : value) (s : state) :
  truthy access = true ->
  0 <= clock env (ticks s) ->
  let now := clock env (ticks s) in
  let c := {| access_token := access; refresh_token := refresh; client_id := cid;
              client_secret := secret; token_expiry := VInt (now + 2592000) |} in
  init env access refresh cid secret s = (Return c, ticked s)
  /\ truthy (token_expiry c) = true
  /\ (forall s', self s' = c -> clock env (ticks s') <= now + 2592000 - 300 ->
        ensure_valid_token env s' = (Return true, ticked s'))
  /\ (forall s', self s' = c -> clock env (ticks s') > now + 2592000 - 300 ->
        ensure_valid_token env s' = refresh_access_token env (ticked s'))
  /\ (forall s', self s' = c -> clock env (ticks s') >= now + 2592000 ->
        ensure_valid_token env s' = refresh_access_token env (ticked s')).
Proof.
  intros Ha Hnow now c.
  assert (Hinit : init env access refresh cid secret s = (Return c, ticked s)).
  { unfold init, bind, time_time, ret, set_expiry. simpl. rewrite Ha. reflexivity. }
  assert (Hnz : now + 2592000 <> 0) by (subst now; lia).
  repeat split.
  - exact Hinit.
  - simpl. destruct (now + 2592000 =? 0) eqn:E; [apply Z.eqb_eq in E; lia | reflexivity].
  - intros s' Hs Ht.
    apply (ensure_valid_token_fresh env s' (now + 2592000)); rewrite ?Hs; auto.
  - intros s' Hs Ht.
    apply (ensure_valid_token_due env s' (now + 2592000)); rewrite ?Hs; auto.
  - intros s' Hs Ht.
    apply (ensure_valid_token_due env s' (now + 2592000)); rewrite ?Hs; auto. lia.
Qed.

Lemma init_sets_thirty_day_expiry_witness :
  init (Sample.world 2000 (Sample.answer 200 []) None)
    (VStr "tok") VNone VNone VNone
    (Sample.start (Sample.credential "" "" VNone) Sample.tmp_only)
  = (Return {| access_token := VStr "tok"; refresh_token := VNone; client_id := VNone;
               client_secret := VNone; token_expiry := VInt 2594000 |},
     ticked (Sample.start (Sample.credential "" "" VNone) Sample.tmp_only)).
Proof.
  destruct (init_sets_thirty_day_expiry
              (Sample.world 2000 (Sample.answer 200 []) None)
              (VStr "tok") VNone VNone VNone
              (Sample.start (Sample.credential "" "" VNone) Sample.tmp_only))
    as [H _].
  - reflexivity.
  - simpl. lia.
  - exact H.
Defined.

(** Without an access token the constructor leaves the expiry unset. *)
Lemma init_without_token (env : environment) (access refresh cid secret : value)
      (s : state) :
  truthy access = false ->
  init env access refresh cid secret s
  = (Return {| access_token := access; refresh_token := refresh; client_id := cid;
               client_secret := secret; token_expiry := VNone |}, s).
Proof.
  intros Ha. unfold init. simpl. rewrite Ha. reflexivity.
Qed.

(** *** Download-URL resolution *)

Lemma length_append (a b : string) :
  String.length (a ++ b) = (String.length a + String.length b)%nat.
Proof.
  induction a as [| c a IH]; simpl; [reflexivity | rewrite IH; reflexivity].
Qed.

Lemma append_inj_l (a x y : string) : a ++ x = a ++ y -> x = y.
Proof.
  induction a as [| c a IH]; simpl; intros H; [exact H |].
  injection H as H. auto.
Qed.

Lemma oauth_is_not_download_link (model_id : value) :
  oauth_url <> download_link_url model_id.
Proof.
  unfold oauth_url, download_link_url, api_url. simpl. discriminate.
Qed.

Lemma model_is_not_download_link (model_id : value) :
  model_url model_id <> download_link_url model_id.
Proof.
  unfold model_url, download_link_url. intros H.
  apply append_inj_l in H. apply append_inj_l in H.
  apply (f_equal String.length) in H. rewrite length_append in H.
  simpl in H. lia.
Qed.

(** [get_model] never asks for the download links. *)
Lemma get_model_sends_no_download_link (env : environment) (model_id : value)
      (s : state) (r : request) :
  In r (sent (snd (get_model env model_id s))) ->
  In r (sent s) \/ req_url r <> download_link_url model_id.
Proof.
  intros Hin.
  destruct (sends_only_get_model env
              (fun r => req_url r <> download_link_url model_id) model_id) with (s := s)
    as [l [El Fl]].
  - intros c. apply oauth_is_not_download_link.
  - intros headers. apply model_is_not_download_link.
  - rewrite El in Hin. apply in_app_or in Hin. destruct Hin as [Hin | Hin].
    + left. exact Hin.
    + right. rewrite Forall_forall in Fl. apply Fl. exact Hin.
Qed.

(** C7. The tool [threejs_get_gltf_model_url], enabled by a startup token,
    on a model whose fetched detail has a falsy [isDownloadable]: the answer
    is one text block with the object whose only member [error] reads
    "Model '<name>' is not downloadable." (the model's name, or its id when
    the detail has no name); the state is the one [get_model] left, so
    [get_download_link] is not called, and no request for the download links
    of that model has been added to the trace. *)
Theorem not_downloadable_payload (env : environment) (tok model_id : value)
        (inputs detail : list (string * value)) (s s1 : state) :
  truthy tok = true ->
  assoc "model_id" inputs = Some model_id ->
  get_model env model_id s = (Return (VDict detail), s1) ->
  truthy (dict_get detail "isDownloadable" (VBool false)) = false ->
  handle_invoke_tool env tok get_gltf_url_tool_name (VDict inputs) s
  = (Return [text_of (VDict [("error",
                              VStr ("Model '"
                                    ++ py_str (dict_get detail "name" model_id)
                                    ++ "' is not downloadable."))])], s1)
  /\ forall r, In r (sent s1) ->
               In r (sent s) \/ req_url r <> download_link_url model_id.
Proof.
  intros Htok Hid Hget Hnot. split.
  - unfold handle_invoke_tool, try_except, bind.
    replace (get_gltf_url_tool_name =? search_tool_name)%string with false
      by reflexivity.
    rewrite String.eqb_refl, Htok. simpl.
    rewrite Hid. unfold ret at 1. rewrite Hget.
    unfold py_get, ret. rewrite Hnot. reflexivity.
  - intros r Hin.
    apply (get_model_sends_no_download_link env model_id s r).
    rewrite Hget. exact Hin.
Qed.

Lemma not_downloadable_payload_witness :
  fst (handle_invoke_tool
         (Sample.world 2000 (Sample.answer 200 (Sample.bytes "model")) None)
         (VStr "tok") get_gltf_url_tool_name (VDict [("model_id", VStr "m1")])
         (Sample.start (Sample.credential "tok" "" VNone) Sample.tmp_only))
  = Return [text_of (VDict [("error", VStr "Model 'Chair' is not downloadable.")])].
Proof.
  destruct (not_downloadable_payload
              (Sample.world 2000 (Sample.answer 200 (Sample.bytes "model")) None)
              (VStr "tok") (VStr "m1") [("model_id", VStr "m1")]
              [("uid", VStr "m1"); ("name", VStr "Chair");
               ("isDownloadable", VBool false)]
              (Sample.start (Sample.credential "tok" "" VNone) Sample.tmp_only)
              (requested (get_request (model_url (VStr "m1"))
                            [("Authorization", "Bearer tok")])
                 (Sample.start (Sample.credential "tok" "" VNone) Sample.tmp_only)))
    as [H _].
  - reflexivity.
  - reflexivity.
  - vm_compute. reflexivity.
  - reflexivity.
  - rewrite H. reflexivity.
Defined.

(** *** Loading credentials *)

Lemma isfile_path_exists (fs : filesystem) (p : string) (data : list byte) :
  lookup_file p (files fs) = Some data -> path_exists fs p = true.
Proof.
  intros H. unfold path_exists, isfile. rewrite H. apply orb_true_r.
Qed.

Lemma load_credentials_file_unusable (env : environment) (path : string) (s : state) :
  unusable env (disk s) path ->
  load_credentials_file env path s = (Return empty_credential, s).
Proof.
  intros H. unfold load_credentials_file, try_except, bind, get_disk.
  destruct H as [Hm | data msg Hf Hj | data v Hf Hj Hv].
  - rewrite Hm. reflexivity.
  - rewrite (isfile_path_exists _ _ _ Hf).
    unfold json_load, bind, read_all. rewrite Hf, Hj. reflexivity.
  - rewrite (isfile_path_exists _ _ _ Hf).
    unfold json_load, bind, read_all. rewrite Hf, Hj.
    destruct v; try reflexivity. exfalso. apply (Hv d). reflexivity.
Qed.

Lemma load_from_file_unusable (env : environment) (file : option string) (s : state) :
  unusable env (disk s) (credentials_path env file) ->
  load_from_file env file s = (Return None, s).
Proof.
  intros H. unfold load_from_file. cbv zeta. unfold try_except, bind, get_disk.
  destruct H as [Hm | data msg Hf Hj | data v Hf Hj Hv].
  - rewrite Hm. reflexivity.
  - rewrite (isfile_path_exists _ _ _ Hf). cbn [negb].
    unfold json_load, bind, read_all. rewrite Hf, Hj. reflexivity.
  - rewrite (isfile_path_exists _ _ _ Hf). cbn [negb].
    unfold json_load, bind, read_all. rewrite Hf, Hj.
    destruct v; try reflexivity. exfalso. apply (Hv d). reflexivity.
Qed.

(** C3, as the code has it.  When the credentials file is missing or
    malformed, nothing is raised and the state is untouched: the file stage
    of [get_oauth_credentials] leaves the five values at their empty
    defaults, so that without overrides [get_oauth_credentials] returns the
    all-empty dict; the classmethod [load_from_file] returns [None], no
    client at all. *)
Theorem load_missing_or_malformed (env : environment) (file : option string)
        (s : state) :
  unusable env (disk s) (credentials_path env file) ->
  load_credentials_file env (credentials_path env file) s = (Return empty_credential, s)
  /\ load_from_file env file s = (Return None, s)
  /\ (file = credentials_file_arg (argv env) -> no_overrides env ->
      get_oauth_credentials env s
      = (Return (VDict [("access_token", VStr ""); ("refresh_token", VStr "");
                        ("client_id", VStr ""); ("client_secret", VStr "");
                        ("token_expiry", VInt 0)]), s)).
Proof.
  intros H. split; [| split].
  - apply load_credentials_file_unusable. exact H.
  - apply load_from_file_unusable. exact H.
  - intros Hfile [Ha [Hr [Hc [Hs Henv]]]].
    unfold get_oauth_credentials, bind. rewrite <- Hfile.
    rewrite (load_credentials_file_unusable env _ s H).
    unfold getenv_or_empty. rewrite Ha, Hr, Hc, Hs, !Henv. reflexivity.
Qed.

Lemma load_missing_or_malformed_witness :
  load_credentials_file (Sample.world 2000 (Sample.answer 200 []) None)
    "/home/u/.sketchfab_credentials.json"
    (Sample.start (Sample.credential "" "" VNone)
       {| dirs := ["/home/u"];
          files := [("/home/u/.sketchfab_credentials.json", Sample.bytes "[]")] |})
  = (Return empty_credential,
     Sample.start (Sample.credential "" "" VNone)
       {| dirs := ["/home/u"];
          files := [("/home/u/.sketchfab_credentials.json", Sample.bytes "[]")] |}).
Proof.
  destruct (load_missing_or_malformed
              (Sample.world 2000 (Sample.answer 200 []) None) None
              (Sample.start (Sample.credential "" "" VNone)
                 {| dirs := ["/home/u"];
                    files := [("/home/u/.sketchfab_credentials.json",
                               Sample.bytes "[]")] |}))
    as [H _].
  - eapply file_not_object.
    + reflexivity.
    + reflexivity.
    + intros d. discriminate.
  - exact H.
Defined.

(** C3, as the specification words it, fails for [load_from_file]: where no
    file exists it returns [None], not a credential with empty fields. *)
Lemma load_from_file_missing_gives_no_credential :
  let env := Sample.world 2000 (Sample.answer 200 []) None in
  let s := Sample.start (Sample.credential "" "" VNone) Sample.tmp_only in
  path_exists (disk s) (credentials_path env None) = false
  /\ load_from_file env None s = (Return None, s)
  /\ ~ exists c, fst (load_from_file env None s) = Return (Some c).
Proof.
  cbv zeta. repeat split.
  intros [c H]. vm_compute in H. discriminate.
Qed.

(** *** Saving credentials *)

Lemma rstrip_slash_length (s : string) :
  (String.length (rstrip_slash s) <= String.length s)%nat.
Proof.
  induction s as [| c s IH]; simpl; [lia |].
  destruct ((rstrip_slash s =? "")%string && (c =? "/")%char); simpl; lia.
Qed.

Lemma upto_last_slash_length (p : string) :
  (String.length (upto_last_slash p) <= String.length p)%nat.
Proof.
  induction p as [| c p IH]; simpl; [lia |].
  destruct (has_char "/" p); simpl; [lia |].
  destruct (c =? "/")%char; simpl; lia.
Qed.

Lemma upto_last_slash_shorter (p : string) :
  ends_with_slash p = false -> p <> "" ->
  (String.length (upto_last_slash p) < String.length p)%nat.
Proof.
  induction p as [| c p IH]; intros He Hp; [contradiction |].
  simpl. destruct (has_char "/" p) eqn:Hs.
  - destruct p as [| c' p']; [discriminate |].
    simpl. apply -> Nat.succ_lt_mono. apply IH; [exact He | discriminate].
  - destruct (c =? "/")%char eqn:Hc; simpl; [| lia].
    destruct p as [| c' p']; simpl; [| lia].
    simpl in He. congruence.
Qed.

Lemma dirname_length (p : string) :
  (String.length (dirname p) <= String.length p)%nat.
Proof.
  unfold dirname.
  pose proof (upto_last_slash_length p).
  pose proof (rstrip_slash_length (upto_last_slash p)).
  destruct (rstrip_slash (upto_last_slash p) =? "")%string; lia.
Qed.

Lemma dirname_shorter (p : string) :
  ends_with_slash p = false -> p <> "" ->
  (String.length (dirname p) < String.length p)%nat.
Proof.
  intros He Hp. unfold dirname.
  pose proof (upto_last_slash_shorter p He Hp).
  pose proof (rstrip_slash_length (upto_last_slash p)).
  destruct (rstrip_slash (upto_last_slash p) =? "")%string; lia.
Qed.

Lemma ancestors_length (fuel : nat) :
  forall d x, In x (ancestors fuel d) -> (String.length x <= String.length d)%nat.
Proof.
  induction fuel as [| fuel IH]; intros d x Hin; simpl in Hin; [contradiction |].
  destruct (rstrip_slash d =? "")%string; [contradiction |].
  destruct Hin as [<- | Hin]; [lia |].
  apply IH in Hin. pose proof (dirname_length d). lia.
Qed.

(** A file is not among the directories above it. *)
Lemma not_among_ancestors (path : string) :
  ends_with_slash path = false -> path <> "" ->
  existsb (String.eqb path) (self_and_ancestors (dirname path)) = false.
Proof.
  intros He Hp. apply not_true_is_false. intros H.
  apply existsb_exists in H. destruct H as [x [Hin Hx]].
  apply String.eqb_eq in Hx. subst x.
  apply ancestors_length in Hin.
  pose proof (dirname_shorter path He Hp). lia.
Qed.

Lemma makedirs_succeeds (name : string) (s : state) :
  name <> "" ->
  find (isfile (disk s)) (self_and_ancestors name) = None ->
  makedirs name s
  = (Return tt, with_disk (add_dirs (self_and_ancestors name) (disk s)) s).
Proof.
  intros Hn Hf. unfold makedirs.
  apply String.eqb_neq in Hn. rewrite Hn, Hf. reflexivity.
Qed.

Lemma isdir_add_dirs (ds : list string) (fs : filesystem) (p : string) :
  isdir (add_dirs ds fs) p
  = isdir fs p || existsb (String.eqb p) ds.
Proof.
  unfold isdir, add_dirs. simpl. rewrite existsb_app.
  destruct (is_root p), (existsb (String.eqb p) ds), (existsb (String.eqb p) (dirs fs));
    reflexivity.
Qed.

(** After [makedirs name] the name is a directory. *)
Lemma isdir_after_makedirs (name : string) (fs : filesystem) :
  name <> "" -> isdir (add_dirs (self_and_ancestors name) fs) name = true.
Proof.
  intros Hn. rewrite isdir_add_dirs.
  destruct (rstrip_slash name =? "")%string eqn:Hr.
  - unfold isdir, is_root. apply String.eqb_neq in Hn. rewrite Hn, Hr. reflexivity.
  - unfold self_and_ancestors. destruct name as [| c name]; [contradiction |].
    cbn [String.length ancestors]. rewrite Hr.
    cbn [existsb]. rewrite String.eqb_refl. apply orb_true_r.
Qed.

Lemma dirname_empty : dirname "" = "".
Proof. reflexivity. Qed.

(** C6, as the code has it.  [store_updated_credentials] serialises exactly
    five members, an empty token, id or secret as the empty string and an
    empty expiry as 0, and makes the parent directory.  It then writes in
    place: when the write completes, [True] is returned and the file holds the
    JSON text; when the write fails after [n] bytes, [False] is returned and
    the file holds those [n] bytes of the new text, whatever it held before.
    The credential and the trace of requests are unchanged. *)
Theorem store_updated_credentials_in_place (env : environment) (file : option string)
        (s : state) :
  dirname (credentials_path env file) <> "" ->
  ends_with_slash (credentials_path env file) = false ->
  isdir (disk s) (credentials_path env file) = false ->
  find (isfile (disk s)) (self_and_ancestors (dirname (credentials_path env file))) = None ->
  let path := credentials_path env file in
  let data := list_byte_of_string (json_dumps None (credentials_dict (self s))) in
  credentials_dict (self s)
  = VDict [("access_token", py_or (access_token (self s)) (VStr ""));
           ("refresh_token", py_or (refresh_token (self s)) (VStr ""));
           ("client_id", py_or (client_id (self s)) (VStr ""));
           ("client_secret", py_or (client_secret (self s)) (VStr ""));
           ("token_expiry", py_or (token_expiry (self s)) (VInt 0))]
  /\ exists s',
       store_updated_credentials env file s
       = (Return (match write_fault env path data with
                  | None => true
                  | Some _ => false
                  end), s')
       /\ self s' = self s
       /\ sent s' = sent s
       /\ isdir (disk s') (dirname path) = true
       /\ lookup_file path (files (disk s'))
          = Some (match write_fault env path data with
                  | None => data
                  | Some n => firstn n data
                  end).
Proof.
  intros Hd He Hnd Hf path data. split; [reflexivity |].
  assert (Hp : path <> "").
  { intros E. apply Hd. fold path. rewrite E. apply dirname_empty. }
  set (s1 := with_disk (add_dirs (self_and_ancestors (dirname path)) (disk s)) s).
  assert (Hdir1 : isdir (disk s1) (dirname path) = true).
  { apply isdir_after_makedirs. exact Hd. }
  assert (Hnd1 : isdir (disk s1) path = false).
  { unfold s1. cbn [disk with_disk]. rewrite isdir_add_dirs.
    fold path in Hnd. rewrite Hnd. apply not_among_ancestors; assumption. }
  set (s2 := with_disk (put_file path [] (disk s1)) s1).
  assert (Hopen : open_w path s1 = (Return tt, s2)).
  { unfold open_w. apply String.eqb_neq in Hp. rewrite Hp, Hnd1.
    fold path in He. rewrite He, Hdir1. rewrite orb_true_r. reflexivity. }
  unfold store_updated_credentials. cbv zeta. fold path.
  unfold try_except, bind, get_self.
  rewrite (makedirs_succeeds (dirname path) s Hd Hf). fold s1.
  rewrite Hopen. unfold write_all. fold data.
  destruct (write_fault env path data) as [n |].
  - exists (with_disk (put_file path (firstn n data) (disk s2)) s2).
    split; [reflexivity |]. split; [reflexivity |]. split; [reflexivity |]. split.
    + exact Hdir1.
    + cbn [disk with_disk put_file files lookup_file].
      rewrite String.eqb_refl. reflexivity.
  - exists (with_disk (put_file path data (disk s2)) s2).
    split; [reflexivity |]. split; [reflexivity |]. split; [reflexivity |]. split.
    + exact Hdir1.
    + cbn [disk with_disk put_file files lookup_file].
      rewrite String.eqb_refl. reflexivity.
Qed.

Lemma store_updated_credentials_in_place_witness :
  fst (store_updated_credentials (Sample.world 2000 (Sample.answer 200 []) None) None
         (Sample.start (Sample.credential "tok" "" VNone) Sample.tmp_only))
  = Return true.
Proof.
  pose proof (store_updated_credentials_in_place
                (Sample.world 2000 (Sample.answer 200 []) None) None
                (Sample.start (Sample.credential "tok" "" VNone) Sample.tmp_only)) as T.
  cbv zeta in T. destruct T as [_ [s' [H _]]].
  - vm_compute. discriminate.
  - reflexivity.
  - reflexivity.
  - reflexivity.
  - rewrite H. reflexivity.
Defined.

(** C6, as the specification words it, fails on atomicity: with a valid
    credentials file in place and a write that fails after seven bytes,
    [store_updated_credentials] returns [False] and the file is left with
    those seven bytes, no longer the document it held. *)
Lemma store_fault_corrupts_existing_file :
  let env := Sample.world 2000 (Sample.answer 200 []) (Some 7%nat) in
  let path := "/home/u/.sketchfab_credentials.json" in
  let old := Sample.bytes (json_dumps None
                             (credentials_dict (Sample.credential "old" "r" (VInt 5000)))) in
  let s := Sample.start (Sample.credential "new" "r" (VInt 9000))
             {| dirs := ["/home/u"; "/home"]; files := [(path, old)] |} in
  credentials_path env None = path
  /\ lookup_file path (files (disk s)) = Some old
  /\ fst (store_updated_credentials env None s) = Return false
  /\ lookup_file path (files (disk (snd (store_updated_credentials env None s))))
     = Some (firstn 7 old)
  /\ firstn 7 old <> old.
Proof.
  cbv zeta. repeat split; try (vm_compute; reflexivity).
  vm_compute. discriminate.
Qed.

(** *** Downloads *)

Lemma bytes_eqb_eq (a b : list byte) : bytes_eqb a b = true <-> a = b.
Proof.
  revert b. induction a as [| x a IH]; intros [| y b]; simpl; split; intros H;
    try reflexivity; try discriminate.
  - apply andb_true_iff in H. destruct H as [Hxy Hab].
    apply Byte.byte_dec_bl in Hxy. apply IH in Hab. congruence.
  - injection H as -> ->. rewrite Byte.byte_dec_lb by reflexivity.
    apply IH. reflexivity.
Qed.

(** The archive test looks at the first four bytes and at nothing else. *)
Lemma detect_zip_iff (content : list byte) :
  detect_zip content = true <-> firstn 4 content = zip_signature.
Proof.
  unfold detect_zip. split; intros H.
  - apply andb_true_iff in H. destruct H as [_ H]. apply bytes_eqb_eq. exact H.
  - apply andb_true_iff. split.
    + apply (f_equal (@List.length byte)) in H. rewrite length_firstn in H.
      change (List.length zip_signature) with 4%nat in H. apply Nat.leb_le. lia.
    + apply bytes_eqb_eq. exact H.
Qed.

Lemma keeps_dirs_ret {A} (a : A) : keeps_dirs (ret a).
Proof. intros s d H. exact H. Qed.

Lemma keeps_dirs_raise {A} (e : exn) : keeps_dirs (@raise A e).
Proof. intros s d H. exact H. Qed.

Lemma keeps_dirs_bind {A B} (c : M A) (k : A -> M B) :
  keeps_dirs c -> (forall a, keeps_dirs (k a)) -> keeps_dirs (bind c k).
Proof.
  intros Hc Hk s d H. unfold bind. specialize (Hc s d H).
  destruct (c s) as [[a | e] s1]; simpl in *; [apply Hk |]; exact Hc.
Qed.

Lemma keeps_dirs_makedirs (name : string) : keeps_dirs (makedirs name).
Proof.
  intros s d H. unfold makedirs.
  destruct (name =? "")%string; [exact H |].
  destruct (find _ _); [exact H |].
  cbn [snd disk with_disk]. rewrite isdir_add_dirs, H. reflexivity.
Qed.

Lemma keeps_dirs_open_w (path : string) : keeps_dirs (open_w path).
Proof.
  intros s d H. unfold open_w.
  repeat match goal with |- context [if ?b then _ else _] => destruct b end; exact H.
Qed.

Lemma keeps_dirs_write_all (env : environment) (path : string) (data : list byte) :
  keeps_dirs (write_all env path data).
Proof.
  intros s d H. unfold write_all. destruct (write_fault env path data); exact H.
Qed.

Lemma keeps_dirs_zip_open (env : environment) (path : string) :
  keeps_dirs (zip_open env path).
Proof.
  intros s d H. unfold zip_open, bind, read_all.
  destruct (lookup_file path (files (disk s))) as [data |].
  - destruct (zip_read env data); exact H.
  - destruct (isdir (disk s) path); exact H.
Qed.

Lemma keeps_dirs_extractall (env : environment) (dir : string)
      (entries : list (string * list byte)) :
  keeps_dirs (extractall env dir entries).
Proof.
  induction entries as [| [name data] rest IH]; simpl.
  - apply keeps_dirs_ret.
  - apply keeps_dirs_bind; [| intros _; exact IH].
    destruct (ends_with_slash name).
    + apply keeps_dirs_makedirs.
    + apply keeps_dirs_bind; [apply keeps_dirs_makedirs | intros _].
      apply keeps_dirs_bind; [apply keeps_dirs_open_w | intros _].
      apply keeps_dirs_write_all.
Qed.

Lemma bind_return {A B} (c : M A) (k : A -> M B) (s s' : state) (b : B) :
  bind c k s = (Return b, s') ->
  exists a s1, c s = (Return a, s1) /\ k a s1 = (Return b, s').
Proof.
  unfold bind. destruct (c s) as [[a | e] s1]; intros H; [| discriminate].
  exists a, s1. auto.
Qed.

(** A handler that raises again: a result comes from the body. *)
Lemma reraise_return {A} (c : M A) (f : exn -> exn) (s s' : state) (a : A) :
  try_except c (fun e => raise (f e)) s = (Return a, s') -> c s = (Return a, s').
Proof.
  unfold try_except, raise. destruct (c s) as [[a' | e] s1]; intros H;
    [exact H | discriminate].
Qed.

Lemma makedirs_return_isdir (name : string) (s s' : state) :
  makedirs name s = (Return tt, s') -> isdir (disk s') name = true.
Proof.
  unfold makedirs. destruct (name =? "")%string eqn:En; [discriminate |].
  destruct (find _ _); [discriminate |].
  intros H. injection H as <-. cbn [disk with_disk].
  apply isdir_after_makedirs. apply String.eqb_neq. exact En.
Qed.

(** C8. Whenever [download_model] returns a result, the body came from the
    one request for [download_url] (the same request whatever the output path
    and whatever headers the answer carries), and [is_zip] is true exactly
    when the first four bytes of the body are 50 4B 03 04.  When [is_zip] is
    true, [extract_dir] is the output path followed by "_extracted" and that
    directory exists, whether or not the archive has members; otherwise
    [extract_dir] is [None]. *)
Theorem download_model_archive_flag (env : environment) (url : string)
        (output : option string) (s s' : state) (r : download_result) :
  download_model env url output s = (Return r, s') ->
  exists resp,
    network env (sent s) (download_request url) = Answered resp
    /\ (is_zip r = true <-> firstn 4 (content resp) = zip_signature)
    /\ (is_zip r = true ->
        extract_dir r = Some (output_path r ++ "_extracted")
        /\ isdir (disk s') (output_path r ++ "_extracted") = true)
    /\ (is_zip r = false -> extract_dir r = None /\ extracted_files r = []).
Proof.
  intros H. unfold download_model in H. apply reraise_return in H.
  apply bind_return in H. destruct H as [resp [s1 [Hsend H]]].
  unfold send in Hsend.
  destruct (network env (sent s) (download_request url)) as [msg | resp'] eqn:Hn;
    [discriminate |].
  injection Hsend as -> <-.
  apply bind_return in H. destruct H as [[] [s2 [_ H]]]. cbv zeta in H.
  apply bind_return in H. destruct H as [path [s3 [_ H]]].
  apply bind_return in H. destruct H as [[] [s4 [_ H]]].
  apply bind_return in H. destruct H as [[] [s5 [_ H]]].
  exists resp. split; [reflexivity |].
  destruct (detect_zip (content resp)) eqn:Hz.
  - apply bind_return in H. destruct H as [[] [s6 [Hmk H]]].
    apply bind_return in H. destruct H as [entries [s7 [Hzo H]]].
    apply bind_return in H. destruct H as [[] [s8 [Hex H]]].
    unfold ret in H. injection H as <- <-. cbn [is_zip extract_dir output_path].
    split; [| split].
    + split; intros _; [apply detect_zip_iff; exact Hz | reflexivity].
    + intros _. split; [reflexivity |].
      apply makedirs_return_isdir in Hmk.
      pose proof (keeps_dirs_zip_open env path s6 _ Hmk) as K1.
      rewrite Hzo in K1. cbn [snd] in K1.
      pose proof (keeps_dirs_extractall env (path ++ "_extracted") entries s7 _ K1) as K2.
      rewrite Hex in K2. exact K2.
    + discriminate.
  - unfold ret in H. injection H as <- <-. cbn [is_zip extract_dir extracted_files].
    split; [| split].
    + split; intros E; [discriminate |].
      apply detect_zip_iff in E. congruence.
    + discriminate.
    + intros _. split; reflexivity.
Qed.

Lemma download_model_archive_flag_witness :
  exists resp,
    network (Sample.world 2000 (Sample.answer 200 [x50; x4b; x03; x04]) None) []
      (download_request "http://cdn/model") = Answered resp
    /\ firstn 4 (content resp) = zip_signature.
Proof.
  destruct (download_model_archive_flag
              (Sample.world 2000 (Sample.answer 200 [x50; x4b; x03; x04]) None)
              "http://cdn/model" None
              (Sample.start (Sample.credential "tok" "" VNone) Sample.tmp_only)
              (snd (download_model
                      (Sample.world 2000 (Sample.answer 200 [x50; x4b; x03; x04]) None)
                      "http://cdn/model" None
                      (Sample.start (Sample.credential "tok" "" VNone) Sample.tmp_only)))
              {| output_path := "/tmp/tmpabc.zip"; is_zip := true;
                 extract_dir := Some "/tmp/tmpabc.zip_extracted";
                 extracted_files := [] |})
    as [resp [Hn [Hz _]]].
  - vm_compute. reflexivity.
  - exists resp. split; [exact Hn |]. apply Hz. reflexivity.
Defined.

(** An archive without members: the signature alone decides, the file gets
    the suffix ".zip" and the directory is made although nothing is
    extracted. *)
Example download_empty_archive :
  let env := Sample.world 2000 (Sample.answer 200 [x50; x4b; x03; x04]) None in
  let s := Sample.start (Sample.credential "tok" "" VNone) Sample.tmp_only in
  fst (download_model env "http://cdn/model" None s)
  = Return {| output_path := "/tmp/tmpabc.zip"; is_zip := true;
              extract_dir := Some "/tmp/tmpabc.zip_extracted";
              extracted_files := [] |}
  /\ isdir (disk (snd (download_model env "http://cdn/model" None s)))
       "/tmp/tmpabc.zip_extracted" = true.
Proof. cbv zeta. split; vm_compute; reflexivity. Qed.

(** A body that only looks like an archive: the reader refuses it and the
    download fails as a whole, with no result. *)
Example download_not_an_archive :
  let env := {| clock := fun _ => 0;
                network := fun _ _ => Sample.answer 200 [x50; x4b; x03; x04; x00];
                json_loads := Sample.decoder;
                zip_read := fun _ => NotAnArchive "File is not a zip file";
                home_dir := "/home/u";
                temp_stem := fun _ => "/tmp/tmpabc";
                write_fault := fun _ _ => None;
                argv := Sample.no_args;
                getenv := fun _ => None |} in
  let s := Sample.start (Sample.credential "tok" "" VNone) Sample.tmp_only in
  fst (download_model env "http://cdn/model" None s)
  = Raise (ValueError "Failed to download model: File is not a zip file").
Proof. cbv zeta. vm_compute. reflexivity. Qed.

(** *** Computations that cannot raise, and what they return *)

Lemma never_raises_ret {A} (a : A) : never_raises (ret a).
Proof. intros s. exists a, s. reflexivity. Qed.

Lemma never_raises_try {A} (c : M A) (h : exn -> M A) :
  (forall e, never_raises (h e)) -> never_raises (try_except c h).
Proof.
  intros Hh s. unfold try_except. destruct (c s) as [[a | e] s1].
  - exists a, s1. reflexivity.
  - apply Hh.
Qed.

Lemma returns_ret {A} (Q : A -> Prop) (a : A) : Q a -> returns Q (ret a).
Proof. intros H s a' s' E. injection E as <- _. exact H. Qed.

Lemma returns_raise {A} (Q : A -> Prop) (e : exn) : returns Q (raise e).
Proof. intros s a s' E. discriminate. Qed.

Lemma returns_bind {A B} (Q : B -> Prop) (c : M A) (k : A -> M B) :
  (forall a, returns Q (k a)) -> returns Q (bind c k).
Proof.
  intros Hk s b s' E. apply bind_return in E. destruct E as [a [s1 [_ E]]].
  apply (Hk a s1 b s' E).
Qed.

Lemma returns_try {A} (Q : A -> Prop) (c : M A) (h : exn -> M A) :
  returns Q c -> (forall e, returns Q (h e)) -> returns Q (try_except c h).
Proof.
  intros Hc Hh s a s' E. unfold try_except in E.
  destruct (c s) as [[a' | e] s1] eqn:Ec.
  - injection E as <- <-. apply (Hc s a' s1 Ec).
  - apply (Hh e s1 a s' E).
Qed.

Ltac returns_step :=
  match goal with
  | |- returns _ (bind _ _) => apply returns_bind; intros
  | |- returns _ (try_except _ _) => apply returns_try; [| intros]
  | |- returns _ (if ?b then _ else _) => destruct b
  | |- returns _ (raise _) => apply returns_raise
  | |- returns _ (ret _) => apply returns_ret
  end.

(** X1. The adapter is closed: whatever the tool name, the arguments, the
    credential and the answers of the network, [handle_invoke_tool] raises
    nothing and returns exactly one content block, of type "text". *)
Theorem handle_invoke_tool_always_answers (env : environment) (tok : value)
        (name : string) (inputs : value) (s : state) :
  exists t s',
    handle_invoke_tool env tok name inputs s = (Return [t], s')
    /\ content_type t = "text".
Proof.
  assert (N : never_raises (handle_invoke_tool env tok name inputs)).
  { unfold handle_invoke_tool. apply never_raises_try. intros e. apply never_raises_ret. }
  assert (R : returns one_text (handle_invoke_tool env tok name inputs)).
  { unfold handle_invoke_tool. repeat returns_step;
      eexists; split; reflexivity. }
  destruct (N s) as [l [s' E]]. destruct (R s l s' E) as [t [-> Ht]].
  exists t, s'. auto.
Qed.

(** *** What a computation leaves alone *)

Lemma preserves_ret {X A} (f : state -> X) (a : A) : preserves f (ret a).
Proof. intros s. reflexivity. Qed.

Lemma preserves_raise {X A} (f : state -> X) (e : exn) : preserves f (@raise A e).
Proof. intros s. reflexivity. Qed.

Lemma preserves_bind {X A B} (f : state -> X) (c : M A) (k : A -> M B) :
  preserves f c -> (forall a, preserves f (k a)) -> preserves f (bind c k).
Proof.
  intros Hc Hk s. unfold bind. specialize (Hc s).
  destruct (c s) as [[a | e] s1]; simpl in *; [rewrite Hk |]; exact Hc.
Qed.

Lemma preserves_try {X A} (f : state -> X) (c : M A) (h : exn -> M A) :
  preserves f c -> (forall e, preserves f (h e)) -> preserves f (try_except c h).
Proof.
  intros Hc Hh s. unfold try_except. specialize (Hc s).
  destruct (c s) as [[a | e] s1]; simpl in *; [| rewrite Hh]; exact Hc.
Qed.

Create HintDb frame.
#[local] Hint Resolve preserves_ret preserves_raise : frame.

Ltac frame_step :=
  match goal with
  | |- preserves _ (bind _ _) => apply preserves_bind; [| intros]
  | |- preserves _ (try_except _ _) => apply preserves_try; [| intros]
  | |- preserves _ (if ?b then _ else _) => destruct b
  | |- preserves _ (match ?x with _ => _ end) => destruct x
  | |- preserves _ _ => solve [eauto with frame]
  end.

Ltac frame := repeat frame_step.

Section Frame.

Variable env : environment.
Variable X : Type.
Variable f : state -> X.

(** What [f] may be required to ignore: a request added to the trace, a
    reading of the clock, a change of the disk, a temporary file, an
    assignment to a token or to the expiry. *)
Hypothesis ignores_request : forall r s, f (requested r s) = f s.
Hypothesis ignores_clock : forall s, f (ticked s) = f s.
Hypothesis ignores_disk : forall d s, f (with_disk d s) = f s.
Hypothesis ignores_access : forall v s, f (snd (set_access_token v s)) = f s.
Hypothesis ignores_refresh : forall v s, f (snd (set_refresh_token v s)) = f s.
Hypothesis ignores_expiry : forall v s, f (snd (set_token_expiry v s)) = f s.

Lemma preserves_py_get v k d : preserves f (py_get v k d).
Proof. unfold py_get. frame. Qed.

Lemma preserves_py_getitem v k : preserves f (py_getitem v k).
Proof. unfold py_getitem. frame. Qed.

Lemma preserves_py_getitem0 v : preserves f (py_getitem0 v).
Proof. unfold py_getitem0. frame. Qed.

Lemma preserves_py_contains v k : preserves f (py_contains v k).
Proof. unfold py_contains. frame. Qed.

Lemma preserves_py_iter v : preserves f (py_iter v).
Proof. unfold py_iter. frame. Qed.

Lemma preserves_py_items v : preserves f (py_items v).
Proof. unfold py_items. frame. Qed.

Lemma preserves_py_keys v : preserves f (py_keys v).
Proof. unfold py_keys. frame. Qed.

Lemma preserves_py_min_24 v : preserves f (py_min_24 v).
Proof. unfold py_min_24. frame. Qed.

Lemma preserves_raise_for_status url resp : preserves f (raise_for_status url resp).
Proof. unfold raise_for_status. frame. Qed.

Lemma preserves_response_json resp : preserves f (response_json env resp).
Proof. unfold response_json. frame. Qed.

Lemma preserves_get_self : preserves f get_self.
Proof. intros s. reflexivity. Qed.

Lemma preserves_get_disk : preserves f get_disk.
Proof. intros s. reflexivity. Qed.

Lemma preserves_send r : preserves f (send env r).
Proof.
  intros s. unfold send. destruct (network env (sent s) r); apply ignores_request.
Qed.

Lemma preserves_time_time : preserves f (time_time env).
Proof. intros s. apply ignores_clock. Qed.

Lemma preserves_makedirs name : preserves f (makedirs name).
Proof.
  intros s. unfold makedirs. destruct (name =? "")%string; [reflexivity |].
  destruct (find _ _); [reflexivity | apply ignores_disk].
Qed.

Lemma preserves_open_w path : preserves f (open_w path).
Proof.
  intros s. unfold open_w.
  repeat match goal with |- context [if ?b then _ else _] => destruct b end;
    try reflexivity; apply ignores_disk.
Qed.

Lemma preserves_write_all path data : preserves f (write_all env path data).
Proof.
  intros s. unfold write_all. destruct (write_fault env path data); apply ignores_disk.
Qed.

Lemma preserves_set_access_token v : preserves f (set_access_token v).
Proof. intros s. apply ignores_access. Qed.

Lemma preserves_set_refresh_token v : preserves f (set_refresh_token v).
Proof. intros s. apply ignores_refresh. Qed.

Lemma preserves_set_token_expiry v : preserves f (set_token_expiry v).
Proof. intros s. apply ignores_expiry. Qed.

Hint Resolve preserves_py_get preserves_py_getitem preserves_py_getitem0
  preserves_py_contains preserves_py_iter preserves_py_items preserves_py_keys
  preserves_py_min_24 preserves_raise_for_status preserves_response_json
  preserves_get_self preserves_get_disk preserves_send preserves_time_time
  preserves_makedirs preserves_open_w preserves_write_all
  preserves_set_access_token preserves_set_refresh_token preserves_set_token_expiry
  : frame.

Lemma preserves_formats_of items : preserves f (formats_of items).
Proof. induction items as [| [k d] rest IH]; simpl; frame. Qed.
Hint Resolve preserves_formats_of : frame.

Lemma preserves_model_data model d : preserves f (model_data model d).
Proof. unfold model_data. frame. Qed.
Hint Resolve preserves_model_data : frame.

Lemma preserves_downloadable_models models :
  forall acc, preserves f (downloadable_models models acc).
Proof. induction models as [| m rest IH]; intros acc; simpl; frame. Qed.
Hint Resolve preserves_downloadable_models : frame.

Lemma preserves_search_results resp : preserves f (search_results env resp).
Proof. unfold search_results. frame. Qed.
Hint Resolve preserves_search_results : frame.

Lemma preserves_search_params query limit : preserves f (search_params query limit).
Proof. unfold search_params. frame. Qed.
Hint Resolve preserves_search_params : frame.

Lemma preserves_search query limit : preserves f (search env query limit).
Proof. unfold search. frame. Qed.
Hint Resolve preserves_search : frame.

Lemma preserves_store_updated_credentials file :
  preserves f (store_updated_credentials env file).
Proof. unfold store_updated_credentials. frame. Qed.
Hint Resolve preserves_store_updated_credentials : frame.

Lemma preserves_refresh_access_token : preserves f (refresh_access_token env).
Proof. unfold refresh_access_token. frame. Qed.
Hint Resolve preserves_refresh_access_token : frame.

Lemma preserves_ensure_valid_token : preserves f (ensure_valid_token env).
Proof. unfold ensure_valid_token. frame. Qed.
Hint Resolve preserves_ensure_valid_token : frame.

Lemma preserves_get_auth_headers : preserves f (get_auth_headers env).
Proof. unfold get_auth_headers. frame. Qed.
Hint Resolve preserves_get_auth_headers : frame.

Lemma preserves_get_model model_id : preserves f (get_model env model_id).
Proof. unfold get_model. frame. Qed.
Hint Resolve preserves_get_model : frame.

Lemma preserves_get_download_link model_id :
  preserves f (get_download_link env model_id).
Proof. unfold get_download_link. frame. Qed.
Hint Resolve preserves_get_download_link : frame.

Lemma preserves_handle_invoke_tool tok name inputs :
  preserves f (handle_invoke_tool env tok name inputs).
Proof. unfold handle_invoke_tool. frame. Qed.

End Frame.

(** *** Search: effects and failures *)

Lemma search_params_result (query limit : value) (s s1 : state)
      (params : list (string * value)) :
  search_params query limit s = (Return params, s1) ->
  s1 = s /\ assoc "q" params = Some query.
Proof.
  unfold search_params. destruct (truthy limit).
  - unfold bind, py_min_24.
    destruct limit; simpl; intros H; try discriminate;
      injection H as <- <-; auto.
  - intros H. injection H as <- <-. auto.
Qed.

Lemma search_params_raises (query limit : value) (s s1 : state) (e : exn) :
  search_params query limit s = (Raise e, s1) -> s1 = s.
Proof.
  intros H.
  pose proof (preserves_search_params state (fun s => s) query limit s) as P.
  rewrite H in P. exact P.
Qed.

(** X2. [search] raises nothing, and all it does is send at most one
    request: a GET to the search endpoint with the query as [q] and no
    header.  The credential, the disk and the clock are not touched, so a
    search never authenticates and never refreshes the token. *)
Theorem search_only_sends_one_request (env : environment) (query limit : value)
        (s : state) :
  exists l s',
    search env query limit s = (Return l, s')
    /\ self s' = self s /\ disk s' = disk s /\ ticks s' = ticks s /\ temps s' = temps s
    /\ (sent s' = sent s
        \/ exists params,
             sent s' = (sent s ++ [search_request params])%list
             /\ assoc "q" params = Some query
             /\ req_method (search_request params) = GET
             /\ req_url (search_request params) = api_url ++ "/search"
             /\ req_headers (search_request params) = []).
Proof.
  assert (N : never_raises (search env query limit)).
  { unfold search. apply never_raises_try. intros e. apply never_raises_ret. }
  destruct (N s) as [l [s' E]]. exists l, s'. split; [exact E |].
  pose proof (preserves_search env _ (fun s => (self s, disk s, ticks s, temps s))
                (fun r s => eq_refl) query limit s) as P.
  rewrite E in P. cbn [snd] in P. injection P as P1 P2 P3 P4.
  repeat (split; [assumption |]).
  destruct (search_params query limit s) as [[params | e] s1] eqn:Ep.
  - destruct (search_params_result _ _ _ _ _ Ep) as [-> Hq].
    right. exists params.
    pose proof (search_sends env query limit params s Ep) as Hs.
    rewrite E in Hs. auto.
  - left. apply search_params_raises in Ep as Es. subst s1.
    unfold search, try_except, bind in E. rewrite Ep in E.
    injection E as _ <-. reflexivity.
Qed.

Lemma search_results_pure (env : environment) (resp : response) (s : state) :
  snd (search_results env resp s) = s.
Proof. apply (preserves_search_results env state (fun s => s)). Qed.

Lemma search_results_without_list (env : environment) (resp : response) (s : state) :
  400 <= status_code resp < 600
  \/ (exists msg, json_loads env (content resp) = Undecodable msg)
  \/ (exists v, json_loads env (content resp) = Decoded v /\ forall d, v <> VDict d)
  \/ (exists d, json_loads env (content resp) = Decoded (VDict d)
                /\ dict_has d "results" = false) ->
  fst (search_results env resp s) = Return []
  \/ exists e, fst (search_results env resp s) = Raise e.
Proof.
  intros H. unfold search_results, bind.
  destruct (raise_for_status_cases env (api_url ++ "/search") resp s)
    as [[_ [e He]] | [Hno He]]; rewrite He; [right; eexists; reflexivity |].
  destruct H as [H | [[msg H] | [[v [H Hv]] | [d [H Hd]]]]]; [contradiction | | |];
    unfold response_json; rewrite H.
  - right. eexists. reflexivity.
  - destruct v; try (right; eexists; reflexivity).
    + unfold py_contains, ret.
      destruct (index 0 "results" s0); [right; eexists | left]; reflexivity.
    + unfold py_contains, ret.
      destruct (existsb (is_str "results") l); [right; eexists | left]; reflexivity.
    + exfalso. apply (Hv d). reflexivity.
  - unfold py_contains, ret. rewrite Hd. left. reflexivity.
Qed.

(** X3. When the request of a search gets no list of models (the request
    raises, the status is 4xx or 5xx, the body is no JSON, no JSON object, or
    an object without [results]), [search] returns the empty list and the
    only trace is the request. *)
Theorem search_failure_is_empty (env : environment) (query limit : value)
        (params : list (string * value)) (s : state) :
  search_params query limit s = (Return params, s) ->
  no_result_list env (sent s) (search_request params) ->
  search env query limit s = (Return [], requested (search_request params) s).
Proof.
  intros Hp Hf. unfold search, try_except, bind. rewrite Hp. unfold send.
  destruct Hf as [msg Hn | resp Hn Hst | resp msg Hn Hj | resp v Hn Hj Hv
                  | resp d Hn Hj Hd];
    rewrite Hn; fold (requested (search_request params) s); [reflexivity | | | |].
  all: pose proof (search_results_pure env resp (requested (search_request params) s))
    as Pure.
  all: destruct (search_results_without_list env resp
                   (requested (search_request params) s)) as [R | [e R]];
    try solve [eauto 6].
  all: destruct (search_results env resp (requested (search_request params) s))
    as [[a | e'] s1]; cbn [fst snd] in *; unfold ret; congruence.
Qed.

Lemma search_failure_is_empty_witness :
  search (Sample.world 2000 (Sample.answer 503 []) None) (VStr "car") (VInt 5)
    (Sample.start (Sample.credential "" "" VNone) Sample.tmp_only)
  = (Return [],
     requested (search_request [("q", VStr "car"); ("count", VInt 5)])
       (Sample.start (Sample.credential "" "" VNone) Sample.tmp_only)).
Proof.
  apply (search_failure_is_empty (Sample.world 2000 (Sample.answer 503 []) None)).
  - reflexivity.
  - eapply error_status; [reflexivity |]. simpl. lia.
Defined.

(** *** Search: what is returned *)

Ltac bind_inv H :=
  apply bind_return in H;
  let a := fresh "a" in
  let s := fresh "s" in
  let E := fresh "E" in
  destruct H as [a [s [E H]]].

Lemma py_get_dict_return (d : list (string * value)) (k : string) (default a : value)
      (s s1 : state) :
  py_get (VDict d) k default s = (Return a, s1) -> a = dict_get d k default /\ s1 = s.
Proof. unfold py_get, ret. intros H. injection H as <- <-. auto. Qed.

Lemma py_get_return_dict (v : value) (k : string) (default a : value) (s s1 : state) :
  py_get v k default s = (Return a, s1) -> exists d, v = VDict d.
Proof. destruct v; try discriminate. intros _. eexists. reflexivity. Qed.

(** The projection of one model copies the texts and the flag. *)
Lemma model_data_summarises (d : list (string * value)) (flag md : value)
      (s s' : state) :
  model_data (VDict d) flag s = (Return md, s') ->
  exists thumbnail user formats,
    md = VDict [("uid", dict_get d "uid" (VStr ""));
                ("name", dict_get d "name" (VStr ""));
                ("description", dict_get d "description" (VStr ""));
                ("viewerUrl", dict_get d "viewerUrl" (VStr ""));
                ("embedUrl", dict_get d "embedUrl" (VStr ""));
                ("thumbnailUrl", thumbnail);
                ("user", user);
                ("isDownloadable", flag);
                ("formats", VDict formats)].
Proof.
  intros H. unfold model_data in H.
  do 5 (bind_inv H;
        match goal with E : py_get _ _ _ _ = _ |- _ =>
          apply py_get_dict_return in E; destruct E as [-> ->] end).
  bind_inv H. bind_inv H. bind_inv H. bind_inv H. bind_inv H. bind_inv H. bind_inv H.
  unfold ret in H. injection H as <- _.
  eexists _, _, _. reflexivity.
Qed.

(** The loop keeps the models flagged downloadable, in their order, and turns
    each into its projection. *)
Lemma downloadable_models_spec (items : list value) :
  forall acc s l s',
    downloadable_models items acc s = (Return l, s') ->
    exists l', l = (acc ++ l')%list /\ Forall2 summarises (filter downloadable items) l'.
Proof.
  induction items as [| m rest IH]; intros acc s l s' H; simpl in H.
  - unfold ret in H. injection H as <- _. exists []. rewrite app_nil_r.
    split; [reflexivity | constructor].
  - bind_inv H. destruct (py_get_return_dict _ _ _ _ _ _ E) as [d ->].
    apply py_get_dict_return in E. destruct E as [-> ->].
    cbn [filter downloadable].
    destruct (truthy (dict_get d "isDownloadable" (VBool false))) eqn:Hd; cbn [negb] in H.
    + bind_inv H. apply model_data_summarises in E.
      destruct E as [thumbnail [user [formats ->]]].
      apply IH in H. destruct H as [l' [-> Hl']].
      eexists (_ :: l'). rewrite <- app_assoc. split; [reflexivity |].
      constructor; [| exact Hl'].
      exists d, thumbnail, user, formats. auto.
    + apply IH in H. exact H.
Qed.

(** One entry that is no object stops the loop with an exception. *)
Lemma downloadable_models_bad_entry (items : list value) (m : value) :
  In m items -> (forall d, m <> VDict d) ->
  forall acc s, exists e s', downloadable_models items acc s = (Raise e, s').
Proof.
  intros Hin Hm. induction items as [| x rest IH]; [contradiction |].
  intros acc s. simpl. destruct Hin as [-> | Hin].
  - unfold bind. destruct m; try (eexists _, _; reflexivity).
    exfalso. apply (Hm d). reflexivity.
  - unfold bind at 1. destruct (py_get x "isDownloadable" (VBool false) s)
      as [[flag | e] s1]; [| eexists _, _; reflexivity].
    destruct (negb (truthy flag)); [apply IH; exact Hin |].
    unfold bind at 1. destruct (model_data x flag s1) as [[md | e] s2];
      [apply IH; exact Hin | eexists _, _; reflexivity].
Qed.

(** What [search_results] computes once the body is an object with the list
    [items] under [results], [models]. *)
Lemma search_results_on_list (env : environment) (resp : response)
      (data results : list (string * value)) (items : list value) (s : state) :
  ~ 400 <= status_code resp < 600 ->
  json_loads env (content resp) = Decoded (VDict data) ->
  assoc "results" data = Some (VDict results) ->
  assoc "models" results = Some (VList items) ->
  search_results env resp s = downloadable_models items [] s.
Proof.
  intros Hst Hj Hr Hm. unfold search_results, bind.
  destruct (raise_for_status_cases env (api_url ++ "/search") resp s)
    as [[Hyes _] | [_ He]]; [contradiction |].
  rewrite He. unfold response_json. rewrite Hj.
  unfold py_contains, py_getitem, py_iter, dict_has, ret. rewrite Hr, Hm.
  destruct (downloadable_models items [] s) as [[l | e] s1]; reflexivity.
Qed.

(** X4. When the answer to a search is a JSON object with a list of models
    under [results], [models], the result of [search] is either empty or
    exactly the projections of the models whose [isDownloadable] is truthy,
    in the order of the answer: entries that are not downloadable are
    dropped, and each projection copies uid, name, description, viewerUrl,
    embedUrl (empty when absent) and the flag. *)
Theorem search_returns_downloadable_summaries (env : environment)
        (query limit : value) (params : list (string * value)) (s : state)
        (resp : response) (data results : list (string * value)) (items : list value) :
  search_params query limit s = (Return params, s) ->
  network env (sent s) (search_request params) = Answered resp ->
  ~ 400 <= status_code resp < 600 ->
  json_loads env (content resp) = Decoded (VDict data) ->
  assoc "results" data = Some (VDict results) ->
  assoc "models" results = Some (VList items) ->
  exists l,
    search env query limit s = (Return l, requested (search_request params) s)
    /\ (l = [] \/ Forall2 summarises (filter downloadable items) l).
Proof.
  intros Hp Hn Hst Hj Hr Hm.
  pose proof (search_results_pure env resp (requested (search_request params) s)) as Pure.
  unfold search, try_except, bind. rewrite Hp. unfold send. rewrite Hn.
  fold (requested (search_request params) s).
  rewrite (search_results_on_list env resp data results items _ Hst Hj Hr Hm) in *.
  destruct (downloadable_models items [] (requested (search_request params) s))
    as [[l | e] s1] eqn:E; cbn [snd] in Pure; subst s1.
  - exists l. split; [reflexivity |]. right.
    apply downloadable_models_spec in E. destruct E as [l' [-> Hl']]. exact Hl'.
  - exists []. split; [reflexivity | left; reflexivity].
Qed.

Lemma search_returns_downloadable_summaries_witness :
  exists l,
    search (Catalog.world 2000 "search" "links") (VStr "chair") (VInt 10)
      (Sample.start (Sample.credential "" "" VNone) Sample.tmp_only)
    = (Return l,
       requested (search_request [("q", VStr "chair"); ("count", VInt 10)])
         (Sample.start (Sample.credential "" "" VNone) Sample.tmp_only))
    /\ (l = [] \/ Forall2 summarises (filter downloadable [Catalog.statue; Catalog.chair]) l).
Proof.
  eapply (search_returns_downloadable_summaries
            (Catalog.world 2000 "search" "links") (VStr "chair") (VInt 10)).
  - reflexivity.
  - reflexivity.
  - simpl. lia.
  - reflexivity.
  - reflexivity.
  - reflexivity.
Defined.

(** The sample search keeps the chair and drops the statue. *)
Example search_sample_result :
  fst (search (Catalog.world 2000 "search" "links") (VStr "chair") (VInt 10)
         (Sample.start (Sample.credential "" "" VNone) Sample.tmp_only))
  = Return [VDict [("uid", VStr "m1"); ("name", VStr "Chair");
                   ("description", VStr ""); ("viewerUrl", VStr "");
                   ("embedUrl", VStr ""); ("thumbnailUrl", VStr "");
                   ("user", VStr ""); ("isDownloadable", VBool true);
                   ("formats", VDict [("gltf", VInt 1024)])]].
Proof. vm_compute. reflexivity. Qed.

(** X5. All or nothing: when the list of models in the answer has one entry
    that is no JSON object, [search] returns the empty list, whatever
    downloadable models the list holds besides. *)
Theorem search_bad_entry_empties_result (env : environment)
        (query limit : value) (params : list (string * value)) (s : state)
        (resp : response) (data results : list (string * value)) (items : list value)
        (m : value) :
  search_params query limit s = (Return params, s) ->
  network env (sent s) (search_request params) = Answered resp ->
  ~ 400 <= status_code resp < 600 ->
  json_loads env (content resp) = Decoded (VDict data) ->
  assoc "results" data = Some (VDict results) ->
  assoc "models" results = Some (VList items) ->
  In m items -> (forall d, m <> VDict d) ->
  search env query limit s = (Return [], requested (search_request params) s).
Proof.
  intros Hp Hn Hst Hj Hr Hm Hin Hbad.
  pose proof (search_results_pure env resp (requested (search_request params) s)) as Pure.
  unfold search, try_except, bind. rewrite Hp. unfold send. rewrite Hn.
  fold (requested (search_request params) s).
  rewrite (search_results_on_list env resp data results items _ Hst Hj Hr Hm) in *.
  destruct (downloadable_models_bad_entry items m Hin Hbad []
              (requested (search_request params) s)) as [e [s1 E]].
  rewrite E in *. cbn [snd] in Pure. subst s1. reflexivity.
Qed.

Lemma search_bad_entry_empties_result_witness :
  search (Catalog.world 2000 "broken" "links") (VStr "chair") (VInt 10)
    (Sample.start (Sample.credential "" "" VNone) Sample.tmp_only)
  = (Return [],
     requested (search_request [("q", VStr "chair"); ("count", VInt 10)])
       (Sample.start (Sample.credential "" "" VNone) Sample.tmp_only)).
Proof.
  eapply (search_bad_entry_empties_result
            (Catalog.world 2000 "broken" "links") (VStr "chair") (VInt 10)
            _ _ _ _ _ _ VNone).
  - reflexivity.
  - reflexivity.
  - simpl. lia.
  - reflexivity.
  - reflexivity.
  - reflexivity.
  - right. left. reflexivity.
  - intros d. discriminate.
Defined.

(** *** What a tool call never changes *)

(** X6. Neither a tool call nor a refresh ever changes the client id or the
    client secret, whatever the network answers: only the two tokens and the
    expiry are assigned. *)
Theorem client_identity_is_kept (env : environment) (tok : value) (name : string)
        (inputs : value) (s : state) :
  identity (snd (handle_invoke_tool env tok name inputs s)) = identity s
  /\ identity (snd (refresh_access_token env s)) = identity s
  /\ identity (snd (get_auth_headers env s)) = identity s.
Proof.
  split; [| split].
  - apply (preserves_handle_invoke_tool env _ identity); intros; reflexivity.
  - apply (preserves_refresh_access_token env _ identity); intros; reflexivity.
  - apply (preserves_get_auth_headers env _ identity); intros; reflexivity.
Qed.

(** *** Listing and dispatch *)

(** X7. The tools [handle_list_tools] names are the search tool and, with a
    startup access token only, the download tool; a call under any name that
    is not listed is answered "Unknown tool: <name>" and changes nothing: no
    request, no clock reading, no change of credential or disk. *)
Theorem unlisted_tool_is_unknown (env : environment) (tok : value) (name : string)
        (inputs : value) (s : state) :
  ~ In name (map tool_name (handle_list_tools tok)) ->
  map tool_name (handle_list_tools tok)
  = (search_tool_name :: (if truthy tok then [get_gltf_url_tool_name] else []))%list
  /\ handle_invoke_tool env tok name inputs s
     = (Return [text_of (VDict [("error", VStr ("Unknown tool: " ++ name))])], s).
Proof.
  intros Hnot. split.
  - unfold handle_list_tools. destruct (truthy tok); reflexivity.
  - unfold handle_invoke_tool, try_except.
    assert (H1 : (name =? search_tool_name)%string = false).
    { apply String.eqb_neq. intros ->. apply Hnot. left. reflexivity. }
    rewrite H1.
    destruct (truthy tok) eqn:Ht; [| rewrite andb_false_r; reflexivity].
    assert (H2 : (name =? get_gltf_url_tool_name)%string = false).
    { apply String.eqb_neq. intros ->. apply Hnot.
      unfold handle_list_tools. rewrite Ht. right. left. reflexivity. }
    rewrite H2. reflexivity.
Qed.

Lemma unlisted_tool_is_unknown_witness :
  handle_invoke_tool (Sample.world 2000 (Sample.answer 200 []) None) (VStr "tok")
    "threejs_download" (VDict [])
    (Sample.start (Sample.credential "tok" "" VNone) Sample.tmp_only)
  = (Return [text_of (VDict [("error", VStr "Unknown tool: threejs_download")])],
     Sample.start (Sample.credential "tok" "" VNone) Sample.tmp_only).
Proof.
  destruct (unlisted_tool_is_unknown
              (Sample.world 2000 (Sample.answer 200 []) None) (VStr "tok")
              "threejs_download" (VDict [])
              (Sample.start (Sample.credential "tok" "" VNone) Sample.tmp_only))
    as [_ H].
  - simpl. intros [H | [H | []]]; discriminate.
  - exact H.
Defined.

(** X8. A required argument that is missing: the search tool without
    [query], and the enabled download tool without [model_id], answer with
    the error payload whose message is the quoted name of the key, and send
    nothing. *)
Theorem missing_argument_is_reported (env : environment) (tok : value)
        (inputs : list (string * value)) (s : state) :
  (assoc "query" inputs = None ->
   handle_invoke_tool env tok search_tool_name (VDict inputs) s
   = (Return [text_of (VDict [("error", VStr "'query'")])], s))
  /\ (truthy tok = true -> assoc "model_id" inputs = None ->
      handle_invoke_tool env tok get_gltf_url_tool_name (VDict inputs) s
      = (Return [text_of (VDict [("error", VStr "'model_id'")])], s)).
Proof.
  split.
  - intros Hq. unfold handle_invoke_tool, try_except, bind.
    rewrite String.eqb_refl. unfold py_getitem. rewrite Hq. reflexivity.
  - intros Ht Hm. unfold handle_invoke_tool, try_except, bind.
    replace (get_gltf_url_tool_name =? search_tool_name)%string with false
      by reflexivity.
    rewrite String.eqb_refl, Ht. cbn [andb]. unfold py_getitem. rewrite Hm.
    reflexivity.
Qed.

Lemma missing_argument_is_reported_witness :
  handle_invoke_tool (Sample.world 2000 (Sample.answer 200 []) None) (VStr "tok")
    search_tool_name (VDict [("limit", VInt 5)])
    (Sample.start (Sample.credential "tok" "" VNone) Sample.tmp_only)
  = (Return [text_of (VDict [("error", VStr "'query'")])],
     Sample.start (Sample.credential "tok" "" VNone) Sample.tmp_only).
Proof.
  destruct (missing_argument_is_reported
              (Sample.world 2000 (Sample.answer 200 []) None) (VStr "tok")
              [("limit", VInt 5)]
              (Sample.start (Sample.credential "tok" "" VNone) Sample.tmp_only))
    as [H _].
  apply H. reflexivity.
Defined.

(** *** Catalog calls *)

(** X9. Without an access token [get_download_link] fails before anything
    else happens: it raises the [ValueError] "Failed to get download link:
    OAuth2 access token is required for downloading models" and the state is
    as before, with no request sent and no clock reading. *)
Theorem get_download_link_requires_token (env : environment) (model_id : value)
        (s : state) :
  truthy (access_token (self s)) = false ->
  get_download_link env model_id s
  = (Raise (ValueError ("Failed to get download link: "
                        ++ "OAuth2 access token is required for downloading models")), s).
Proof.
  intros H. unfold get_download_link, try_except, bind, get_self.
  rewrite H. reflexivity.
Qed.

Lemma get_download_link_requires_token_witness :
  get_download_link (Catalog.world 2000 "search" "links") (VStr "m1")
    (Sample.start (Sample.credential "" "r" VNone) Sample.tmp_only)
  = (Raise (ValueError ("Failed to get download link: "
                        ++ "OAuth2 access token is required for downloading models")),
     Sample.start (Sample.credential "" "r" VNone) Sample.tmp_only).
Proof.
  apply (get_download_link_requires_token (Catalog.world 2000 "search" "links")).
  reflexivity.
Defined.

Lemma wrapped_failure {A} (c : M A) (prefix : string) (s s' : state) (e : exn) :
  try_except c (fun e => raise (ValueError (prefix ++ str_exn e))) s = (Raise e, s') ->
  exists msg, e = ValueError (prefix ++ msg).
Proof.
  unfold try_except, raise. destruct (c s) as [[a | e0] s1]; intros H;
    [discriminate |].
  injection H as <- _. eexists. reflexivity.
Qed.

(** X10. Whatever goes wrong in [get_model], [get_download_link] or
    [download_model] (the network, the status, the body, the disk, the
    archive), the caller sees a [ValueError], and its message starts with the
    text that names the operation. *)
Theorem catalog_failures_are_value_errors (env : environment) (s s' : state)
        (e : exn) (prefix : string) :
  catalog_call_fails env s e s' prefix ->
  exists msg, e = ValueError (prefix ++ msg).
Proof.
  intros [model_id H | model_id H | url output H].
  - unfold get_model in H. apply wrapped_failure in H. exact H.
  - unfold get_download_link in H. apply wrapped_failure in H. exact H.
  - unfold download_model in H. apply wrapped_failure in H. exact H.
Qed.

Lemma catalog_failures_are_value_errors_witness :
  exists msg,
    ValueError "Failed to get model details: 503 Server Error:  for url: https://api.sketchfab.com/v3/models/m1"
    = ValueError ("Failed to get model details: " ++ msg).
Proof.
  apply (catalog_failures_are_value_errors
           (Sample.world 2000 (Sample.answer 503 []) None)
           (Sample.start (Sample.credential "" "" VNone) Sample.tmp_only)
           (requested (get_request (model_url (VStr "m1")) [])
              (Sample.start (Sample.credential "" "" VNone) Sample.tmp_only))).
  apply (get_model_fails _ _ _ _ (VStr "m1")). vm_compute. reflexivity.
Defined.

(** X11. The header [get_auth_headers] returns is built from the access
    token the client holds after the validity check, that is after a refresh
    if one was made: a bearer header with that token, or no header when the
    token is empty. *)
Theorem get_auth_headers_uses_current_token (env : environment) (s s' : state)
        (headers : list (string * string)) :
  get_auth_headers env s = (Return headers, s') ->
  headers = (if truthy (access_token (self s'))
             then [("Authorization", "Bearer " ++ py_str (access_token (self s')))]
             else []).
Proof.
  intros H. unfold get_auth_headers in H.
  bind_inv H. bind_inv H. unfold get_self in E0. injection E0 as <- <-.
  destruct (truthy (access_token (self s0))) eqn:Ht;
    unfold ret in H; injection H as <- <-; rewrite Ht; reflexivity.
Qed.

(** *** Refresh and persistence *)

Lemma store_updated_credentials_never_raises (env : environment)
      (file : option string) : never_raises (store_updated_credentials env file).
Proof.
  unfold store_updated_credentials. apply never_raises_try.
  intros e. apply never_raises_ret.
Qed.

Lemma store_updated_credentials_keeps_self (env : environment) (file : option string)
      (s : state) :
  self (snd (store_updated_credentials env file s)) = self s
  /\ sent (snd (store_updated_credentials env file s)) = sent s
  /\ ticks (snd (store_updated_credentials env file s)) = ticks s.
Proof.
  pose proof (preserves_store_updated_credentials env _
                (fun s => (self s, sent s, ticks s)) (fun d s => eq_refl) file s) as P.
  injection P as P1 P2 P3. auto.
Qed.

(** A write that can go through does, and leaves the document in the file. *)
Lemma store_updated_credentials_completes (env : environment) (file : option string)
      (s : state) :
  writable env s (credentials_path env file) ->
  exists s',
    store_updated_credentials env file s = (Return true, s')
    /\ self s' = self s
    /\ lookup_file (credentials_path env file) (files (disk s'))
       = Some (list_byte_of_string (json_dumps None (credentials_dict (self s)))).
Proof.
  intros [Hd [He [Hnd [Hf Hw]]]].
  set (path := credentials_path env file) in *.
  assert (Hp : path <> "").
  { intros E. apply Hd. rewrite E. reflexivity. }
  set (s1 := with_disk (add_dirs (self_and_ancestors (dirname path)) (disk s)) s).
  assert (Hdir1 : isdir (disk s1) (dirname path) = true).
  { apply isdir_after_makedirs. exact Hd. }
  assert (Hnd1 : isdir (disk s1) path = false).
  { unfold s1. cbn [disk with_disk]. rewrite isdir_add_dirs, Hnd.
    apply not_among_ancestors; assumption. }
  set (s2 := with_disk (put_file path [] (disk s1)) s1).
  assert (Hopen : open_w path s1 = (Return tt, s2)).
  { unfold open_w. apply String.eqb_neq in Hp. rewrite Hp, Hnd1, He, Hdir1.
    rewrite orb_true_r. reflexivity. }
  unfold store_updated_credentials. cbv zeta. fold path.
  unfold try_except, bind, get_self.
  rewrite (makedirs_succeeds (dirname path) s Hd Hf). fold s1.
  rewrite Hopen. unfold write_all. cbn [self s2 s1 with_disk]. rewrite Hw.
  eexists. split; [reflexivity |]. split; [reflexivity |].
  cbn [disk with_disk put_file files lookup_file]. rewrite String.eqb_refl. reflexivity.
Qed.

(** The state in which a successful exchange leaves the client before the
    credentials are stored. *)
Lemma refresh_access_token_exchange (env : environment) (s : state) (resp : response)
      (d : list (string * value)) (n : Z) :
  py_all [refresh_token (self s); client_id (self s); client_secret (self s)] = true ->
  network env (sent s) (refresh_request (self s)) = Answered resp ->
  ~ 400 <= status_code resp < 600 ->
  json_loads env (content resp) = Decoded (VDict d) ->
  time_to_live d = Some n ->
  refresh_access_token env s
  = (Return true,
     snd (store_updated_credentials env None
            (with_self (refreshed (self s) d (clock env (ticks s)) n)
               (ticked (requested (refresh_request (self s)) s))))).
Proof.
  intros Hall Hn Hst Hj Httl.
  unfold refresh_access_token, bind at 1, get_self. rewrite Hall. cbn [negb].
  unfold try_except, bind at 1, send. rewrite Hn.
  fold (requested (refresh_request (self s)) s).
  unfold bind at 1.
  destruct (raise_for_status_cases env oauth_url resp
              (requested (refresh_request (self s)) s)) as [[Hyes _] | [_ He]];
    [contradiction |].
  rewrite He. unfold bind at 1, response_json. rewrite Hj.
  unfold time_to_live in Httl. unfold refreshed.
  destruct (dict_has d "refresh_token") eqn:Hr;
    destruct (dict_has d "expires_in") eqn:Hx;
    try (injection Httl as <-);
    unfold bind, py_get, py_contains, ret, set_access_token, set_refresh_token,
      set_token_expiry, time_time, ticked, requested, with_self;
    cbn [self ticks sent disk temps access_token refresh_token client_id
         client_secret token_expiry];
    rewrite ?Hr, ?Hx, ?Httl;
    cbn [self ticks sent disk temps access_token refresh_token client_id
         client_secret token_expiry];
    change (30 * 24 * 60 * 60) with 2592000;
    match goal with
    | |- context [store_updated_credentials ?e None ?st] =>
        destruct (store_updated_credentials_never_raises e None st) as [b [s3 Es]];
        rewrite Es; reflexivity
    end.
Qed.





Lemma get_auth_headers_uses_current_token_witness :
  fst (get_auth_headers (Catalog.world 2000 "search" "links")
         (Sample.start (Sample.credential "tok" "r" (VInt 1000)) Sample.tmp_only))
  = Return [("Authorization", "Bearer new")].
Proof.
  pose proof (get_auth_headers_uses_current_token
                (Catalog.world 2000 "search" "links")
                (Sample.start (Sample.credential "tok" "r" (VInt 1000)) Sample.tmp_only)
                (snd (get_auth_headers (Catalog.world 2000 "search" "links")
                        (Sample.start (Sample.credential "tok" "r" (VInt 1000))
                           Sample.tmp_only)))
                [("Authorization", "Bearer new")]) as H.
  assert (E : get_auth_headers (Catalog.world 2000 "search" "links")
                (Sample.start (Sample.credential "tok" "r" (VInt 1000)) Sample.tmp_only)
              = (Return [("Authorization", "Bearer new")],
                 snd (get_auth_headers (Catalog.world 2000 "search" "links")
                        (Sample.start (Sample.credential "tok" "r" (VInt 1000))
                           Sample.tmp_only)))).
  { vm_compute. reflexivity. }
  specialize (H E). rewrite E. reflexivity.
Defined.

(** *** Round trip through the credentials file *)

(** X14. Saving and loading again: when the file can be written, the JSON
    decoder gives back the document that was written and the expiry is set,
    [load_from_file] after [store_updated_credentials] returns a client with
    the stored credential, which is the credential itself when none of its
    four texts is empty. *)
Theorem store_then_load_from_file (env : environment) (file : option string)
        (s : state) :
  writable env s (credentials_path env file) ->
  json_loads env (list_byte_of_string (json_dumps None (credentials_dict (self s))))
  = Decoded (credentials_dict (self s)) ->
  truthy (token_expiry (self s)) = true ->
  fst (load_from_file env file (snd (store_updated_credentials env file s)))
  = Return (Some (as_stored (self s)))
  /\ (py_all [access_token (self s); refresh_token (self s); client_id (self s);
              client_secret (self s)] = true ->
      as_stored (self s) = self s).
Proof.
  intros Hw Hj He. split.
  - destruct (store_updated_credentials_completes env file s Hw) as [s1 [Es [Hs Hl]]].
    rewrite Es. cbn [snd].
    unfold load_from_file. cbv zeta. unfold try_except, bind at 1, get_disk.
    rewrite (isfile_path_exists _ _ _ Hl). cbn [negb].
    unfold bind at 1, json_load, bind at 1, read_all. rewrite Hl, Hj.
    unfold credentials_dict, as_stored, py_or, init, set_expiry, bind, py_get,
      py_contains, py_getitem, dict_has, dict_get, ret, time_time.
    cbn. rewrite He.
    destruct (truthy (access_token (self s))) eqn:Ha; cbn; rewrite ?Ha, ?He; cbn;
      rewrite ?He; reflexivity.
  - intros Hall. unfold py_all in Hall. cbn [forallb] in Hall.
    repeat (apply andb_true_iff in Hall; destruct Hall as [? Hall]).
    unfold as_stored, py_or.
    repeat match goal with H : truthy _ = true |- _ => rewrite H; clear H end.
    destruct (self s); reflexivity.
Qed.

Lemma store_then_load_from_file_witness :
  fst (load_from_file
         (saving_world (Sample.credential "tok" "r" (VInt 5000)) None None) None
         (snd (store_updated_credentials
                 (saving_world (Sample.credential "tok" "r" (VInt 5000)) None None) None
                 (Sample.start (Sample.credential "tok" "r" (VInt 5000)) Sample.tmp_only))))
  = Return (Some (Sample.credential "tok" "r" (VInt 5000))).
Proof.
  destruct (store_then_load_from_file
              (saving_world (Sample.credential "tok" "r" (VInt 5000)) None None) None
              (Sample.start (Sample.credential "tok" "r" (VInt 5000)) Sample.tmp_only))
    as [H _].
  - unfold writable. repeat split; try reflexivity. vm_compute. discriminate.
  - vm_compute. reflexivity.
  - reflexivity.
  - rewrite H. reflexivity.
Defined.

(** X15. A path without a directory part cannot be saved to: for a bare
    file name [os.path.dirname] is empty, [os.makedirs] refuses the empty
    name, and [store_updated_credentials] returns [False] with nothing
    written. *)
Theorem store_to_bare_file_name_fails (env : environment) (p : string) (s : state) :
  p <> "" -> dirname p = "" ->
  store_updated_credentials env (Some p) s = (Return false, s).
Proof.
  intros Hp Hd. unfold store_updated_credentials. cbv zeta.
  unfold credentials_path. apply String.eqb_neq in Hp. rewrite Hp.
  unfold try_except, bind, get_self. rewrite Hd. reflexivity.
Qed.

Lemma store_to_bare_file_name_fails_witness :
  store_updated_credentials (Sample.world 2000 (Sample.answer 200 []) None)
    (Some "credentials.json")
    (Sample.start (Sample.credential "tok" "r" (VInt 5000)) Sample.tmp_only)
  = (Return false,
     Sample.start (Sample.credential "tok" "r" (VInt 5000)) Sample.tmp_only).
Proof.
  apply (store_to_bare_file_name_fails (Sample.world 2000 (Sample.answer 200 []) None)).
  - discriminate.
  - reflexivity.
Defined.

(** *** Startup *)

Lemma truthy_str (x : string) : truthy (VStr x) = negb (x =? "")%string.
Proof. reflexivity. Qed.

Lemma resolved_from_environment (arg var : option string) (stored : value) :
  arg = None \/ arg = Some "" ->
  resolved arg var stored
    (py_or (match var with Some s => VStr s | None => VStr "" end) stored).
Proof.
  intros Harg. unfold py_or. destruct var as [e |].
  - rewrite truthy_str. destruct (String.eqb_spec e "") as [-> | He]; cbn [negb].
    + apply from_file; auto.
    + apply (from_environment _ _ _ e); auto.
  - apply from_file; auto.
Qed.

Lemma resolved_py_or (arg var : option string) (stored : value) :
  resolved arg var stored
    (py_or (py_or (of_option arg)
                  (match var with Some s => VStr s | None => VStr "" end))
           stored).
Proof.
  destruct arg as [a |]; cbn [of_option].
  - unfold py_or at 2. rewrite truthy_str.
    destruct (String.eqb_spec a "") as [-> | Ha]; cbn [negb].
    + apply resolved_from_environment. auto.
    + unfold py_or. rewrite truthy_str.
      apply String.eqb_neq in Ha as Ha'. rewrite Ha'. cbn [negb].
      apply (from_command_line _ _ _ a); auto.
  - unfold py_or at 2. cbn [truthy].
    apply resolved_from_environment. auto.
Qed.

Lemma load_credentials_file_returns (env : environment) (path : string) (s : state) :
  exists loaded, load_credentials_file env path s = (Return loaded, s).
Proof.
  unfold load_credentials_file, try_except, bind, get_disk.
  destruct (path_exists (disk s) path); [| eexists; reflexivity].
  unfold json_load, bind, read_all.
  destruct (lookup_file path (files (disk s))) as [data |].
  - destruct (json_loads env data) as [v | msg]; [| eexists; reflexivity].
    destruct v; eexists; reflexivity.
  - destruct (isdir (disk s) path); eexists; reflexivity.
Qed.

(** The resolution of the five values. *)
Lemma get_oauth_credentials_resolves (env : environment) (s : state) :
  exists loaded a r c k,
    load_credentials_file env (credentials_path env (credentials_file_arg (argv env))) s
    = (Return loaded, s)
    /\ resolved (sketchfab_access_token (argv env))
                (getenv env "SKETCHFAB_ACCESS_TOKEN") (access_token loaded) a
    /\ resolved (sketchfab_refresh_token (argv env))
                (getenv env "SKETCHFAB_REFRESH_TOKEN") (refresh_token loaded) r
    /\ resolved (sketchfab_client_id (argv env))
                (getenv env "SKETCHFAB_CLIENT_ID") (client_id loaded) c
    /\ resolved (sketchfab_client_secret (argv env))
                (getenv env "SKETCHFAB_CLIENT_SECRET") (client_secret loaded) k
    /\ get_oauth_credentials env s
       = (Return (VDict [("access_token", a); ("refresh_token", r);
                         ("client_id", c); ("client_secret", k);
                         ("token_expiry", token_expiry loaded)]), s).
Proof.
  destruct (load_credentials_file_returns env
              (credentials_path env (credentials_file_arg (argv env))) s)
    as [loaded El].
  exists loaded. eexists _, _, _, _. split; [exact El |].
  split; [apply resolved_py_or |]. split; [apply resolved_py_or |].
  split; [apply resolved_py_or |]. split; [apply resolved_py_or |].
  unfold get_oauth_credentials, bind. rewrite El. reflexivity.
Qed.

(** X16. [get_oauth_credentials] resolves each of the four texts on its
    own: the command line argument when it is given and not empty, else the
    environment variable when it is set and not empty, else the value of the
    credentials file; the expiry comes from the file alone.  With an access
    token and a truthy stored expiry the status log reads the clock and
    compares it with the expiry: the dict is returned when the expiry is a
    number, and a [TypeError] leaves the function, ending startup, when it is
    not. *)
Theorem get_oauth_credentials_precedence (env : environment) (s : state) :
  exists loaded a r c k,
    load_credentials_file env (credentials_path env (credentials_file_arg (argv env))) s
    = (Return loaded, s)
    /\ resolved (sketchfab_access_token (argv env))
                (getenv env "SKETCHFAB_ACCESS_TOKEN") (access_token loaded) a
    /\ resolved (sketchfab_refresh_token (argv env))
                (getenv env "SKETCHFAB_REFRESH_TOKEN") (refresh_token loaded) r
    /\ resolved (sketchfab_client_id (argv env))
                (getenv env "SKETCHFAB_CLIENT_ID") (client_id loaded) c
    /\ resolved (sketchfab_client_secret (argv env))
                (getenv env "SKETCHFAB_CLIENT_SECRET") (client_secret loaded) k
    /\ (truthy a && truthy (token_expiry loaded) = false ->
        get_oauth_credentials_with_status env s
        = (Return (VDict [("access_token", a); ("refresh_token", r);
                          ("client_id", c); ("client_secret", k);
                          ("token_expiry", token_expiry loaded)]), s))
    /\ (truthy a && truthy (token_expiry loaded) = true ->
        forall z, as_number (token_expiry loaded) = Some z ->
        get_oauth_credentials_with_status env s
        = (Return (VDict [("access_token", a); ("refresh_token", r);
                          ("client_id", c); ("client_secret", k);
                          ("token_expiry", token_expiry loaded)]), ticked s))
    /\ (truthy a && truthy (token_expiry loaded) = true ->
        as_number (token_expiry loaded) = None ->
        exists msg,
          get_oauth_credentials_with_status env s = (Raise (TypeError msg), ticked s)).
Proof.
  destruct (get_oauth_credentials_resolves env s)
    as [loaded [a [r [c [k [El [Ha [Hr [Hc [Hk Eg]]]]]]]]]].
  exists loaded, a, r, c, k. repeat (split; [assumption |]).
  assert (Ew : get_oauth_credentials_with_status env s
               = (credentials <- ret (VDict [("access_token", a); ("refresh_token", r);
                                             ("client_id", c); ("client_secret", k);
                                             ("token_expiry", token_expiry loaded)]) ;;
                  log_token_status env a (token_expiry loaded) ;;
                  ret credentials) s).
  { unfold get_oauth_credentials_with_status, bind at 1. rewrite Eg. reflexivity. }
  rewrite Ew. unfold bind at 1, ret at 1. unfold bind, log_token_status.
  split; [| split].
  - intros Hf. apply andb_false_iff in Hf.
    destruct (truthy a); [| reflexivity].
    destruct Hf as [Hf | Hf]; [discriminate |]. rewrite Hf. reflexivity.
  - intros Ht z Hz. apply andb_true_iff in Ht. destruct Ht as [Ht1 Ht2].
    rewrite Ht1, Ht2. unfold time_time, bind. rewrite Hz. reflexivity.
  - intros Ht Hz. apply andb_true_iff in Ht. destruct Ht as [Ht1 Ht2].
    rewrite Ht1, Ht2. unfold time_time, bind. rewrite Hz. eexists. reflexivity.
Qed.

Lemma get_oauth_credentials_precedence_witness :
  exists loaded a r c k,
    resolved (Some "cli") (Some "var") (access_token loaded) a
    /\ a = VStr "cli"
    /\ get_oauth_credentials_with_status
         (saving_world (Sample.credential "file" "r" (VInt 5000)) (Some "cli") (Some "var"))
         (Sample.start (Sample.credential "" "" VNone)
            (saved_disk (Sample.credential "file" "r" (VInt 5000))))
       = (Return (VDict [("access_token", a); ("refresh_token", r);
                         ("client_id", c); ("client_secret", k);
                         ("token_expiry", token_expiry loaded)]),
          ticked (Sample.start (Sample.credential "" "" VNone)
                    (saved_disk (Sample.credential "file" "r" (VInt 5000))))).
Proof.
  destruct (get_oauth_credentials_precedence
              (saving_world (Sample.credential "file" "r" (VInt 5000))
                 (Some "cli") (Some "var"))
              (Sample.start (Sample.credential "" "" VNone)
                 (saved_disk (Sample.credential "file" "r" (VInt 5000)))))
    as [loaded [a [r [c [k [El [Ha [_ [_ [_ [_ [H _]]]]]]]]]]]].
  assert (Hl : loaded = Sample.credential "file" "r" (VInt 5000)).
  { vm_compute in El. injection El as <-. reflexivity. }
  assert (Hcli : a = VStr "cli").
  { inversion Ha as [x Hx Hne | x Hx | Hx]; subst.
    - injection Hx as <-. reflexivity.
    - destruct Hx; discriminate.
    - destruct Hx; discriminate. }
  exists loaded, a, r, c, k. split; [exact Ha |]. split; [exact Hcli |].
  apply (H ltac:(subst; reflexivity) 5000). subst. reflexivity.
Defined.

(** A stored expiry that is a text ends startup: with a token in the file
    and [token_expiry] the text "soon", the comparison with the clock
    raises. *)
Example get_oauth_credentials_text_expiry :
  let c := Sample.credential "file" "r" (VStr "soon") in
  fst (get_oauth_credentials_with_status (saving_world c None None)
         (Sample.start (Sample.credential "" "" VNone) (saved_disk c)))
  = Raise (TypeError "'>' not supported between instances of 'float' and 'str'").
Proof. vm_compute. reflexivity. Qed.

(** What [get_oauth_credentials] returns once its status log went through. *)
Lemma get_oauth_credentials_with_status_return (env : environment) (s s1 : state)
      (v a r i k e : value) :
  get_oauth_credentials env s
  = (Return (VDict [("access_token", a); ("refresh_token", r); ("client_id", i);
                    ("client_secret", k); ("token_expiry", e)]), s) ->
  get_oauth_credentials_with_status env s = (Return v, s1) ->
  v = VDict [("access_token", a); ("refresh_token", r); ("client_id", i);
             ("client_secret", k); ("token_expiry", e)]
  /\ ((truthy a && truthy e = false /\ s1 = s)
      \/ (truthy a = true /\ truthy e = true /\ s1 = ticked s
          /\ exists z, as_number e = Some z)).
Proof.
  intros Eg H.
  assert (Ew : get_oauth_credentials_with_status env s
               = (log_token_status env a e ;;
                  ret (VDict [("access_token", a); ("refresh_token", r);
                              ("client_id", i); ("client_secret", k);
                              ("token_expiry", e)])) s).
  { unfold get_oauth_credentials_with_status, bind at 1. rewrite Eg. reflexivity. }
  rewrite Ew in H. unfold bind, log_token_status, ret in H.
  destruct (truthy a) eqn:Ta; [destruct (truthy e) eqn:Te |].
  - unfold time_time, bind in H. fold (ticked s) in H.
    destruct (as_number e) as [z |] eqn:Ez; [| discriminate].
    injection H as <- <-. split; [reflexivity |]. right. eauto.
  - injection H as <- <-. split; [reflexivity |]. left. auto.
  - injection H as <- <-. split; [reflexivity |]. left. auto.
Qed.

(** X17. When [main] gets as far as building the client, the client holds
    the four resolved texts; its expiry is the one of the credentials file
    when that is truthy, else thirty days from the reading of the clock when
    there is an access token, else unset.  The token the handlers close over
    is the client's, so the download tool is listed exactly when the client
    holds an access token. *)
Theorem main_client_expiry (env : environment) (s s' : state) (tok : value)
        (c : client) :
  main_client env s = (Return (tok, c), s') ->
  exists a r i k e,
    get_oauth_credentials env s
    = (Return (VDict [("access_token", a); ("refresh_token", r); ("client_id", i);
                      ("client_secret", k); ("token_expiry", e)]), s)
    /\ tok = a
    /\ c = {| access_token := a; refresh_token := r; client_id := i;
              client_secret := k;
              token_expiry := if truthy e then e
                              else if truthy a
                                   then VInt (clock env (ticks s) + 2592000)
                                   else VNone |}
    /\ (In get_gltf_url_tool_name (map tool_name (handle_list_tools tok))
        <-> truthy (access_token c) = true).
Proof.
  intros H.
  destruct (get_oauth_credentials_resolves env s)
    as [loaded [a [r [i [k [_ [_ [_ [_ [_ Eg]]]]]]]]]].
  exists a, r, i, k, (token_expiry loaded). split; [exact Eg |].
  assert (L : forall t, In get_gltf_url_tool_name (map tool_name (handle_list_tools t))
                        <-> truthy t = true).
  { intros t. unfold handle_list_tools. destruct (truthy t); simpl; split; intros Hx;
      auto; try discriminate. destruct Hx as [Hx | []]. discriminate. }
  unfold main_client in H. bind_inv H.
  destruct (get_oauth_credentials_with_status_return env s s0 a0 a r i k
              (token_expiry loaded) Eg E) as [-> Hs].
  change (((log_expiry_margin env a (token_expiry loaded) ;;
            sketchfab_client <- init env a r i k ;;
            ret (a, if truthy (token_expiry loaded)
                    then set_expiry sketchfab_client (token_expiry loaded)
                    else sketchfab_client)) s0) = (Return (tok, c), s')) in H.
  unfold bind, log_expiry_margin, init, time_time, ret, set_expiry in H.
  cbn [access_token refresh_token client_id client_secret token_expiry truthy negb] in H.
  destruct Hs as [[Hf ->] | [Ta [Te [-> [z Ez]]]]].
  - apply andb_false_iff in Hf.
    destruct (truthy a) eqn:Ta.
    + destruct Hf as [Hf | Hf]; [discriminate |]. rewrite Hf in *.
      cbn in H. injection H as <- <- _.
      split; [reflexivity |]. split; [reflexivity |].
      rewrite L. cbn [access_token]. rewrite Ta. split; auto.
    + cbn in H. destruct (truthy (token_expiry loaded)) eqn:Te;
        injection H as <- <- _;
        (split; [reflexivity |]); (split; [reflexivity |]);
        rewrite L; cbn [access_token]; rewrite Ta; split; auto.
  - rewrite Ta, Te, Ez in H. cbn in H. injection H as <- <- _.
    split; [reflexivity |]. split; [rewrite Te; reflexivity |].
    rewrite L. cbn [access_token]. rewrite Ta. split; auto.
Qed.

Lemma main_client_expiry_witness :
  exists a r i k e,
    get_oauth_credentials
      (saving_world (Sample.credential "file" "r" VNone) None None)
      (Sample.start (Sample.credential "" "" VNone)
         (saved_disk (Sample.credential "file" "r" VNone)))
    = (Return (VDict [("access_token", a); ("refresh_token", r); ("client_id", i);
                      ("client_secret", k); ("token_expiry", e)]),
       Sample.start (Sample.credential "" "" VNone)
         (saved_disk (Sample.credential "file" "r" VNone)))
    /\ VStr "file" = a
    /\ Sample.credential "file" "r" (VInt 2594000)
       = {| access_token := a; refresh_token := r; client_id := i;
            client_secret := k;
            token_expiry := if truthy e then e
                            else if truthy a then VInt (2000 + 2592000) else VNone |}
    /\ (In get_gltf_url_tool_name (map tool_name (handle_list_tools (VStr "file")))
        <-> truthy (access_token (Sample.credential "file" "r" (VInt 2594000))) = true).
Proof.
  apply (main_client_expiry
           (saving_world (Sample.credential "file" "r" VNone) None None)
           (Sample.start (Sample.credential "" "" VNone)
              (saved_disk (Sample.credential "file" "r" VNone)))
           (snd (main_client
                   (saving_world (Sample.credential "file" "r" VNone) None None)
                   (Sample.start (Sample.credential "" "" VNone)
                      (saved_disk (Sample.credential "file" "r" VNone)))))
           (VStr "file") (Sample.credential "file" "r" (VInt 2594000))).
  vm_compute. reflexivity.
Defined.

(** *** Downloads: the file that is written *)

Lemma lookup_put_other (p q : string) (data : list byte) (fs : filesystem) :
  p <> q -> lookup_file p (files (put_file q data fs)) = lookup_file p (files fs).
Proof.
  intros H. cbn [put_file files lookup_file].
  apply String.eqb_neq in H. rewrite H. reflexivity.
Qed.

Lemma path_is_not_extracted (path name : string) :
  path <> (path ++ "_extracted") ++ "/" ++ name.
Proof.
  intros H. apply (f_equal String.length) in H.
  rewrite !length_append in H. simpl in H. lia.
Qed.

Lemma file_kept_by_makedirs (p name : string) :
  preserves (fun s => lookup_file p (files (disk s))) (makedirs name).
Proof.
  intros s. unfold makedirs. destruct (name =? "")%string; [reflexivity |].
  destruct (find _ _); reflexivity.
Qed.

Lemma file_kept_by_open_w (p q : string) :
  p <> q -> preserves (fun s => lookup_file p (files (disk s))) (open_w q).
Proof.
  intros H s. unfold open_w.
  repeat match goal with |- context [if ?b then _ else _] => destruct b end;
    try reflexivity.
  cbn [snd disk with_disk]. apply lookup_put_other. exact H.
Qed.

Lemma file_kept_by_write_all (env : environment) (p q : string) (data : list byte) :
  p <> q -> preserves (fun s => lookup_file p (files (disk s))) (write_all env q data).
Proof.
  intros H s. unfold write_all.
  destruct (write_fault env q data); cbn [snd disk with_disk];
    apply lookup_put_other; exact H.
Qed.

(** Extraction never writes over the archive itself. *)
Lemma file_kept_by_extractall (env : environment) (path : string)
      (entries : list (string * list byte)) :
  preserves (fun s => lookup_file path (files (disk s)))
    (extractall env (path ++ "_extracted") entries).
Proof.
  induction entries as [| [name data] rest IH]; simpl.
  - apply preserves_ret.
  - apply preserves_bind; [| intros _; exact IH].
    destruct (ends_with_slash name).
    + apply file_kept_by_makedirs.
    + apply preserves_bind; [apply file_kept_by_makedirs | intros _].
      apply preserves_bind;
        [apply file_kept_by_open_w | intros _; apply file_kept_by_write_all];
        apply path_is_not_extracted.
Qed.

Lemma raise_for_status_return (url : string) (resp : response) (s s' : state) :
  raise_for_status url resp s = (Return tt, s') -> s' = s.
Proof.
  unfold raise_for_status.
  repeat match goal with |- context [if ?b then _ else _] => destruct b end;
    intros H; try discriminate; injection H as <-; reflexivity.
Qed.

Lemma write_all_return (env : environment) (path : string) (data : list byte)
      (s s' : state) :
  write_all env path data s = (Return tt, s') ->
  lookup_file path (files (disk s')) = Some data.
Proof.
  unfold write_all. destruct (write_fault env path data); intros H; [discriminate |].
  injection H as <-. cbn [disk with_disk put_file files lookup_file].
  rewrite String.eqb_refl. reflexivity.
Qed.

Lemma zip_open_return (env : environment) (path : string) (s s' : state)
      (entries : list (string * list byte)) :
  zip_open env path s = (Return entries, s') -> s' = s.
Proof.
  unfold zip_open, bind, read_all.
  destruct (lookup_file path (files (disk s))) as [data |].
  - destruct (zip_read env data); intros H; [discriminate |].
    injection H as _ <-. reflexivity.
  - destruct (isdir (disk s) path); discriminate.
Qed.

(** X18. Whenever [download_model] returns a result, the file at its
    [output_path] holds exactly the bytes of the response, extraction
    included; the path is the one given when one was given, and otherwise the
    temporary name, with the suffix ".zip" exactly when the body was taken for
    an archive. *)
Theorem download_model_saves_body (env : environment) (url : string)
        (output : option string) (s s' : state) (r : download_result) :
  download_model env url output s = (Return r, s') ->
  exists resp,
    network env (sent s) (download_request url) = Answered resp
    /\ lookup_file (output_path r) (files (disk s')) = Some (content resp)
    /\ (forall p, output = Some p -> p <> "" -> output_path r = p)
    /\ (output = None \/ output = Some "" ->
        output_path r = temp_stem env (temps s) ++ (if is_zip r then ".zip" else "")).
Proof.
  intros H. unfold download_model in H. apply reraise_return in H.
  apply bind_return in H. destruct H as [resp [s1 [Hsend H]]].
  unfold send in Hsend.
  destruct (network env (sent s) (download_request url)) as [msg | resp'] eqn:Hn;
    [discriminate |].
  injection Hsend as -> <-.
  apply bind_return in H. destruct H as [[] [s2 [Hst H]]]. cbv zeta in H.
  apply raise_for_status_return in Hst. subst s2.
  apply bind_return in H. destruct H as [path [s3 [Hpath H]]].
  apply bind_return in H. destruct H as [[] [s4 [_ H]]].
  apply bind_return in H. destruct H as [[] [s5 [Hwrite H]]].
  apply write_all_return in Hwrite.
  exists resp. split; [reflexivity |].
  assert (Hchoice :
            (forall p, output = Some p -> p <> "" -> path = p)
            /\ (output = None \/ output = Some "" ->
                path = temp_stem env (temps s)
                       ++ (if detect_zip (content resp) then ".zip" else ""))).
  { destruct output as [p |].
    - destruct (String.eqb_spec p "") as [-> | Hp]; cbn [negb] in Hpath.
      + unfold named_temporary_file in Hpath. injection Hpath as <- _.
        split; [intros p E Hp; injection E as <-; contradiction | reflexivity].
      + unfold ret in Hpath. injection Hpath as <- _.
        split; [intros q E _; injection E as <-; reflexivity |].
        intros [E | E]; [discriminate | injection E as ->; contradiction].
    - unfold named_temporary_file in Hpath. injection Hpath as <- _.
      split; [intros p E; discriminate | reflexivity]. }
  destruct (detect_zip (content resp)) eqn:Hz.
  - apply bind_return in H. destruct H as [[] [s6 [Hmk H]]].
    apply bind_return in H. destruct H as [entries [s7 [Hzo H]]].
    apply bind_return in H. destruct H as [[] [s8 [Hex H]]].
    unfold ret in H. injection H as <- <-. cbn [output_path is_zip].
    split; [| exact Hchoice].
    pose proof (file_kept_by_makedirs path (path ++ "_extracted") s5) as K1.
    rewrite Hmk in K1. cbn [snd] in K1.
    apply zip_open_return in Hzo. subst s7.
    pose proof (file_kept_by_extractall env path entries s6) as K2.
    rewrite Hex in K2. cbn [snd] in K2.
    rewrite K2, K1. exact Hwrite.
  - unfold ret in H. injection H as <- <-. cbn [output_path is_zip].
    split; [exact Hwrite | exact Hchoice].
Qed.

Lemma download_model_saves_body_witness :
  exists resp,
    network (Sample.world 2000 (Sample.answer 200 [x50; x4b; x03; x04]) None) []
      (download_request "http://cdn/model") = Answered resp
    /\ lookup_file "/tmp/tmpabc.zip"
         (files (disk (snd (download_model
                              (Sample.world 2000 (Sample.answer 200 [x50; x4b; x03; x04])
                                 None)
                              "http://cdn/model" None
                              (Sample.start (Sample.credential "tok" "" VNone)
                                 Sample.tmp_only)))))
       = Some (content resp).
Proof.
  destruct (download_model_saves_body
              (Sample.world 2000 (Sample.answer 200 [x50; x4b; x03; x04]) None)
              "http://cdn/model" None
              (Sample.start (Sample.credential "tok" "" VNone) Sample.tmp_only)
              (snd (download_model
                      (Sample.world 2000 (Sample.answer 200 [x50; x4b; x03; x04]) None)
                      "http://cdn/model" None
                      (Sample.start (Sample.credential "tok" "" VNone) Sample.tmp_only)))
              {| output_path := "/tmp/tmpabc.zip"; is_zip := true;
                 extract_dir := Some "/tmp/tmpabc.zip_extracted";
                 extracted_files := [] |})
    as [resp [Hn [Hl _]]].
  - vm_compute. reflexivity.
  - exists resp. split; [exact Hn | exact Hl].
Defined.

(** *** Download-URL resolution: the other answers *)

Lemma gltf_tool_after_detail (env : environment) (tok model_id : value)
      (inputs detail : list (string * value)) (s s1 : state) :
  truthy tok = true ->
  assoc "model_id" inputs = Some model_id ->
  get_model env model_id s = (Return (VDict detail), s1) ->
  truthy (dict_get detail "isDownloadable" (VBool false)) = true ->
  handle_invoke_tool env tok get_gltf_url_tool_name (VDict inputs) s
  = try_except
      (download_links <- get_download_link env model_id ;;
       has_gltf <- py_contains download_links "gltf" ;;
       if negb has_gltf then
         name' <- py_get (VDict detail) "name" model_id ;;
         formats <- py_keys download_links ;;
         ret [text_of (VDict [("error", VStr ("GLTF format is not available for model '"
                                              ++ py_str name' ++ "'."));
                              ("available_formats", VList formats)])]
       else
         gltf <- py_getitem download_links "gltf" ;;
         gltf_url <- py_getitem gltf "url" ;;
         name' <- py_get (VDict detail) "name" model_id ;;
         ret [text_of (VDict [("model_name", name'); ("model_id", model_id);
                              ("gltf_url", gltf_url)])])
      (fun e => ret [text_of (VDict [("error", VStr (str_exn e))])]) s1.
Proof.
  intros Htok Hid Hget Hd.
  unfold handle_invoke_tool, try_except, bind at 1.
  replace (get_gltf_url_tool_name =? search_tool_name)%string with false
    by reflexivity.
  rewrite String.eqb_refl, Htok. cbn [andb].
  unfold bind at 1, py_getitem at 1. rewrite Hid. unfold ret at 1.
  unfold bind at 1. rewrite Hget.
  unfold bind at 1, py_get at 1, ret at 1. rewrite Hd. cbn [negb].
  reflexivity.
Qed.

(** X19. The download tool on a downloadable model whose download links
    have no member [gltf]: the answer is the payload with the message "GLTF
    format is not available for model '<name>'." and, under
    [available_formats], the keys of the links as they came, in their
    order. *)
Theorem gltf_format_unavailable_payload (env : environment) (tok model_id : value)
        (inputs detail links : list (string * value)) (s s1 s2 : state) :
  truthy tok = true ->
  assoc "model_id" inputs = Some model_id ->
  get_model env model_id s = (Return (VDict detail), s1) ->
  truthy (dict_get detail "isDownloadable" (VBool false)) = true ->
  get_download_link env model_id s1 = (Return (VDict links), s2) ->
  assoc "gltf" links = None ->
  handle_invoke_tool env tok get_gltf_url_tool_name (VDict inputs) s
  = (Return [text_of (VDict [("error",
                              VStr ("GLTF format is not available for model '"
                                    ++ py_str (dict_get detail "name" model_id)
                                    ++ "'."));
                             ("available_formats",
                              VList (map (fun kv => VStr (fst kv)) links))])], s2).
Proof.
  intros Htok Hid Hget Hd Hlinks Hg.
  rewrite (gltf_tool_after_detail env tok model_id inputs detail s s1 Htok Hid Hget Hd).
  unfold try_except, bind. rewrite Hlinks.
  unfold py_contains, dict_has, ret. rewrite Hg. reflexivity.
Qed.

Lemma gltf_format_unavailable_payload_witness :
  fst (handle_invoke_tool (Catalog.world 2000 "search" "nogltf") (VStr "tok")
         get_gltf_url_tool_name (VDict [("model_id", VStr "m1")])
         (Sample.start (Sample.credential "tok" "" VNone) Sample.tmp_only))
  = Return [text_of (VDict [("error",
                             VStr "GLTF format is not available for model 'Chair'.");
                            ("available_formats", VList [VStr "usdz"; VStr "glb"])])].
Proof.
  set (s := Sample.start (Sample.credential "tok" "" VNone) Sample.tmp_only).
  pose (s1 := requested (get_request (model_url (VStr "m1"))
                           [("Authorization", "Bearer tok")]) s).
  pose (s2 := requested (get_request (download_link_url (VStr "m1"))
                           [("Authorization", "Bearer tok")]) s1).
  rewrite (gltf_format_unavailable_payload
             (Catalog.world 2000 "search" "nogltf") (VStr "tok") (VStr "m1")
             [("model_id", VStr "m1")]
             [("uid", VStr "m1"); ("name", VStr "Chair"); ("isDownloadable", VBool true);
              ("archives", VDict [("gltf", VDict [("size", VInt 1024)]); ("usdz", VNone)])]
             [("usdz", VDict [("url", VStr "https://cdn/m1.usdz")]);
              ("glb", VDict [("url", VStr "https://cdn/m1.glb")])]
             s s1 s2).
  - reflexivity.
  - reflexivity.
  - reflexivity.
  - vm_compute. reflexivity.
  - reflexivity.
  - vm_compute. reflexivity.
  - reflexivity.
Defined.

(** X20. The download tool on a downloadable model whose links have a
    [gltf] object with a [url]: the answer holds the model's name (its id
    when the detail has no name), the id as it was given and that url;
    nothing is downloaded. *)
Theorem gltf_url_payload (env : environment) (tok model_id url : value)
        (inputs detail links gltf : list (string * value)) (s s1 s2 : state) :
  truthy tok = true ->
  assoc "model_id" inputs = Some model_id ->
  get_model env model_id s = (Return (VDict detail), s1) ->
  truthy (dict_get detail "isDownloadable" (VBool false)) = true ->
  get_download_link env model_id s1 = (Return (VDict links), s2) ->
  assoc "gltf" links = Some (VDict gltf) ->
  assoc "url" gltf = Some url ->
  handle_invoke_tool env tok get_gltf_url_tool_name (VDict inputs) s
  = (Return [text_of (VDict [("model_name", dict_get detail "name" model_id);
                             ("model_id", model_id);
                             ("gltf_url", url)])], s2).
Proof.
  intros Htok Hid Hget Hd Hlinks Hg Hu.
  rewrite (gltf_tool_after_detail env tok model_id inputs detail s s1 Htok Hid Hget Hd).
  unfold try_except, bind. rewrite Hlinks.
  unfold py_contains, py_getitem, dict_has, ret. rewrite Hg, Hu. reflexivity.
Qed.

Lemma gltf_url_payload_witness :
  fst (handle_invoke_tool (Catalog.world 2000 "search" "links") (VStr "tok")
         get_gltf_url_tool_name (VDict [("model_id", VStr "m1")])
         (Sample.start (Sample.credential "tok" "" VNone) Sample.tmp_only))
  = Return [text_of (VDict [("model_name", VStr "Chair"); ("model_id", VStr "m1");
                            ("gltf_url", VStr "https://cdn/m1.zip")])].
Proof.
  set (s := Sample.start (Sample.credential "tok" "" VNone) Sample.tmp_only).
  pose (s1 := requested (get_request (model_url (VStr "m1"))
                           [("Authorization", "Bearer tok")]) s).
  pose (s2 := requested (get_request (download_link_url (VStr "m1"))
                           [("Authorization", "Bearer tok")]) s1).
  rewrite (gltf_url_payload
             (Catalog.world 2000 "search" "links") (VStr "tok") (VStr "m1")
             (VStr "https://cdn/m1.zip") [("model_id", VStr "m1")]
             [("uid", VStr "m1"); ("name", VStr "Chair"); ("isDownloadable", VBool true);
              ("archives", VDict [("gltf", VDict [("size", VInt 1024)]); ("usdz", VNone)])]
             [("gltf", VDict [("url", VStr "https://cdn/m1.zip"); ("size", VInt 1024)]);
              ("usdz", VDict [("url", VStr "https://cdn/m1.usdz")])]
             [("url", VStr "https://cdn/m1.zip"); ("size", VInt 1024)]
             s s1 s2).
  - reflexivity.
  - reflexivity.
  - reflexivity.
  - vm_compute. reflexivity.
  - reflexivity.
  - vm_compute. reflexivity.
  - reflexivity.
  - reflexivity.
Defined.

(** X21. When the model's detail cannot be fetched, the download tool
    answers with the error payload whose message starts with "Failed to get
    model details: ", in the state [get_model] left: the download links are
    not asked for. *)
Theorem model_fetch_failure_payload (env : environment) (tok model_id : value)
        (inputs : list (string * value)) (s s1 : state) (e : exn) :
  truthy tok = true ->
  assoc "model_id" inputs = Some model_id ->
  get_model env model_id s = (Raise e, s1) ->
  exists msg,
    handle_invoke_tool env tok get_gltf_url_tool_name (VDict inputs) s
    = (Return [text_of (VDict [("error",
                                VStr ("Failed to get model details: " ++ msg))])], s1)
    /\ forall r, In r (sent s1) ->
                 In r (sent s) \/ req_url r <> download_link_url model_id.
Proof.
  intros Htok Hid Hget.
  pose proof Hget as Hw. unfold get_model in Hw. apply wrapped_failure in Hw.
  destruct Hw as [msg ->]. exists msg. split.
  - unfold handle_invoke_tool, try_except, bind.
    replace (get_gltf_url_tool_name =? search_tool_name)%string with false
      by reflexivity.
    rewrite String.eqb_refl, Htok. cbn [andb].
    unfold py_getitem. rewrite Hid. unfold ret at 1. rewrite Hget. reflexivity.
  - intros r Hin. apply (get_model_sends_no_download_link env model_id s r).
    rewrite Hget. exact Hin.
Qed.

Lemma model_fetch_failure_payload_witness :
  exists msg,
    handle_invoke_tool (Sample.world 2000 (Sample.answer 404 []) None) (VStr "tok")
      get_gltf_url_tool_name (VDict [("model_id", VStr "m1")])
      (Sample.start (Sample.credential "tok" "" VNone) Sample.tmp_only)
    = (Return [text_of (VDict [("error",
                                VStr ("Failed to get model details: " ++ msg))])],
       requested (get_request (model_url (VStr "m1")) [("Authorization", "Bearer tok")])
         (Sample.start (Sample.credential "tok" "" VNone) Sample.tmp_only)).
Proof.
  destruct (model_fetch_failure_payload
              (Sample.world 2000 (Sample.answer 404 []) None) (VStr "tok") (VStr "m1")
              [("model_id", VStr "m1")]
              (Sample.start (Sample.credential "tok" "" VNone) Sample.tmp_only)
              (requested (get_request (model_url (VStr "m1"))
                            [("Authorization", "Bearer tok")])
                 (Sample.start (Sample.credential "tok" "" VNone) Sample.tmp_only))
              (ValueError "Failed to get model details: 404 Client Error:  for url: https://api.sketchfab.com/v3/models/m1"))
    as [msg [H _]].
  - reflexivity.
  - reflexivity.
  - vm_compute. reflexivity.
  - exists msg. exact H.
Defined.

(** *** More on the token lifecycle *)



(** X23. An expiry that is truthy but no number breaks the validity check:
    with an access token and such an expiry (a text loaded from a credentials
    file, say), [ensure_valid_token] reads the clock and raises a
    [TypeError], and [get_auth_headers] raises with it. *)
Theorem ensure_valid_token_needs_numeric_expiry (env : environment) (s : state) :
  truthy (access_token (self s)) = true ->
  truthy (token_expiry (self s)) = true ->
  as_number (token_expiry (self s)) = None ->
  exists msg,
    ensure_valid_token env s = (Raise (TypeError msg), ticked s)
    /\ get_auth_headers env s = (Raise (TypeError msg), ticked s).
Proof.
  intros Ha He Hn. eexists.
  assert (E : ensure_valid_token env s
              = (Raise (TypeError ("unsupported operand type(s) for -: '"
                                   ++ type_name (token_expiry (self s)) ++ "' and 'int'")),
                 ticked s)).
  { unfold ensure_valid_token, bind, get_self, time_time. rewrite Ha, He, Hn.
    reflexivity. }
  split; [exact E |].
  unfold get_auth_headers, bind. rewrite E. reflexivity.
Qed.

Lemma ensure_valid_token_needs_numeric_expiry_witness :
  exists msg,
    ensure_valid_token (Sample.world 2000 (Sample.answer 200 []) None)
      (Sample.start (Sample.credential "tok" "r" (VStr "soon")) Sample.tmp_only)
    = (Raise (TypeError msg),
       ticked (Sample.start (Sample.credential "tok" "r" (VStr "soon")) Sample.tmp_only)).
Proof.
  destruct (ensure_valid_token_needs_numeric_expiry
              (Sample.world 2000 (Sample.answer 200 []) None)
              (Sample.start (Sample.credential "tok" "r" (VStr "soon")) Sample.tmp_only))
    as [msg [H _]].
  - reflexivity.
  - reflexivity.
  - reflexivity.
  - exists msg. exact H.
Defined.

(** X24. Without an access token [get_model] goes out unauthenticated: it
    sends exactly one request, to the model's address and with no header,
    reads no clock and attempts no refresh. *)
Theorem get_model_without_token_is_unauthenticated (env : environment)
        (model_id : value) (s : state) :
  truthy (access_token (self s)) = false ->
  snd (get_model env model_id s) = requested (get_request (model_url model_id) []) s.
Proof.
  intros Ha. unfold get_model, try_except, bind at 1.
  assert (E : get_auth_headers env s = (Return [], s)).
  { assert (Ev : ensure_valid_token env s = (Return false, s)).
    { unfold ensure_valid_token, bind, get_self. rewrite Ha. reflexivity. }
    unfold get_auth_headers, bind. rewrite Ev. unfold get_self. simpl.
    rewrite Ha. reflexivity. }
  rewrite E. unfold bind at 1, send.
  destruct (network env (sent s) (get_request (model_url model_id) []))
    as [msg | resp]; [reflexivity |].
  fold (requested (get_request (model_url model_id) []) s).
  unfold bind.
  destruct (raise_for_status_cases env (model_url model_id) resp
              (requested (get_request (model_url model_id) []) s))
    as [[_ [e He]] | [_ He]]; rewrite He; [reflexivity |].
  unfold response_json. destruct (json_loads env (content resp)); reflexivity.
Qed.

Lemma get_model_without_token_is_unauthenticated_witness :
  sent (snd (get_model (Catalog.world 2000 "search" "links") (VStr "m1")
               (Sample.start (Sample.credential "" "" VNone) Sample.tmp_only)))
  = [get_request (model_url (VStr "m1")) []].
Proof.
  rewrite (get_model_without_token_is_unauthenticated
             (Catalog.world 2000 "search" "links") (VStr "m1")
             (Sample.start (Sample.credential "" "" VNone) Sample.tmp_only)).
  - reflexivity.
  - reflexivity.
Defined.

(** X25. The operations that swallow their failures never raise, whatever
    the disk and the network do: [refresh_access_token] and
    [store_updated_credentials] answer with a boolean, [load_from_file] with a
    client or [None], [search] with a list. *)
Theorem swallowing_operations_never_raise (env : environment) (s : state) :
  (exists b s', refresh_access_token env s = (Return b, s'))
  /\ (forall file, exists b s', store_updated_credentials env file s = (Return b, s'))
  /\ (forall file, exists c s', load_from_file env file s = (Return c, s'))
  /\ (forall query limit, exists l s', search env query limit s = (Return l, s')).
Proof.
  split; [| split; [| split]].
  - unfold refresh_access_token, bind, get_self.
    destruct (negb _); [eexists _, _; reflexivity |].
    apply never_raises_try. intros e. apply never_raises_ret.
  - intros file. apply store_updated_credentials_never_raises.
  - intros file. unfold load_from_file. cbv zeta. apply never_raises_try.
    intros e. apply never_raises_ret.
  - intros query limit. unfold search. apply never_raises_try.
    intros e. apply never_raises_ret.
Qed.

(** X26. A download that gets no usable answer (the request raises, or the
    status is 4xx or 5xx) raises a [ValueError] "Failed to download model:
    ..." and touches no file: nothing is created on disk, not even the
    temporary file. *)
Theorem download_failure_writes_nothing (env : environment) (url : string)
        (output : option string) (s : state) :
  (exists msg, network env (sent s) (download_request url) = Unreachable msg)
  \/ (exists resp, network env (sent s) (download_request url) = Answered resp
                   /\ 400 <= status_code resp < 600) ->
  exists msg,
    download_model env url output s
    = (Raise (ValueError ("Failed to download model: " ++ msg)),
       requested (download_request url) s)
    /\ disk (requested (download_request url) s) = disk s
    /\ temps (requested (download_request url) s) = temps s.
Proof.
  intros [[msg Hn] | [resp [Hn Hst]]].
  - exists msg. split; [| split; reflexivity].
    unfold download_model, try_except, bind, send. rewrite Hn. reflexivity.
  - destruct (raise_for_status_cases env url resp (requested (download_request url) s))
      as [[_ [e He]] | [Hno _]]; [| contradiction].
    exists (str_exn e). split; [| split; reflexivity].
    unfold download_model, try_except, bind at 1, send. rewrite Hn.
    fold (requested (download_request url) s).
    unfold bind at 1. rewrite He. reflexivity.
Qed.

Lemma download_failure_writes_nothing_witness :
  exists msg,
    download_model (Sample.world 2000 (Sample.answer 404 []) None) "http://cdn/model"
      None (Sample.start (Sample.credential "tok" "" VNone) Sample.tmp_only)
    = (Raise (ValueError ("Failed to download model: " ++ msg)),
       requested (download_request "http://cdn/model")
         (Sample.start (Sample.credential "tok" "" VNone) Sample.tmp_only)).
Proof.
  destruct (download_failure_writes_nothing
              (Sample.world 2000 (Sample.answer 404 []) None) "http://cdn/model" None
              (Sample.start (Sample.credential "tok" "" VNone) Sample.tmp_only))
    as [msg [H _]].
  - right. eexists. split; [reflexivity |]. simpl. lia.
  - exists msg. exact H.
Defined.

Lemma load_from_file_object (env : environment) (file : option string)
      (s : state) (data : list byte) (d : list (string * value)) :
  lookup_file (credentials_path env file) (files (disk s)) = Some data ->
  json_loads env data = Decoded (VDict d) ->
  load_from_file env file s
  = (Return (Some (loaded_client d (clock env (ticks s)))),
     if truthy (dict_get d "access_token" (VStr "")) then ticked s else s).
Proof.
  intros Hl Hj.
  unfold load_from_file. cbv zeta. unfold try_except, bind at 1, get_disk.
  rewrite (isfile_path_exists _ _ _ Hl). cbn [negb].
  unfold bind at 1, json_load, bind at 1, read_all. rewrite Hl, Hj.
  unfold loaded_client, init, set_expiry, bind, py_get, py_contains, py_getitem,
    dict_has, ret, time_time, ticked.
  cbn [access_token refresh_token client_id client_secret token_expiry truthy negb
       andb].
  change (30 * 24 * 60 * 60) with 2592000.
  destruct (truthy (dict_get d "access_token" (VStr ""))) eqn:Ha;
    unfold dict_get in *;
    destruct (assoc "token_expiry" d) as [e |]; cbn;
    try (destruct (truthy e); cbn); rewrite ?Ha; reflexivity.
Qed.

(** X27. [load_from_file] on a credentials file that holds a JSON object:
    the client has the four texts as the file gives them, whatever their
    type, and empty texts for absent ones; its expiry is the one of the file
    when that is truthy, and otherwise the default of the constructor, thirty
    days from now if there is an access token. *)
Theorem load_from_file_builds_client (env : environment) (file : option string)
        (s : state) (data : list byte) (d : list (string * value)) :
  lookup_file (credentials_path env file) (files (disk s)) = Some data ->
  json_loads env data = Decoded (VDict d) ->
  fst (load_from_file env file s) = Return (Some (loaded_client d (clock env (ticks s))))
  /\ disk (snd (load_from_file env file s)) = disk s
  /\ sent (snd (load_from_file env file s)) = sent s.
Proof.
  intros Hl Hj. rewrite (load_from_file_object env file s data d Hl Hj).
  destruct (truthy (dict_get d "access_token" (VStr ""))); repeat split.
Qed.

Lemma load_from_file_builds_client_witness :
  fst (load_from_file
         (saving_world (Sample.credential "file" "r" VNone) None None) None
         (Sample.start (Sample.credential "" "" VNone)
            (saved_disk (Sample.credential "file" "r" VNone))))
  = Return (Some (Sample.credential "file" "r" (VInt 2594000))).
Proof.
  destruct (load_from_file_builds_client
              (saving_world (Sample.credential "file" "r" VNone) None None) None
              (Sample.start (Sample.credential "" "" VNone)
                 (saved_disk (Sample.credential "file" "r" VNone)))
              (list_byte_of_string
                 (json_dumps None (credentials_dict (Sample.credential "file" "r" VNone))))
              [("access_token", VStr "file"); ("refresh_token", VStr "r");
               ("client_id", VStr "id"); ("client_secret", VStr "secret");
               ("token_expiry", VInt 0)])
    as [H _].
  - reflexivity.
  - vm_compute. reflexivity.
  - rewrite H. reflexivity.
Defined.

(** The exchange fails before the body is taken apart: nothing is assigned. *)
Lemma refresh_access_token_exchange_fails (env : environment) (s : state) :
  py_all [refresh_token (self s); client_id (self s); client_secret (self s)] = true ->
  exchange_fails env s ->
  refresh_access_token env s = (Return false, requested (refresh_request (self s)) s).
Proof.
  intros Hall Hfail.
  unfold refresh_access_token, bind, get_self. rewrite Hall. simpl.
  unfold try_except, send.
  destruct Hfail as [msg Hn | resp Hn Hst | resp msg Hn Hj | resp v Hn Hj Hv];
    rewrite Hn; fold (requested (refresh_request (self s)) s); [reflexivity | | |].
  all: destruct (raise_for_status_cases env oauth_url resp
                   (requested (refresh_request (self s)) s)) as [[Hyes [e He]] | [Hno He]];
    rewrite He; try reflexivity; try contradiction.
  - unfold response_json. rewrite Hj. reflexivity.
  - unfold response_json. rewrite Hj.
    destruct v; try reflexivity. exfalso. apply (Hv d). reflexivity.
Qed.

(** X28. Refresh is best effort: when the token is due and the exchange
    fails (the request raises, status 4xx or 5xx, a body that is no JSON
    object), [get_auth_headers] still returns the bearer header with the token
    the client had, and the credential is unchanged; the only traces are the
    clock reading and the request. *)
Theorem failed_refresh_keeps_old_header (env : environment) (s : state) (e : Z) :
  truthy (access_token (self s)) = true ->
  token_expiry (self s) = VInt e -> e <> 0 ->
  clock env (ticks s) > e - 300 ->
  py_all [refresh_token (self s); client_id (self s); client_secret (self s)] = true ->
  exchange_fails env (ticked s) ->
  get_auth_headers env s
  = (Return [("Authorization", "Bearer " ++ py_str (access_token (self s)))],
     requested (refresh_request (self s)) (ticked s))
  /\ ensure_valid_token env s
     = (Return false, requested (refresh_request (self s)) (ticked s)).
Proof.
  intros Ha He Hz Hnow Hall Hfail.
  assert (E : ensure_valid_token env s
              = (Return false, requested (refresh_request (self s)) (ticked s))).
  { rewrite (ensure_valid_token_due env s e Ha He Hz Hnow).
    apply (refresh_access_token_exchange_fails env (ticked s) Hall Hfail). }
  split; [| exact E].
  unfold get_auth_headers, bind. rewrite E. unfold get_self. simpl.
  rewrite Ha. reflexivity.
Qed.

Lemma failed_refresh_keeps_old_header_witness :
  fst (get_auth_headers (Sample.world 2000 (Sample.answer 503 []) None)
         (Sample.start (Sample.credential "tok" "r" (VInt 1000)) Sample.tmp_only))
  = Return [("Authorization", "Bearer tok")].
Proof.
  destruct (failed_refresh_keeps_old_header
              (Sample.world 2000 (Sample.answer 503 []) None)
              (Sample.start (Sample.credential "tok" "r" (VInt 1000)) Sample.tmp_only)
              1000) as [H _].
  - reflexivity.
  - reflexivity.
  - discriminate.
  - reflexivity.
  - reflexivity.
  - eapply fails_status; [reflexivity |]. simpl. lia.
  - rewrite H. reflexivity.
Defined.

Lemma get_auth_headers_no_expiry (env : environment) (s : state) :
  truthy (access_token (self s)) = true ->
  truthy (token_expiry (self s)) = false ->
  get_auth_headers env s
  = (Return [("Authorization", "Bearer " ++ py_str (access_token (self s)))], s).
Proof.
  intros Ha He. unfold get_auth_headers, bind.
  rewrite (ensure_valid_token_falsy_expiry env s He). unfold get_self. simpl.
  rewrite Ha. reflexivity.
Qed.

Lemma request_then_decode (env : environment) (url : string)
      (headers : list (string * string)) (s : state) :
  snd ((response <- send env (get_request url headers) ;;
        raise_for_status url response ;;
        response_json env response) s)
  = requested (get_request url headers) s.
Proof.
  unfold bind at 1, send.
  destruct (network env (sent s) (get_request url headers)) as [msg | resp];
    [reflexivity |].
  fold (requested (get_request url headers) s). unfold bind.
  destruct (raise_for_status_cases env url resp (requested (get_request url headers) s))
    as [[_ [e He]] | [_ He]]; rewrite He; [reflexivity |].
  unfold response_json. destruct (json_loads env (content resp)); reflexivity.
Qed.

(** X29. With an access token and no expiry set, the two authenticated
    calls, [get_model] and [get_download_link], each send exactly one request,
    to the address of the model or of its download links, carrying the bearer
    header with the client's token; nothing else changes, whatever the
    answer. *)
Theorem authenticated_calls_carry_the_token (env : environment) (model_id : value)
        (s : state) :
  truthy (access_token (self s)) = true ->
  truthy (token_expiry (self s)) = false ->
  snd (get_model env model_id s)
  = requested (get_request (model_url model_id)
                 [("Authorization", "Bearer " ++ py_str (access_token (self s)))]) s
  /\ snd (get_download_link env model_id s)
     = requested (get_request (download_link_url model_id)
                    [("Authorization", "Bearer " ++ py_str (access_token (self s)))]) s.
Proof.
  intros Ha He.
  pose proof (get_auth_headers_no_expiry env s Ha He) as Eh.
  split.
  - pose proof (request_then_decode env (model_url model_id)
                  [("Authorization", "Bearer " ++ py_str (access_token (self s)))] s) as R.
    unfold get_model, try_except, bind at 1. rewrite Eh.
    destruct ((response <- send env (get_request (model_url model_id)
                                       [("Authorization",
                                         "Bearer " ++ py_str (access_token (self s)))]) ;;
               raise_for_status (model_url model_id) response ;;
               response_json env response) s) as [[v | e] s1];
      cbn [snd] in *; exact R.
  - pose proof (request_then_decode env (download_link_url model_id)
                  [("Authorization", "Bearer " ++ py_str (access_token (self s)))] s) as R.
    unfold get_download_link, try_except, bind at 1, get_self. rewrite Ha. cbn [negb].
    unfold bind at 1. rewrite Eh.
    destruct ((response <- send env (get_request (download_link_url model_id)
                                       [("Authorization",
                                         "Bearer " ++ py_str (access_token (self s)))]) ;;
               raise_for_status (download_link_url model_id) response ;;
               response_json env response) s) as [[v | e] s1];
      cbn [snd] in *; exact R.
Qed.

Lemma authenticated_calls_carry_the_token_witness :
  sent (snd (get_download_link (Catalog.world 2000 "search" "links") (VStr "m1")
               (Sample.start (Sample.credential "tok" "" VNone) Sample.tmp_only)))
  = [get_request (download_link_url (VStr "m1")) [("Authorization", "Bearer tok")]].
Proof.
  destruct (authenticated_calls_carry_the_token
              (Catalog.world 2000 "search" "links") (VStr "m1")
              (Sample.start (Sample.credential "tok" "" VNone) Sample.tmp_only))
    as [_ H].
  - reflexivity.
  - reflexivity.
  - rewrite H. reflexivity.
Defined.
